(** * gptdeploy: the session and conversation wrapper of [src/apis/gpt.py]

    A shallow embedding of the two classes of [src/apis/gpt.py],
    [GPTSession] and [_GPTConversation], and the properties of them that the
    specification states.

    - Python objects live in a store and are designated by their position in
      it: a conversation keeps the bound method [session.cost_callback], that
      is, a reference to the session that minted it, and every conversation
      of a session updates the same counters.
    - A Python function is a computation in a state-and-exception monad over
      the [world]: the process environment, the module attribute
      [openai.api_key], the provider behind the network, everything written
      to the console or sent to the provider so far, and the object store.
    - The module reaches the provider through two libraries: [openai], whose
      [ChatCompletion.create] makes one request, and langchain, whose
      [ChatOpenAI] validates its environment when it is constructed, repeats
      a request that the provider turns down for a while, and hands the
      tokens to its handlers only when it is verbose. Both are embedded as
      far as the module depends on them.
    - Python [float] is IEEE 754 binary64, taken from the Standard Library's
      executable specification [SpecFloat]. *)

From Stdlib Require Import ZArith String Ascii SpecFloat DecimalString Lia.
From stdpp Require Import gmap strings list.

(** ** Python strings *)

(** A [string] is a sequence of characters, one [ascii] per character. *)

Definition LF : string := String (ascii_of_nat 10) EmptyString.

(** [len(s)] *)
Definition len (s : string) : Z := Z.of_nat (String.length s).

(** [c.lower()] on one character: the capital letters A to Z and the
    accented capitals of Latin-1 move 32 places up, the rest stays. *)
Definition lower_char (c : ascii) : ascii :=
  let n := nat_of_ascii c in
  if ((65 <=? n) && (n <=? 90) || (192 <=? n) && (n <=? 222) && negb (n =? 215))%nat
  then ascii_of_nat (n + 32)
  else c.

(** [s.lower()] *)
Fixpoint lower (s : string) : string :=
  match s with
  | EmptyString => EmptyString
  | String c s' => String (lower_char c) (lower s')
  end.

(** [sum(l)] for a list of integers: a left fold from 0. *)
Definition sum (l : list Z) : Z := fold_left Z.add l 0%Z.

(** ** Python floats *)

Module Float.

Definition float : Type := spec_float.

Definition prec : Z := 53.
Definition emax : Z := 1024.

(** [float(n)] for an integer that is in range: the nearest double, ties
    to even. Beyond the range the result is an infinity, which the callers
    turn into [OverflowError]. *)
Definition of_int (n : Z) : float := binary_normalize prec emax n 0 false.

Definition add : float -> float -> float := SFadd prec emax.
Definition mul : float -> float -> float := SFmul prec emax.
Definition div : float -> float -> float := SFdiv prec emax.

Definition is_zero (x : float) : bool :=
  match x with S754_zero _ => true | _ => false end.

Definition is_infinity (x : float) : bool :=
  match x with S754_infinity _ => true | _ => false end.

(** The integer nearest to [m * 2^e * 1000], ties to even: the digits
    that the correctly rounded decimal conversion of CPython (used by
    [round(x, 3)] and by the format [.3f]) produces for [m * 2^e]. *)
Definition thousandths (m : positive) (e : Z) : Z :=
  match e with
  | Zneg p =>
      let n := (Zpos m * 1000)%Z in
      let d := (2 ^ Zpos p)%Z in
      let q := (n / d)%Z in
      let r := (n mod d)%Z in
      match (2 * r ?= d)%Z with
      | Lt => q
      | Gt => (q + 1)%Z
      | Eq => if Z.even q then q else (q + 1)%Z
      end
  | _ => (Zpos m * 1000 * 2 ^ e)%Z
  end.

(** [round(x, 3)]: the double nearest to the decimal with three places
    nearest to [x]; infinities and nan round to themselves, the sign is
    kept. *)
Definition round3 (x : float) : float :=
  match x with
  | S754_finite s m e =>
      match thousandths m e with
      | Zpos k => div (S754_finite s k 0) (of_int 1000)
      | _ => S754_zero s
      end
  | _ => x
  end.

Definition sign (s : bool) : string := if s then "-" else "".

Definition digits (n : Z) : string :=
  NilZero.string_of_uint (N.to_uint (Z.to_N n)).

(** Three decimal places, zero filled. *)
Definition frac3 (n : Z) : string :=
  if (n <? 10)%Z then "00" +:+ digits n
  else if (n <? 100)%Z then "0" +:+ digits n
  else digits n.

(** [format(x, '.3f')] *)
Definition format_3f (x : float) : string :=
  match x with
  | S754_nan => "nan"
  | S754_infinity s => sign s +:+ "inf"
  | S754_zero s => sign s +:+ "0.000"
  | S754_finite s m e =>
      let k := thousandths m e in
      sign s +:+ digits (k / 1000) +:+ "." +:+ frac3 (k mod 1000)
  end.

(** The double nearest to the fraction [n / d], as a decimal literal
    such as [3.4] or [0.03] denotes it. *)
Definition of_ratio (n d : Z) : float := div (of_int n) (of_int d).

End Float.

Export Float(float).

(** ** Exceptions *)

Inductive exn : Type :=
| Exception (message : string)
| KeyError (key : string)
| KeyError_of (keys : gset string)
| ZeroDivisionError
| OverflowError
| RateLimitError
| InvalidRequestError
| OtherError (name : string)
| NoSuchObject.

(** [KeyError_of keys] is the [KeyError] whose argument is a set of names.
    [OtherError] stands for any other exception that a library raises, by the
    name of its class. [NoSuchObject] is not a Python exception: it is the outcome of a
    method called on a position of the store that holds no object, which no
    Python program can do, since it only holds references that a constructor
    returned. *)

Inductive result (A : Type) : Type :=
| Returns (a : A)
| Raises (e : exn).

Arguments Returns {A} a.
Arguments Raises {A} e.

(** ** Messages, requests and the console *)

(** [langchain.schema]: a message is its role and its content. *)
Inductive BaseMessage : Type :=
| SystemMessage (text : string)
| HumanMessage (text : string)
| AIMessage (text : string)
| ChatMessage (role text : string).

Definition content (m : BaseMessage) : string :=
  match m with
  | SystemMessage c | HumanMessage c | AIMessage c | ChatMessage _ c => c
  end.

Inductive handler : Type :=
| AssistantStreamingStdOutCallbackHandler.

(** The keyword arguments [ChatOpenAI] is constructed with. *)
Record ChatOpenAI : Type := {
  kw_model_name : string;
  kw_streaming : bool;
  kw_callback_manager : list handler;
  kw_verbose : bool;
  kw_temperature : Z
}.

(** What the module asks of the provider: through
    [openai.ChatCompletion.create], or through a [ChatOpenAI] object called
    with its messages. *)
Inductive request : Type :=
| ChatCompletion_create (model : string) (messages : list (list (string * string)))
| ChatOpenAI_call (llm : ChatOpenAI) (messages : list BaseMessage).

(** What comes back: the tokens streamed so far, then the assembled message
    or an exception. An exception with no token before it is raised by the
    request itself; one that follows tokens is raised while the stream is
    read. *)
Inductive answer : Type :=
| Answers (tokens : list string) (response : BaseMessage)
| Fails (tokens : list string) (e : exn).

(** What the process does that can be observed from outside, in order.
    [ev_request r] is the call that hands [r] to the client library;
    [ev_attempt r] is one attempt of [ChatOpenAI] to have [r] answered over
    the network. *)
Inductive event : Type :=
| ev_request (r : request)
| ev_attempt (r : request)
| ev_sleep (seconds : Z)
| ev_print (args : list string)
| ev_print_colored (args : list string) (end_ : option string).

(** ** Objects *)

Record GPTSession : Type := {
  task_description : string;
  test_description : string;
  model_name : string;
  pricing_prompt : float;
  pricing_generation : float;
  chars_prompt_so_far : Z;
  chars_generation_so_far : Z
}.

(** [self_cost_callback] is the attribute [self.cost_callback]: the bound
    method of a session, that is, the reference to that session. *)
Record _GPTConversation : Type := {
  _chat : ChatOpenAI;
  self_cost_callback : nat;
  messages : list BaseMessage;
  system_message : BaseMessage
}.

(** ** The world *)

(** [provider n r] is what the provider answers when [r] is the request
    number [n] that this process makes: the provider is outside the program,
    and nothing is assumed about it. [rejections n r] are the exceptions
    with which the provider turns down, one after the other, the first
    attempts of a client library that repeats a request on its own, before
    it gives the answer [provider n r]. *)
Record world : Type := {
  environ : gmap string string;
  openai_api_key : option string;
  provider : nat -> request -> answer;
  rejections : nat -> request -> list exn;
  served : nat;
  trace : list event;
  sessions : list GPTSession;
  conversations : list _GPTConversation
}.

Definition set_openai_api_key (k : string) (w : world) : world :=
  {| environ := environ w; openai_api_key := Some k; provider := provider w;
     rejections := rejections w; served := served w; trace := trace w;
     sessions := sessions w; conversations := conversations w |}.

Definition record (evs : list event) (w : world) : world :=
  {| environ := environ w; openai_api_key := openai_api_key w;
     provider := provider w; rejections := rejections w; served := served w;
     trace := trace w ++ evs; sessions := sessions w;
     conversations := conversations w |}.

Definition next_request (w : world) : world :=
  {| environ := environ w; openai_api_key := openai_api_key w;
     provider := provider w; rejections := rejections w;
     served := S (served w); trace := trace w; sessions := sessions w;
     conversations := conversations w |}.

Definition set_sessions (l : list GPTSession) (w : world) : world :=
  {| environ := environ w; openai_api_key := openai_api_key w;
     provider := provider w; rejections := rejections w; served := served w;
     trace := trace w; sessions := l; conversations := conversations w |}.

Definition set_conversations (l : list _GPTConversation) (w : world) : world :=
  {| environ := environ w; openai_api_key := openai_api_key w;
     provider := provider w; rejections := rejections w; served := served w;
     trace := trace w; sessions := sessions w; conversations := l |}.

(** ** The monad of Python computations *)

Definition M (A : Type) : Type := world -> result A * world.

Definition ret {A} (a : A) : M A := fun w => (Returns a, w).

Definition raise {A} (e : exn) : M A := fun w => (Raises e, w).

Definition bind {A B} (m : M A) (k : A -> M B) : M B :=
  fun w =>
    match m w with
    | (Returns a, w') => k a w'
    | (Raises e, w') => (Raises e, w')
    end.

Declare Scope py_scope.
Delimit Scope py_scope with py.
Notation "x <- m ;; k" := (bind m (fun x => k))
  (at level 100, m at next level, right associativity) : py_scope.
Notation "m ;; k" := (bind m (fun _ => k))
  (at level 100, right associativity) : py_scope.
Open Scope py_scope.

(** [try: body except ...: handler]: [handlers e] is the handler of the
    first [except] clause that matches [e], if any; the state changes made by
    the body before it raised stay. *)
Definition try_except {A} (body : M A) (handlers : exn -> option (M A)) : M A :=
  fun w =>
    match body w with
    | (Raises e, w') =>
        match handlers e with
        | Some h => h w'
        | None => (Raises e, w')
        end
    | r => r
    end.

(** [for i in range(n): body], where the body ends in [break] or runs to
    its end or to a [continue]. *)
Inductive flow : Type := Break | Continue.

Fixpoint for_range (i : nat) (n : nat) (body : nat -> M flow) : M unit :=
  match n with
  | O => ret tt
  | S n' =>
      f <- body i ;;
      match f with
      | Break => ret tt
      | Continue => for_range (S i) n' body
      end
  end.

Definition when (b : bool) (m : M unit) : M unit :=
  if b then m else ret tt.

Fixpoint for_each {A} (l : list A) (body : A -> M unit) : M unit :=
  match l with
  | [] => ret tt
  | a :: l' => body a ;; for_each l' body
  end.

(** *** Primitive effects *)

(** [k in os.environ] *)
Definition environ_contains (k : string) : M bool :=
  fun w => (Returns (match environ w !! k with Some _ => true | None => false end), w).

(** [os.environ[k]] *)
Definition environ_get (k : string) : M string :=
  fun w =>
    match environ w !! k with
    | Some v => (Returns v, w)
    | None => (Raises (KeyError k), w)
    end.

Definition emit (e : event) : M unit :=
  fun w => (Returns tt, record [e] w).

(** [print(arg, ...)] *)
Definition print (args : list string) : M unit := emit (ev_print args).

(** Modelled from the spec: [print_colored(arg, ..., end=...)] of
    [src/utils/string_tools], which is not among the sources. The
    specification has it write colored text to the console; the call is
    recorded with its arguments. *)
Definition print_colored (args : list string) (end_ : option string) : M unit :=
  emit (ev_print_colored args end_).

(** [time.sleep(seconds)] *)
Definition sleep (seconds : Z) : M unit := emit (ev_sleep seconds).

(** One request to the provider. *)
Definition send (r : request) : M answer :=
  fun w =>
    (Returns (provider w (served w) r), next_request (record [ev_request r] w)).

(** The call of a client object that repeats its request on its own: the
    call is recorded and counted once, and its number is returned. *)
Definition hand_over (r : request) : M nat :=
  fun w => (Returns (served w), next_request (record [ev_request r] w)).

(** The answer to the attempt number [attempt], from 1 on, for the request
    number [n]: the rejections of the provider first, its answer from then
    on. *)
Definition outcome (w : world) (n : nat) (r : request) (attempt : nat) : answer :=
  match rejections w n r !! pred attempt with
  | Some e => Fails [] e
  | None => provider w n r
  end.

(** One attempt over the network. *)
Definition request_once (n : nat) (r : request) (attempt : nat) : M answer :=
  fun w => (Returns (outcome w n r attempt), record [ev_attempt r] w).

(** The objects of the store. *)
Definition get_session (self : nat) : M GPTSession :=
  fun w =>
    match sessions w !! self with
    | Some s => (Returns s, w)
    | None => (Raises NoSuchObject, w)
    end.

Definition put_session (self : nat) (s : GPTSession) : M unit :=
  fun w => (Returns tt, set_sessions (<[self := s]> (sessions w)) w).

Definition new_session (s : GPTSession) : M nat :=
  fun w => (Returns (length (sessions w)), set_sessions (sessions w ++ [s]) w).

Definition get_conversation_object (self : nat) : M _GPTConversation :=
  fun w =>
    match conversations w !! self with
    | Some c => (Returns c, w)
    | None => (Raises NoSuchObject, w)
    end.

Definition put_conversation (self : nat) (c : _GPTConversation) : M unit :=
  fun w => (Returns tt, set_conversations (<[self := c]> (conversations w)) w).

Definition new_conversation (c : _GPTConversation) : M nat :=
  fun w =>
    (Returns (length (conversations w)),
     set_conversations (conversations w ++ [c]) w).

(** ** What the module imports from the rest of the repository *)

(** A prompt template as [PromptTemplate.from_template] reads it: literal
    text and named replacement fields. *)
Inductive piece : Type :=
| Text (s : string)
| Field (name : string).

(** [src/constants.py] and [src/options/generate/templates_system.py] are not
    among the sources: their constants are the fields of [Assets], and
    everything below is stated for any value of them. *)
Class Assets : Type := {
  PRICING_GPT4_PROMPT : float;
  PRICING_GPT4_GENERATION : float;
  PRICING_GPT3_5_TURBO_PROMPT : float;
  PRICING_GPT3_5_TURBO_GENERATION : float;
  CHARS_PER_TOKEN : float;
  template_system_message_base : list piece;
  executor_example : string;
  docarray_example : string;
  client_example : string
}.

(** The formatter goes through the template: every field is replaced by the
    value given for its name, as it is; a field without a value is a
    [KeyError]. *)
Fixpoint vformat (template : list piece) (kwargs : gmap string string) : result string :=
  match template with
  | [] => Returns ""
  | Text s :: rest =>
      match vformat rest kwargs with
      | Returns r => Returns (s +:+ r)
      | Raises e => Raises e
      end
  | Field name :: rest =>
      match kwargs !! name with
      | Some v =>
          match vformat rest kwargs with
          | Returns r => Returns (v +:+ r)
          | Raises e => Raises e
          end
      | None => Raises (KeyError name)
      end
  end.

(** The names of the fields of a template. *)
Fixpoint used_args (template : list piece) : gset string :=
  match template with
  | [] => ∅
  | Text _ :: rest => used_args rest
  | Field name :: rest => {[ name ]} ∪ used_args rest
  end.

(** [PromptTemplate.format(name=value, ...)]: the formatter of the library is
    strict. Once the template is filled, a value given for a name that is no
    field of the template is a [KeyError] too, of the set of these names. *)
Definition format (template : list piece) (kwargs : gmap string string) : result string :=
  match vformat template kwargs with
  | Returns text =>
      let extra : gset string := dom kwargs ∖ used_args template in
      if decide (extra = ∅) then Returns text else Raises (KeyError_of extra)
  | Raises e => Raises e
  end.

Definition lift {A} (r : result A) : M A := fun w => (r, w).

(** [openai.ChatCompletion.create(model=..., messages=...)], not streamed:
    the response, or the exception of the provider. *)
Definition create (model : string) (messages : list (list (string * string)))
  : M BaseMessage :=
  a <- send (ChatCompletion_create model messages) ;;
  match a with
  | Answers _ response => ret response
  | Fails _ e => raise e
  end.

Section Program.

Context `{Assets}.

(** ** class GPTSession *)

(** lines 39-47 *)
Definition configure_openai_api_key : M unit :=
  present <- environ_contains "OPENAI_API_KEY" ;;
  if negb present then
    raise (Exception (LF +:+ "You need to set OPENAI_API_KEY in your environment."
                      +:+ LF +:+ "If you have updated it already, please restart your terminal."
                      +:+ LF))
  else
    key <- environ_get "OPENAI_API_KEY" ;;
    fun w => (Returns tt, set_openai_api_key key w).

(** lines 49-67 *)
Definition is_gpt4_available : M bool :=
  try_except
    (for_range 0 5 (fun i =>
       try_except
         (create "gpt-4" [[("role", "system"); ("content", "you respond nothing")]] ;;
          ret Break)
         (fun e =>
            match e with
            | RateLimitError => Some (sleep 1 ;; ret Continue)
            | _ => None
            end)) ;;
     ret true)
    (fun e =>
       match e with
       | InvalidRequestError => Some (ret false)
       | _ => None
       end).

(** lines 21-37; the object enters the store when the constructor
    returns. *)
Definition GPTSession__init__ (task_description test_description model : string)
  : M nat :=
  configure_openai_api_key ;;
  premium <- (if String.eqb model "gpt-4" then is_gpt4_available else ret false) ;;
  if premium then
    new_session
      {| task_description := task_description;
         test_description := test_description;
         model_name := "gpt-4";
         pricing_prompt := PRICING_GPT4_PROMPT;
         pricing_generation := PRICING_GPT4_GENERATION;
         chars_prompt_so_far := 0;
         chars_generation_so_far := 0 |}
  else
    model <- (if String.eqb model "gpt-4" then
                print_colored ["GPT-4 is not available. Using GPT-3.5-turbo instead.";
                               "yellow"] None ;;
                ret "gpt-3.5-turbo"
              else ret model) ;;
    new_session
      {| task_description := task_description;
         test_description := test_description;
         model_name := model;
         pricing_prompt := PRICING_GPT3_5_TURBO_PROMPT;
         pricing_generation := PRICING_GPT3_5_TURBO_GENERATION;
         chars_prompt_so_far := 0;
         chars_generation_so_far := 0 |}.

(** [x / y] on floats *)
Definition truediv (x y : float) : M float :=
  if Float.is_zero y then raise ZeroDivisionError else ret (Float.div x y).

(** An integer operand of a float operation. *)
Definition to_float (n : Z) : M float :=
  if Float.is_infinity (Float.of_int n) then raise OverflowError
  else ret (Float.of_int n).

(** lines 78-79 *)
Definition calculate_money_spent (num_chars : Z) (price : float) : M float :=
  n <- to_float num_chars ;;
  tokens <- truediv n CHARS_PER_TOKEN ;;
  thousand <- to_float 1000 ;;
  money <- truediv (Float.mul tokens price) thousand ;;
  ret (Float.round3 money).

Definition add_chars_prompt (n : Z) (s : GPTSession) : GPTSession :=
  {| task_description := task_description s;
     test_description := test_description s;
     model_name := model_name s;
     pricing_prompt := pricing_prompt s;
     pricing_generation := pricing_generation s;
     chars_prompt_so_far := chars_prompt_so_far s + n;
     chars_generation_so_far := chars_generation_so_far s |}.

Definition add_chars_generation (n : Z) (s : GPTSession) : GPTSession :=
  {| task_description := task_description s;
     test_description := test_description s;
     model_name := model_name s;
     pricing_prompt := pricing_prompt s;
     pricing_generation := pricing_generation s;
     chars_prompt_so_far := chars_prompt_so_far s;
     chars_generation_so_far := chars_generation_so_far s + n |}.

(** lines 69-76 *)
Definition cost_callback (self : nat) (chars_prompt chars_generation : Z) : M unit :=
  s <- get_session self ;;
  put_session self (add_chars_prompt chars_prompt s) ;;
  s <- get_session self ;;
  put_session self (add_chars_generation chars_generation s) ;;
  print [LF] ;;
  s <- get_session self ;;
  money_prompt <- calculate_money_spent (chars_prompt_so_far s) (pricing_prompt s) ;;
  money_generation <-
    calculate_money_spent (chars_generation_so_far s) (pricing_generation s) ;;
  print ["Total money spent so far on openai.com:";
         "$" +:+ Float.format_3f (Float.add money_prompt money_generation)] ;;
  print [LF].

(** ** class AssistantStreamingStdOutCallbackHandler, lines 85-88 *)
Definition on_llm_new_token (h : handler) (token : string) : M unit :=
  match h with
  | AssistantStreamingStdOutCallbackHandler =>
      print_colored [""; token; "green"] (Some "")
  end.

(** ** class ChatOpenAI of langchain *)

(** [ChatOpenAI(model_name=..., streaming=..., callback_manager=...,
    verbose=..., temperature=...)]: the constructor validates its
    environment, and raises the validation error of the library unless
    [OPENAI_API_KEY] is in the environment with a value that is not empty. *)
Definition ChatOpenAI__init__ (model : string) (streaming : bool)
    (callback_manager : list handler) (verbose : bool) (temperature : Z)
  : M ChatOpenAI :=
  present <- environ_contains "OPENAI_API_KEY" ;;
  key <- (if present then environ_get "OPENAI_API_KEY" else ret "") ;;
  if String.eqb key "" then raise (OtherError "ValidationError")
  else ret {| kw_model_name := model;
              kw_streaming := streaming;
              kw_callback_manager := callback_manager;
              kw_verbose := verbose;
              kw_temperature := temperature |}.

(** The exceptions of the provider after which [ChatOpenAI] tries again. *)
Definition retried (e : exn) : bool :=
  match e with
  | RateLimitError => true
  | OtherError name =>
      bool_decide (name ∈ ["Timeout"; "APIError"; "APIConnectionError";
                           "ServiceUnavailableError"])
  | _ => false
  end.

(** The pause after the attempt number [attempt]: [2 ^ (attempt - 1)]
    seconds, not less than 1 and not more than 60. *)
Definition wait_exponential (attempt : nat) : Z :=
  Z.max 1 (Z.min (2 ^ (Z.of_nat attempt - 1)) 60).

(** The attempts of one call, from the attempt number [attempt] on, with
    [more] attempts left after it: a request that raises one of the retried
    exceptions is made again after a pause, as long as an attempt is left;
    the answer of the last attempt made is the answer of the call. *)
Fixpoint completion_with_retry (n : nat) (r : request) (attempt more : nat)
  : M answer :=
  a <- request_once n r attempt ;;
  match a, more with
  | Fails [] e, S more' =>
      if retried e
      then sleep (wait_exponential attempt) ;;
           completion_with_retry n r (S attempt) more'
      else ret a
  | _, _ => ret a
  end.

(** The callback manager hands a token to every handler, when verbose. *)
Definition manager_on_llm_new_token (hs : list handler) (verbose : bool)
    (token : string) : M unit :=
  for_each hs (fun h => when verbose (on_llm_new_token h token)).

(** Calling the [ChatOpenAI] object: up to 6 attempts; the tokens of the
    answer go to the callback manager as they come, with the verbosity the
    object was constructed with; then the message is returned or the
    exception raised. The pauses between the attempts are the only thing the
    library does between them that is recorded: what it writes to its log is
    not. *)
Definition call (llm : ChatOpenAI) (messages : list BaseMessage) : M BaseMessage :=
  n <- hand_over (ChatOpenAI_call llm messages) ;;
  a <- completion_with_retry n (ChatOpenAI_call llm messages) 1 5 ;;
  match a with
  | Answers tokens response =>
      for_each tokens
        (manager_on_llm_new_token (kw_callback_manager llm) (kw_verbose llm)) ;;
      ret response
  | Fails tokens e =>
      for_each tokens
        (manager_on_llm_new_token (kw_callback_manager llm) (kw_verbose llm)) ;;
      raise e
  end.

(** ** class _GPTConversation *)

(** [x in l] for a list of strings *)
Definition contains (x : string) (l : list string) : bool := bool_decide (x ∈ l).

(** lines 120-132 *)
Definition _create_system_message
    (task_description test_description : string)
    (system_definition_examples : list string) : M BaseMessage :=
  system_message <-
    lift (format template_system_message_base
            (<["task_description" := task_description]>
               (<["test_description" := test_description]> ∅))) ;;
  let system_message :=
    if contains "executor" system_definition_examples
    then system_message +:+ LF +:+ executor_example else system_message in
  let system_message :=
    if contains "docarray" system_definition_examples
    then system_message +:+ LF +:+ docarray_example else system_message in
  let system_message :=
    if contains "client" system_definition_examples
    then system_message +:+ LF +:+ client_example else system_message in
  ret (SystemMessage system_message).

(** [os.environ['VERBOSE'].lower() == 'true'] *)
Definition verbose : M bool :=
  v <- environ_get "VERBOSE" ;;
  ret (String.eqb (lower v) "true").

(** lines 92-104; the object enters the store when the constructor
    returns. *)
Definition _GPTConversation__init__
    (model : string) (cost_callback : nat)
    (task_description test_description : string)
    (system_definition_examples : list string) : M nat :=
  v <- verbose ;;
  chat <- ChatOpenAI__init__ model true [AssistantStreamingStdOutCallbackHandler] v 0 ;;
  system_message <-
    _create_system_message task_description test_description
      system_definition_examples ;;
  v <- verbose ;;
  when v (print_colored ["system"; content system_message; "magenta"] None) ;;
  new_conversation
    {| _chat := chat;
       self_cost_callback := cost_callback;
       messages := [];
       system_message := system_message |}.

(** lines 81-83 *)
Definition get_conversation (self : nat) (system_definition_examples : list string)
  : M nat :=
  s <- get_session self ;;
  _GPTConversation__init__ (model_name s) self (task_description s)
    (test_description s) system_definition_examples.

Definition append_message (m : BaseMessage) (c : _GPTConversation) : _GPTConversation :=
  {| _chat := _chat c;
     self_cost_callback := self_cost_callback c;
     messages := messages c ++ [m];
     system_message := system_message c |}.

(** lines 106-118 *)
Definition chat (self : nat) (prompt : string) : M string :=
  let chat_message := HumanMessage prompt in
  c <- get_conversation_object self ;;
  put_conversation self (append_message chat_message c) ;;
  v <- verbose ;;
  when v (print_colored ["user"; prompt; "blue"] None ;;
          print_colored ["assistant"; ""; "green"] (Some "")) ;;
  c <- get_conversation_object self ;;
  let messages := system_message c :: messages c in
  response <- call (_chat c) messages ;;
  v <- verbose ;;
  when v (print []) ;;
  cost_callback (self_cost_callback c)
    (sum (map (fun m => len (content m)) messages)) (len (content response)) ;;
  c <- get_conversation_object self ;;
  put_conversation self (append_message response c) ;;
  ret (content response).

End Program.

(** ** Vocabulary of the statements *)

(** [w] after [n] more requests and the events [evs]. *)
Definition extend (n : nat) (evs : list event) (w : world) : world :=
  {| environ := environ w; openai_api_key := openai_api_key w;
     provider := provider w; rejections := rejections w;
     served := served w + n; trace := trace w ++ evs; sessions := sessions w;
     conversations := conversations w |}.

(** The request of the availability probe. *)
Definition probe_request : request :=
  ChatCompletion_create "gpt-4"
    [[("role", "system"); ("content", "you respond nothing")]].

(** One turn of the loop of [is_gpt4_available]. *)
Definition attempt : M flow :=
  try_except
    (create "gpt-4" [[("role", "system"); ("content", "you respond nothing")]] ;;
     ret Break)
    (fun e =>
       match e with
       | RateLimitError => Some (sleep 1 ;; ret Continue)
       | _ => None
       end).

(** What one rate-limited attempt of the probe leaves in the trace. *)
Definition rate_limited_attempt : list event :=
  [ev_request probe_request; ev_sleep 1].

Fixpoint rate_limited_attempts (k : nat) : list event :=
  match k with
  | O => []
  | S k' => rate_limited_attempt ++ rate_limited_attempts k'
  end.

(** The answer to the [j]-th request from now on. *)
Definition upcoming (w : world) (j : nat) (r : request) : answer :=
  provider w (served w + j) r.

Definition rate_limited (a : answer) : Prop :=
  exists tokens, a = Fails tokens RateLimitError.

Definition answered (a : answer) : Prop :=
  exists tokens response, a = Answers tokens response.

Definition is_rate_limited (a : answer) : bool :=
  match a with
  | Fails _ RateLimitError => true
  | _ => false
  end.

(** How many of the next [n] requests of the probe, from the [j]-th on, are
    rate limited in a row. *)
Fixpoint rate_limits (w : world) (j n : nat) : nat :=
  match n with
  | O => O
  | S n' =>
      if is_rate_limited (upcoming w j probe_request)
      then S (rate_limits w (S j) n')
      else O
  end.

(** What the probe makes of the first answer that is not a rate limit. *)
Definition probe_verdict (a : answer) : result bool :=
  match a with
  | Answers _ _ => Returns true
  | Fails _ InvalidRequestError => Returns false
  | Fails _ e => Raises e
  end.

(** The session of the premium tier, and the session of any other model. *)
Definition premium_session `{Assets} (task test : string) : GPTSession :=
  {| task_description := task; test_description := test; model_name := "gpt-4";
     pricing_prompt := PRICING_GPT4_PROMPT;
     pricing_generation := PRICING_GPT4_GENERATION;
     chars_prompt_so_far := 0; chars_generation_so_far := 0 |}.

Definition standard_session `{Assets} (task test model : string) : GPTSession :=
  {| task_description := task; test_description := test; model_name := model;
     pricing_prompt := PRICING_GPT3_5_TURBO_PROMPT;
     pricing_generation := PRICING_GPT3_5_TURBO_GENERATION;
     chars_prompt_so_far := 0; chars_generation_so_far := 0 |}.

(** The keyword arguments [_create_system_message] formats the template
    with. *)
Definition descriptions (task test : string) : gmap string string :=
  <["task_description" := task]> (<["test_description" := test]> ∅).

(** The template with every field replaced by its value, as it is. *)
Fixpoint substitute (template : list piece) (kwargs : gmap string string) : string :=
  match template with
  | [] => ""
  | Text s :: rest => s +:+ substitute rest kwargs
  | Field name :: rest => default "" (kwargs !! name) +:+ substitute rest kwargs
  end.

(** [s] is a part of [t]. *)
Definition occurs_in (s t : string) : Prop :=
  exists before after, t = before +:+ s +:+ after.

(** The names of the example fragments, in the order of the source. *)
Definition example_names : list string := ["executor"; "docarray"; "client"].

Definition fragment `{Assets} (name : string) : string :=
  if String.eqb name "executor" then executor_example
  else if String.eqb name "docarray" then docarray_example
  else if String.eqb name "client" then client_example
  else "".

(** The names of [example_names] that the caller supplied, in the order of
    [example_names]. *)
Definition selected (examples : list string) : list string :=
  filter (fun name => name ∈ examples) example_names.

(** The fragments of the names, each on a new line. *)
Fixpoint appended `{Assets} (names : list string) : string :=
  match names with
  | [] => ""
  | name :: rest => LF +:+ fragment name +:+ appended rest
  end.

(** The value of [VERBOSE] switches the echo on. *)
Definition is_verbose (v : string) : bool := String.eqb (lower v) "true".

(** What [chat] echoes before it sends, when verbose. *)
Definition echo (v : bool) (prompt : string) : list event :=
  if v then [ev_print_colored ["user"; prompt; "blue"] None;
             ev_print_colored ["assistant"; ""; "green"] (Some "")]
  else [].

(** What the handlers of [llm] print for the tokens. *)
Definition streamed (llm : ChatOpenAI) (tokens : list string) : list event :=
  flat_map (fun t =>
    map (fun h : handler => ev_print_colored [""; t; "green"] (Some ""))
      (kw_callback_manager llm)) tokens.

(** What reaches the console of the tokens: [ChatOpenAI] hands them to its
    handlers only when it was constructed verbose. *)
Definition shown (llm : ChatOpenAI) (tokens : list string) : list event :=
  if kw_verbose llm then streamed llm tokens else [].

(** The attempts of one call of [ChatOpenAI] as a function of the answers
    [o] to them: the attempts and the pauses, and the answer of the last
    attempt. *)
Fixpoint retries (o : nat -> answer) (r : request) (attempt more : nat)
  : list event * answer :=
  match o attempt, more with
  | Fails [] e, S more' =>
      if retried e
      then (ev_attempt r :: ev_sleep (wait_exponential attempt)
              :: fst (retries o r (S attempt) more'),
            snd (retries o r (S attempt) more'))
      else ([ev_attempt r], o attempt)
  | a, _ => ([ev_attempt r], a)
  end.

(** What the next call of [ChatOpenAI] with the request [r] does on the
    network, and the answer it ends on. *)
Definition settled (w : world) (r : request) : list event * answer :=
  retries (outcome w (served w) r) r 1 5.

(** The request of a chat turn: the system message, the transcript so far,
    the new user message. *)
Definition chat_messages (conv : _GPTConversation) (prompt : string) : list BaseMessage :=
  system_message conv :: messages conv ++ [HumanMessage prompt].

Definition chat_request (conv : _GPTConversation) (prompt : string) : request :=
  ChatOpenAI_call (_chat conv) (chat_messages conv prompt).

(** The characters of a list of messages. *)
Definition chars (msgs : list BaseMessage) : Z :=
  sum (map (fun m => len (content m)) msgs).

(** [s] after [cost_callback] has added to its counters. *)
Definition charged `{Assets} (chars_prompt chars_generation : Z) (s : GPTSession)
  : GPTSession :=
  add_chars_generation chars_generation (add_chars_prompt chars_prompt s).

(** [calculate_money_spent] as a function: it reads the constants only. *)
Definition money `{Assets} (num_chars : Z) (price : float) : result float :=
  if Float.is_infinity (Float.of_int num_chars) then Raises OverflowError
  else if Float.is_zero CHARS_PER_TOKEN then Raises ZeroDivisionError
  else Returns (Float.round3
                  (Float.div
                     (Float.mul (Float.div (Float.of_int num_chars) CHARS_PER_TOKEN)
                        price)
                     (Float.of_int 1000))).

(** The amount [cost_callback] prints for a session. *)
Definition bill `{Assets} (s : GPTSession) : result string :=
  match money (chars_prompt_so_far s) (pricing_prompt s) with
  | Returns money_prompt =>
      match money (chars_generation_so_far s) (pricing_generation s) with
      | Returns money_generation =>
          Returns ("$" +:+ Float.format_3f (Float.add money_prompt money_generation))
      | Raises e => Raises e
      end
  | Raises e => Raises e
  end.

(** What [cost_callback] prints. *)
Definition cost_report `{Assets} (s : GPTSession) : list event :=
  ev_print [LF]
  :: match bill s with
     | Returns amount =>
         [ev_print ["Total money spent so far on openai.com:"; amount];
          ev_print [LF]]
     | Raises _ => []
     end.

Definition answer_tokens (a : answer) : list string :=
  match a with Answers tokens _ | Fails tokens _ => tokens end.

Definition answer_result (a : answer) : result BaseMessage :=
  match a with
  | Answers _ response => Returns response
  | Fails _ e => Raises e
  end.

(** The world after the user message has been appended, the echo printed,
    the backend called and its tokens streamed. *)
Definition asked (self : nat) (conv : _GPTConversation) (v : string) (prompt : string)
    (w : world) : world :=
  extend 1
    (echo (is_verbose v) prompt
     ++ ev_request (chat_request conv prompt)
        :: fst (settled w (chat_request conv prompt))
     ++ shown (_chat conv) (answer_tokens (snd (settled w (chat_request conv prompt)))))
    (set_conversations
       (<[self := append_message (HumanMessage prompt) conv]> (conversations w)) w).

(** The contract of [ChatOpenAI]: what it returns for a request is a message
    of the assistant. *)
Definition replies_as_assistant (w : world) : Prop :=
  forall n llm msgs tokens response,
    provider w n (ChatOpenAI_call llm msgs) = Answers tokens response ->
    exists text, response = AIMessage text.

(** The amount before [calculate_money_spent] rounds it. *)
Definition unrounded `{Assets} (num_chars : Z) (price : float) : float :=
  Float.div
    (Float.mul (Float.div (Float.of_int num_chars) CHARS_PER_TOKEN) price)
    (Float.of_int 1000).

(** The running cost in the words of the specification: the two unrounded
    amounts are added and the sum is rounded to 3 decimal places. *)
Definition spec_cost `{Assets} (s : GPTSession) : string :=
  "$" +:+ Float.format_3f
            (Float.round3
               (Float.add
                  (unrounded (chars_prompt_so_far s) (pricing_prompt s))
                  (unrounded (chars_generation_so_far s) (pricing_generation s)))).

(** The amounts of the running cost lines among the events. *)
Definition printed_costs (evs : list event) : list string :=
  omap (fun e =>
          match e with
          | ev_print [label; amount] =>
              if String.eqb label "Total money spent so far on openai.com:"
              then Some amount else None
          | _ => None
          end) evs.

(** A message of the dialogue: from the user or from the assistant. *)
Definition dialogue (m : BaseMessage) : Prop :=
  exists text, m = HumanMessage text \/ m = AIMessage text.

(** What a program does with the conversations of its sessions, step by
    step: a chat turn that returns, a call of [chat] that raises, a new
    conversation, a new session. A turn is kept with the session its
    conversation belongs to, the messages of its request and the reply. *)
Inductive entry : Type :=
| turn (session : nat) (request : list BaseMessage) (reply : string)
| failed_call (e : exn)
| minted (r : result nat)
| constructed (r : result nat).

Inductive history `{Assets} : world -> list entry -> world -> Prop :=
| history_nil w : history w [] w
| history_turn w self prompt conv reply w1 es w2 :
    conversations w !! self = Some conv ->
    chat self prompt w = (Returns reply, w1) ->
    history w1 es w2 ->
    history w
      (turn (self_cost_callback conv) (chat_messages conv prompt) reply :: es) w2
| history_failed w self prompt conv e w1 es w2 :
    conversations w !! self = Some conv ->
    chat self prompt w = (Raises e, w1) ->
    history w1 es w2 ->
    history w (failed_call e :: es) w2
| history_minted w session examples r w1 es w2 :
    get_conversation session examples w = (r, w1) ->
    history w1 es w2 ->
    history w (minted r :: es) w2
| history_constructed w task test model r w1 es w2 :
    GPTSession__init__ task test model w = (r, w1) ->
    history w1 es w2 ->
    history w (constructed r :: es) w2.

Definition is_failed_call (e : entry) : bool :=
  match e with failed_call _ => true | _ => false end.

(** The characters a step sent for a session, and those it received. *)
Definition sent_for (session : nat) (e : entry) : Z :=
  match e with
  | turn s request _ => if Nat.eqb s session then chars request else 0%Z
  | _ => 0%Z
  end.

Definition received_for (session : nat) (e : entry) : Z :=
  match e with
  | turn s _ reply => if Nat.eqb s session then len reply else 0%Z
  | _ => 0%Z
  end.

(** The requests among the events. *)
Definition requests_of (evs : list event) : list request :=
  omap (fun e => match e with ev_request r => Some r | _ => None end) evs.

(** The sleeps among the events. *)
Definition sleeps_of (evs : list event) : list Z :=
  omap (fun e => match e with ev_sleep s => Some s | _ => None end) evs.

(** The attempts of [ChatOpenAI] among the events. *)
Definition attempts_of (evs : list event) : list request :=
  omap (fun e => match e with ev_attempt r => Some r | _ => None end) evs.

(** What [print] wrote, among the events. *)
Definition prints_of (evs : list event) : list (list string) :=
  omap (fun e => match e with ev_print args => Some args | _ => None end) evs.

(** The downgrade warning. *)
Definition downgrade_warning : event :=
  ev_print_colored ["GPT-4 is not available. Using GPT-3.5-turbo instead."; "yellow"] None.

(** A provider that always gives the same answer. *)
Definition always (a : answer) : nat -> request -> answer := fun _ _ => a.

(** A world at the start of a process, on a provider that turns no attempt
    down before its answer. *)
Definition boot (env : gmap string string) (p : nat -> request -> answer) : world :=
  {| environ := env; openai_api_key := None; provider := p;
     rejections := fun _ _ => []; served := 0;
     trace := []; sessions := []; conversations := [] |}.

(** [w] on a provider that turns down the first attempts for every request
    with the exceptions [es]. *)
Definition rejecting (es : list exn) (w : world) : world :=
  {| environ := environ w; openai_api_key := openai_api_key w;
     provider := provider w; rejections := fun _ _ => es; served := served w;
     trace := trace w; sessions := sessions w;
     conversations := conversations w |}.

(** Sample values for the constants of the other modules. *)
Definition sample_assets : Assets :=
  {| PRICING_GPT4_PROMPT := Float.of_ratio 3 100;
     PRICING_GPT4_GENERATION := Float.of_ratio 6 100;
     PRICING_GPT3_5_TURBO_PROMPT := Float.of_ratio 2 1000;
     PRICING_GPT3_5_TURBO_GENERATION := Float.of_ratio 2 1000;
     CHARS_PER_TOKEN := Float.of_ratio 34 10;
     template_system_message_base :=
       [Text "Task: "; Field "task_description";
        Text " Test: "; Field "test_description"];
     executor_example := "E";
     docarray_example := "D";
     client_example := "C" |}.

Definition sample_environ : gmap string string :=
  <["OPENAI_API_KEY" := "sk-0"]> (<["VERBOSE" := "false"]> ∅).

(** A provider that rate limits every request, one that rejects every
    request as invalid, and one that gives the same reply to every request. *)
Definition throttled : world :=
  boot sample_environ (always (Fails [] RateLimitError)).

Definition gated : world :=
  boot sample_environ (always (Fails [] InvalidRequestError)).

Definition friendly (reply : string) : world :=
  boot sample_environ (always (Answers [reply] (AIMessage reply))).

(** A session of the standard tier with one conversation, all examples
    selected, on a provider that always gives the same answer. *)
Definition ready (a : answer) : world :=
  let w0 := boot sample_environ (always a) in
  let w1 := snd (@GPTSession__init__ sample_assets "task" "test" "gpt-3.5-turbo" w0) in
  snd (@get_conversation sample_assets 0 example_names w1).

(** The conversation of [ready]. *)
Definition sample_conversation : _GPTConversation :=
  {| _chat := {| kw_model_name := "gpt-3.5-turbo";
                 kw_streaming := true;
                 kw_callback_manager := [AssistantStreamingStdOutCallbackHandler];
                 kw_verbose := false;
                 kw_temperature := 0 |};
     self_cost_callback := 0;
     messages := [];
     system_message :=
       SystemMessage ("Task: task Test: test" +:+ LF +:+ "E" +:+ LF +:+ "D"
                      +:+ LF +:+ "C") |}.

(** [n] times the letter a. *)
Definition letters (n : nat) : string := string_of_list_ascii (repeat "a"%char n).

(** A session with one conversation and no example selected, on a provider
    that always answers with [n] letters: the premium session when [model]
    is the premium model, since the probe is answered. *)
Definition billed (model : string) (n : nat) : world :=
  let w0 := boot sample_environ (always (Answers [] (AIMessage (letters n)))) in
  let w1 := snd (@GPTSession__init__ sample_assets "task" "test" model w0) in
  snd (@get_conversation sample_assets 0 [] w1).

(** A provider that rate limits the first [k] requests and gives the answer
    [a] to every later one. *)
Definition limited_then (k : nat) (a : answer) : nat -> request -> answer :=
  fun n _ => if n <? k then Fails [] RateLimitError else a.

(** What the handler prints for one token. *)
Definition green (token : string) : event :=
  ev_print_colored [""; token; "green"] (Some "").

(** The store is consistent when every conversation is bound to a session
    of the store and was built by [_GPTConversation.__init__] for it: the
    model of the session, streaming, the handler of this module, temperature
    0, and a system message of the system role. *)
Definition consistent (w : world) : Prop :=
  forall c conv,
    conversations w !! c = Some conv ->
    exists s text,
      sessions w !! self_cost_callback conv = Some s
      /\ kw_model_name (_chat conv) = model_name s
      /\ kw_streaming (_chat conv) = true
      /\ kw_callback_manager (_chat conv) = [AssistantStreamingStdOutCallbackHandler]
      /\ kw_temperature (_chat conv) = 0%Z
      /\ system_message conv = SystemMessage text.

(** Sample constants with no characters per token. *)
Definition zero_assets : Assets :=
  {| PRICING_GPT4_PROMPT := Float.of_ratio 3 100;
     PRICING_GPT4_GENERATION := Float.of_ratio 6 100;
     PRICING_GPT3_5_TURBO_PROMPT := Float.of_ratio 2 1000;
     PRICING_GPT3_5_TURBO_GENERATION := Float.of_ratio 2 1000;
     CHARS_PER_TOKEN := Float.of_int 0;
     template_system_message_base :=
       [Text "Task: "; Field "task_description";
        Text " Test: "; Field "test_description"];
     executor_example := "E";
     docarray_example := "D";
     client_example := "C" |}.

(** A session of the standard tier with one conversation under
    [zero_assets], on a provider that always gives the same answer. *)
Definition ready_zero (a : answer) : world :=
  let w0 := boot sample_environ (always a) in
  let w1 := snd (@GPTSession__init__ zero_assets "task" "test" "gpt-3.5-turbo" w0) in
  snd (@get_conversation zero_assets 0 [] w1).

(** The value of the credential variable that [ChatOpenAI] finds in the
    environment, empty when there is none. *)
Definition credential (w : world) : string :=
  default "" (environ w !! "OPENAI_API_KEY").

(** The conversation that [get_conversation] builds for the session [s] at
    the position [h], with the system message [text], when the verbosity
    flag has the value [v]. *)
Definition fresh_conversation (h : nat) (s : GPTSession) (v : string) (text : string)
  : _GPTConversation :=
  {| _chat := {| kw_model_name := model_name s;
                 kw_streaming := true;
                 kw_callback_manager := [AssistantStreamingStdOutCallbackHandler];
                 kw_verbose := is_verbose v;
                 kw_temperature := 0 |};
     self_cost_callback := h;
     messages := [];
     system_message := SystemMessage text |}.

(** The same with the verbosity flag on: the conversation is constructed
    verbose. *)
Definition verbose_environ : gmap string string :=
  <["OPENAI_API_KEY" := "sk-0"]> (<["VERBOSE" := "True"]> ∅).

Definition ready_verbose (a : answer) : world :=
  let w0 := boot verbose_environ (always a) in
  let w1 := snd (@GPTSession__init__ sample_assets "task" "test" "gpt-3.5-turbo" w0) in
  snd (@get_conversation sample_assets 0 [] w1).

(** [w] after some other code of the process has removed the verbosity flag
    from the environment. *)
Definition without_flag (w : world) : world :=
  {| environ := delete "VERBOSE" (environ w); openai_api_key := openai_api_key w;
     provider := provider w; rejections := rejections w; served := served w;
     trace := trace w; sessions := sessions w;
     conversations := conversations w |}.

(** * Properties *)

(** ** Worlds *)

Lemma extend_0 w : extend 0 [] w = w.
Proof.
  destruct w; unfold extend; simpl.
  rewrite Nat.add_0_r, app_nil_r. reflexivity.
Qed.

Lemma extend_extend a b e1 e2 w :
  extend a e1 (extend b e2 w) = extend (b + a) (e2 ++ e1) w.
Proof.
  unfold extend; simpl. rewrite Nat.add_assoc, app_assoc. reflexivity.
Qed.

Lemma record_extend evs w : record evs w = extend 0 evs w.
Proof. unfold record, extend. rewrite Nat.add_0_r. reflexivity. Qed.

Lemma next_request_extend w : next_request w = extend 1 [] w.
Proof.
  unfold next_request, extend. rewrite Nat.add_1_r, app_nil_r. reflexivity.
Qed.

Lemma send_extend r w :
  send r w = (Returns (upcoming w 0 r), extend 1 [ev_request r] w).
Proof.
  unfold send, upcoming.
  rewrite next_request_extend, record_extend, extend_extend.
  rewrite Nat.add_0_r. reflexivity.
Qed.

Lemma upcoming_extend n evs w j r :
  upcoming (extend n evs w) j r = upcoming w (n + j) r.
Proof. unfold upcoming, extend; simpl. rewrite Nat.add_assoc. reflexivity. Qed.

Lemma requests_of_app e1 e2 :
  requests_of (e1 ++ e2) = requests_of e1 ++ requests_of e2.
Proof. apply omap_app. Qed.

Lemma sleeps_of_app e1 e2 : sleeps_of (e1 ++ e2) = sleeps_of e1 ++ sleeps_of e2.
Proof. apply omap_app. Qed.

Lemma requests_of_rate_limited_attempts k :
  requests_of (rate_limited_attempts k) = repeat probe_request k.
Proof. induction k as [|k IH]; simpl; [reflexivity | rewrite <- IH; reflexivity]. Qed.

Lemma sleeps_of_rate_limited_attempts k :
  sleeps_of (rate_limited_attempts k) = repeat 1%Z k.
Proof. induction k as [|k IH]; simpl; [reflexivity | rewrite <- IH; reflexivity]. Qed.

(** ** The availability probe *)

Lemma attempt_rate_limited w :
  rate_limited (upcoming w 0 probe_request) ->
  attempt w = (Returns Continue, extend 1 rate_limited_attempt w).
Proof.
  intros [tokens Hr].
  unfold attempt, try_except, create, bind.
  fold probe_request. rewrite send_extend, Hr. simpl.
  unfold sleep, emit, ret. rewrite record_extend, extend_extend. reflexivity.
Qed.

Lemma attempt_answered w :
  answered (upcoming w 0 probe_request) ->
  attempt w = (Returns Break, extend 1 [ev_request probe_request] w).
Proof.
  intros (tokens & response & Hr).
  unfold attempt, try_except, create, bind.
  fold probe_request. rewrite send_extend, Hr. reflexivity.
Qed.

Lemma attempt_fails w tokens e :
  upcoming w 0 probe_request = Fails tokens e ->
  e <> RateLimitError ->
  attempt w = (Raises e, extend 1 [ev_request probe_request] w).
Proof.
  intros Hr He.
  unfold attempt, try_except, create, bind.
  fold probe_request. rewrite send_extend, Hr. simpl.
  destruct e; try reflexivity. contradiction.
Qed.

(** As long as the provider signals a rate limit the loop goes on: [k]
    attempts, each followed by its pause. *)
Lemma for_range_rate_limited k : forall n i w,
  (forall j, j < k -> rate_limited (upcoming w j probe_request)) ->
  for_range i (k + n) (fun _ => attempt) w
  = for_range (i + k) n (fun _ => attempt) (extend k (rate_limited_attempts k) w).
Proof.
  induction k as [|k IH]; intros n i w Hk.
  - simpl. rewrite extend_0, Nat.add_0_r. reflexivity.
  - change (S k + n) with (S (k + n)). simpl for_range. unfold bind at 1.
    rewrite attempt_rate_limited
      by (rewrite <- (Nat.add_0_r 0) at 1; apply Hk; lia).
    rewrite IH.
    + rewrite extend_extend. simpl rate_limited_attempts.
      replace (S i + k) with (i + S k) by lia. reflexivity.
    + intros j Hj. rewrite upcoming_extend. apply Hk. lia.
Qed.

Lemma is_gpt4_available_unfold :
  is_gpt4_available
  = try_except
      (for_range 0 5 (fun _ => attempt) ;; ret true)
      (fun e =>
         match e with
         | InvalidRequestError => Some (ret false)
         | _ => None
         end).
Proof. reflexivity. Qed.

(** All five attempts rate limited: the loop ends and the probe says yes. *)
Lemma is_gpt4_available_exhausted w :
  (forall j, j < 5 -> rate_limited (upcoming w j probe_request)) ->
  is_gpt4_available w = (Returns true, extend 5 (rate_limited_attempts 5) w).
Proof.
  intros Hk. rewrite is_gpt4_available_unfold.
  unfold try_except, bind.
  pose proof (for_range_rate_limited 5 0 0 w Hk) as E.
  change (5 + 0) with 5 in E. rewrite E. reflexivity.
Qed.

(** Fewer than five rate limits, then another answer: that answer decides. *)
Lemma is_gpt4_available_decided w k :
  k < 5 ->
  (forall j, j < k -> rate_limited (upcoming w j probe_request)) ->
  ~ rate_limited (upcoming w k probe_request) ->
  is_gpt4_available w
  = (probe_verdict (upcoming w k probe_request),
     extend (k + 1) (rate_limited_attempts k ++ [ev_request probe_request]) w).
Proof.
  intros Hlt Hk Hnot. rewrite is_gpt4_available_unfold.
  unfold try_except, bind.
  replace 5 with (k + S (4 - k)) by lia.
  rewrite (for_range_rate_limited k _ 0 w Hk).
  simpl for_range. unfold bind.
  set (w1 := extend k (rate_limited_attempts k) w).
  assert (Hup : upcoming w1 0 probe_request = upcoming w k probe_request).
  { unfold w1. rewrite upcoming_extend, Nat.add_0_r. reflexivity. }
  destruct (upcoming w k probe_request) as [tokens response | tokens e] eqn:Ha.
  - rewrite attempt_answered by (rewrite Hup; unfold answered; eauto).
    unfold w1, ret. rewrite extend_extend. reflexivity.
  - assert (He : e <> RateLimitError).
    { intros ->. apply Hnot. exists tokens. reflexivity. }
    rewrite (attempt_fails w1 tokens e Hup He).
    unfold w1. rewrite extend_extend.
    destruct e; reflexivity.
Qed.

(** ** Session construction *)

Section Construction.

Context `{Assets}.

Lemma configure_openai_api_key_absent w :
  environ w !! "OPENAI_API_KEY" = None ->
  configure_openai_api_key w
  = (Raises (Exception (LF +:+ "You need to set OPENAI_API_KEY in your environment."
                        +:+ LF +:+ "If you have updated it already, please restart your terminal."
                        +:+ LF)), w).
Proof.
  intros Hk. unfold configure_openai_api_key, bind, environ_contains.
  rewrite Hk. reflexivity.
Qed.

Lemma configure_openai_api_key_present w key :
  environ w !! "OPENAI_API_KEY" = Some key ->
  configure_openai_api_key w = (Returns tt, set_openai_api_key key w).
Proof.
  intros Hk. unfold configure_openai_api_key, bind, environ_contains, environ_get.
  rewrite Hk. simpl. rewrite Hk. reflexivity.
Qed.

Lemma GPTSession__init__absent task test model w :
  environ w !! "OPENAI_API_KEY" = None ->
  exists message, GPTSession__init__ task test model w = (Raises (Exception message), w).
Proof.
  intros Hk. eexists. unfold GPTSession__init__, bind.
  rewrite (configure_openai_api_key_absent w Hk). reflexivity.
Qed.

(** The premium tier requested: the probe decides. *)
Lemma GPTSession__init__premium task test w key :
  environ w !! "OPENAI_API_KEY" = Some key ->
  GPTSession__init__ task test "gpt-4" w
  = match is_gpt4_available (set_openai_api_key key w) with
    | (Returns true, w') => new_session (premium_session task test) w'
    | (Returns false, w') =>
        new_session (standard_session task test "gpt-3.5-turbo")
          (record [downgrade_warning] w')
    | (Raises e, w') => (Raises e, w')
    end.
Proof.
  intros Hk. unfold GPTSession__init__, bind at 1.
  rewrite (configure_openai_api_key_present w key Hk).
  unfold bind. rewrite !String.eqb_refl. cbv beta iota.
  destruct (is_gpt4_available (set_openai_api_key key w)) as [[[|]|e] w'];
    reflexivity.
Qed.

(** Another model requested: no probe. *)
Lemma GPTSession__init__other task test model w key :
  environ w !! "OPENAI_API_KEY" = Some key ->
  model <> "gpt-4" ->
  GPTSession__init__ task test model w
  = new_session (standard_session task test model) (set_openai_api_key key w).
Proof.
  intros Hk Hm. unfold GPTSession__init__, bind at 1.
  rewrite (configure_openai_api_key_present w key Hk).
  apply String.eqb_neq in Hm. rewrite Hm. reflexivity.
Qed.

End Construction.

(** ** The probe on any provider *)

Lemma is_rate_limited_spec a : is_rate_limited a = true <-> rate_limited a.
Proof.
  split.
  - destruct a as [|tokens e]; [discriminate|].
    destruct e; try discriminate. intros _. exists tokens. reflexivity.
  - intros [tokens ->]. reflexivity.
Qed.

Lemma rate_limits_le w n : forall j, rate_limits w j n <= n.
Proof.
  induction n as [|n IH]; intros j; simpl; [lia|].
  destruct (is_rate_limited _); [specialize (IH (S j))|]; lia.
Qed.

Lemma rate_limits_before w n : forall j i,
  i < rate_limits w j n -> rate_limited (upcoming w (j + i) probe_request).
Proof.
  induction n as [|n IH]; intros j i; simpl; [lia|].
  destruct (is_rate_limited _) eqn:E; [|lia].
  destruct i as [|i]; intros Hi.
  - rewrite Nat.add_0_r. apply is_rate_limited_spec, E.
  - replace (j + S i) with (S j + i) by lia. apply IH. lia.
Qed.

Lemma rate_limits_stop w n : forall j,
  rate_limits w j n = n
  \/ ~ rate_limited (upcoming w (j + rate_limits w j n) probe_request).
Proof.
  induction n as [|n IH]; intros j; simpl; [left; reflexivity|].
  destruct (is_rate_limited _) eqn:E.
  - destruct (IH (S j)) as [-> | Hn]; [left; reflexivity|].
    right. replace (j + S (rate_limits w (S j) n))
      with (S j + rate_limits w (S j) n) by lia. exact Hn.
  - right. rewrite Nat.add_0_r. rewrite <- is_rate_limited_spec, E. discriminate.
Qed.

(** Whatever the provider does, the probe ends, and the first thing it does
    is its request. *)
Lemma is_gpt4_available_total w :
  exists r n evs,
    is_gpt4_available w = (r, extend (S n) (ev_request probe_request :: evs) w).
Proof.
  set (k := rate_limits w 0 5).
  assert (Hle : k <= 5) by apply rate_limits_le.
  assert (Hrl : forall j, j < k -> rate_limited (upcoming w j probe_request)).
  { intros j Hj. apply (rate_limits_before w 5 0 j Hj). }
  destruct (rate_limits_stop w 5 0) as [H5 | Hstop].
  - rewrite is_gpt4_available_exhausted by (intros j Hj; apply Hrl; fold k in H5; lia).
    eexists _, 4, _. reflexivity.
  - fold k in Hstop. simpl in Hstop.
    destruct (Nat.eq_dec k 5) as [E5 | N5].
    + rewrite is_gpt4_available_exhausted by (intros j Hj; apply Hrl; lia).
      eexists _, 4, _. reflexivity.
    + rewrite (is_gpt4_available_decided w k) by (lia || assumption).
      destruct k as [|k'].
      * eexists _, 0, _. reflexivity.
      * eexists _, (S k'), _. simpl rate_limited_attempts.
        replace (S k' + 1) with (S (S k')) by lia. reflexivity.
Qed.

(** ** The claims on session construction *)

(** C1 (amended): during the availability probe at session construction a
    rate-limit signal is retried, up to 5 attempts in all, with a pause of
    1 second after each rate-limited attempt. The probe says "unavailable"
    exactly when the first answer that is not a rate limit is an invalid
    request error, which is what its outer exception path catches; it is
    then that construction falls back: the session is created on
    "gpt-3.5-turbo" at the standard prices, after the warning. When the
    first answer that is not a rate limit is a response, the session is the
    premium one and nothing is printed. When all 5 attempts are rate limited
    the loop just ends: the probe says "available" and the session is the
    premium one, with no fallback and no warning. *)
Theorem is_gpt4_available_retries `{Assets}
    (task test key : string) (w : world) (k : nat) :
  environ w !! "OPENAI_API_KEY" = Some key ->
  k <= 5 ->
  (forall j, j < k -> rate_limited (upcoming w j probe_request)) ->
  (k = 5 \/ ~ rate_limited (upcoming w k probe_request)) ->
  let w0 := set_openai_api_key key w in
  let probe := is_gpt4_available w0 in
  requests_of (trace (snd probe))
  = requests_of (trace w) ++ repeat probe_request (if k <? 5 then k + 1 else 5)
  /\ sleeps_of (trace (snd probe)) = sleeps_of (trace w) ++ repeat 1%Z k
  /\ (k < 5 -> fst probe = probe_verdict (upcoming w k probe_request))
  /\ (k = 5 ->
      fst probe = Returns true
      /\ GPTSession__init__ task test "gpt-4" w
         = (Returns (length (sessions w)),
            set_sessions (sessions w ++ [premium_session task test])
              (extend 5 (rate_limited_attempts 5) w0)))
  /\ (fst probe = Returns false <->
      k < 5 /\ exists tokens,
        upcoming w k probe_request = Fails tokens InvalidRequestError)
  /\ (k < 5 ->
      forall tokens,
        upcoming w k probe_request = Fails tokens InvalidRequestError ->
        GPTSession__init__ task test "gpt-4" w
        = (Returns (length (sessions w)),
           set_sessions (sessions w ++ [standard_session task test "gpt-3.5-turbo"])
             (extend (k + 1)
                (rate_limited_attempts k ++ [ev_request probe_request; downgrade_warning])
                w0)))
  /\ (k < 5 ->
      forall tokens response,
        upcoming w k probe_request = Answers tokens response ->
        GPTSession__init__ task test "gpt-4" w
        = (Returns (length (sessions w)),
           set_sessions (sessions w ++ [premium_session task test])
             (extend (k + 1) (rate_limited_attempts k ++ [ev_request probe_request])
                w0)))
  /\ (GPTSession__init__ task test "gpt-4" w
      = (Returns (length (sessions w)),
         set_sessions (sessions w ++ [standard_session task test "gpt-3.5-turbo"])
           (record [downgrade_warning] (snd probe)))
      <-> fst probe = Returns false).
Proof.
  intros Hkey Hle Hrl Hstop w0 probe.
  assert (Hinit : GPTSession__init__ task test "gpt-4" w
                  = match probe with
                    | (Returns true, w') => new_session (premium_session task test) w'
                    | (Returns false, w') =>
                        new_session (standard_session task test "gpt-3.5-turbo")
                          (record [downgrade_warning] w')
                    | (Raises e, w') => (Raises e, w')
                    end)
    by (apply (GPTSession__init__premium task test w key Hkey)).
  assert (Hiff : GPTSession__init__ task test "gpt-4" w
                 = (Returns (length (sessions w)),
                    set_sessions
                      (sessions w ++ [standard_session task test "gpt-3.5-turbo"])
                      (record [downgrade_warning] (snd probe)))
                 <-> fst probe = Returns false).
  { rewrite Hinit.
    assert (Hss : sessions (snd probe) = sessions w).
    { unfold probe.
      destruct (is_gpt4_available_total w0) as (r & n & evs & ->). reflexivity. }
    destruct probe as [[[|]|e] w'] eqn:Hp; cbn [fst snd] in *.
    - split; [|discriminate]. unfold new_session. intros E.
      apply (f_equal (fun p => length (trace (snd p)))) in E.
      cbn [snd trace set_sessions record] in E.
      rewrite length_app in E. simpl in E. lia.
    - split; [reflexivity|]. intros _. unfold new_session.
      cbn [sessions record]. rewrite Hss. reflexivity.
    - split; discriminate. }
  assert (Hrl0 : forall j, j < k -> rate_limited (upcoming w0 j probe_request))
    by exact Hrl.
  destruct (Nat.eq_dec k 5) as [-> | Hne].
  - assert (E : probe = (Returns true, extend 5 (rate_limited_attempts 5) w0))
      by (apply is_gpt4_available_exhausted; exact Hrl0).
    rewrite E. cbn [fst snd].
    split; [|split; [|split; [|split; [|split; [|split; [|split]]]]]].
    + cbn [extend trace]. rewrite requests_of_app.
      rewrite requests_of_rate_limited_attempts. reflexivity.
    + cbn [extend trace]. rewrite sleeps_of_app.
      rewrite sleeps_of_rate_limited_attempts. reflexivity.
    + lia.
    + intros _. split; [reflexivity|].
      rewrite Hinit, E. reflexivity.
    + split; [discriminate | intros [Hlt _]; lia].
    + lia.
    + lia.
    + rewrite E in Hiff. exact Hiff.
  - assert (Hlt : k < 5) by lia.
    assert (Hnot : ~ rate_limited (upcoming w0 k probe_request))
      by (destruct Hstop; [contradiction | assumption]).
    assert (E : probe
                = (probe_verdict (upcoming w k probe_request),
                   extend (k + 1)
                     (rate_limited_attempts k ++ [ev_request probe_request]) w0))
      by (apply (is_gpt4_available_decided w0 k Hlt Hrl0 Hnot)).
    rewrite E. cbn [fst snd].
    apply Nat.ltb_lt in Hlt as Hb. rewrite Hb.
    split; [|split; [|split; [|split; [|split; [|split; [|split]]]]]].
    + cbn [extend trace]. rewrite !requests_of_app.
      rewrite requests_of_rate_limited_attempts, repeat_app. reflexivity.
    + cbn [extend trace]. rewrite !sleeps_of_app.
      rewrite sleeps_of_rate_limited_attempts. simpl. rewrite app_nil_r.
      reflexivity.
    + reflexivity.
    + contradiction.
    + split.
      * intros Hv. split; [exact Hlt|].
        destruct (upcoming w k probe_request) as [|tokens e]; [discriminate|].
        destruct e; try discriminate. exists tokens. reflexivity.
      * intros [_ [tokens ->]]. reflexivity.
    + intros _ tokens Ha. rewrite Hinit, E, Ha. cbn [probe_verdict].
      rewrite record_extend, extend_extend, Nat.add_0_r, <- app_assoc. reflexivity.
    + intros _ tokens response Ha. rewrite Hinit, E, Ha. reflexivity.
    + rewrite E in Hiff. exact Hiff.
Qed.

(** C7 (amended): without the credential variable in the environment,
    session construction raises an error whose message tells the user to set
    it and to restart, and nothing has been sent or printed by then. With
    the credential, construction stores it and, when the premium model is
    requested, goes on with the probe, whose request is the next event; for
    any other requested model it sends nothing. *)
Theorem GPTSession__init__credential `{Assets}
    (task test model : string) (w : world) :
  (environ w !! "OPENAI_API_KEY" = None ->
   GPTSession__init__ task test model w
   = (Raises (Exception
        (LF +:+ "You need to set OPENAI_API_KEY in your environment."
         +:+ LF +:+ "If you have updated it already, please restart your terminal."
         +:+ LF)), w))
  /\ (forall key, environ w !! "OPENAI_API_KEY" = Some key ->
      model = "gpt-4" ->
      exists r w' n evs,
        GPTSession__init__ task test model w = (r, w')
        /\ openai_api_key w' = Some key
        /\ served w' = served w + S n
        /\ trace w' = trace w ++ ev_request probe_request :: evs)
  /\ (forall key, environ w !! "OPENAI_API_KEY" = Some key ->
      model <> "gpt-4" ->
      exists r w',
        GPTSession__init__ task test model w = (r, w')
        /\ openai_api_key w' = Some key
        /\ served w' = served w
        /\ trace w' = trace w).
Proof.
  split; [|split].
  - intros Hk. unfold GPTSession__init__, bind.
    rewrite (configure_openai_api_key_absent w Hk). reflexivity.
  - intros key Hk ->.
    rewrite (GPTSession__init__premium task test w key Hk).
    destruct (is_gpt4_available_total (set_openai_api_key key w))
      as (r & n & evs & ->).
    destruct r as [[|]|e].
    + eexists _, _, n, evs. split; [reflexivity|]. repeat split.
    + eexists _, _, n, (evs ++ [downgrade_warning]). split; [reflexivity|].
      repeat split. simpl. rewrite <- app_assoc. reflexivity.
    + eexists _, _, n, evs. split; [reflexivity|]. repeat split.
  - intros key Hk Hm.
    rewrite (GPTSession__init__other task test model w key Hk Hm).
    eexists _, _. split; [reflexivity|]. repeat split.
Qed.

(** C9: when the requested model is anything but the premium one, session
    construction sends no probe and prints no warning; the session keeps the
    requested name as its model and takes the prices of the standard tier,
    whatever the name. *)
Theorem GPTSession__init__standard `{Assets}
    (task test model key : string) (w : world) :
  model <> "gpt-4" ->
  environ w !! "OPENAI_API_KEY" = Some key ->
  exists w' s,
    GPTSession__init__ task test model w = (Returns (length (sessions w)), w')
    /\ served w' = served w
    /\ trace w' = trace w
    /\ sessions w' = sessions w ++ [s]
    /\ model_name s = model
    /\ pricing_prompt s = PRICING_GPT3_5_TURBO_PROMPT
    /\ pricing_generation s = PRICING_GPT3_5_TURBO_GENERATION.
Proof.
  intros Hm Hk.
  rewrite (GPTSession__init__other task test model w key Hk Hm).
  eexists _, _. split; [reflexivity|]. repeat split.
Qed.

(** ** The system message *)

Lemma append_assoc (a b c : string) : (a +:+ b) +:+ c = a +:+ b +:+ c.
Proof.
  induction a as [|ch a IH]; [reflexivity|].
  change (String ch ((a +:+ b) +:+ c) = String ch (a +:+ b +:+ c)).
  rewrite IH. reflexivity.
Qed.

Lemma append_nil_r (a : string) : a +:+ "" = a.
Proof.
  induction a as [|ch a IH]; [reflexivity|].
  change (String ch (a +:+ "") = String ch a).
  rewrite IH. reflexivity.
Qed.

Lemma occurs_in_append_r s t u : occurs_in s t -> occurs_in s (t +:+ u).
Proof.
  intros (before & after & ->). exists before, (after +:+ u).
  rewrite !append_assoc. reflexivity.
Qed.

Lemma occurs_in_append_l s t u : occurs_in s t -> occurs_in s (u +:+ t).
Proof.
  intros (before & after & ->). exists (u +:+ before), after.
  rewrite !append_assoc. reflexivity.
Qed.

Lemma vformat_substitute template kwargs :
  (forall name, Field name ∈ template -> is_Some (kwargs !! name)) ->
  vformat template kwargs = Returns (substitute template kwargs).
Proof.
  induction template as [|p rest IH]; intros Hf; [reflexivity|].
  assert (Hrest : vformat rest kwargs = Returns (substitute rest kwargs)).
  { apply IH. intros name Hin. apply Hf. right. exact Hin. }
  destruct p as [s | name]; simpl.
  - rewrite Hrest. reflexivity.
  - destruct (Hf name) as [v Hv]; [left|].
    rewrite Hv, Hrest. reflexivity.
Qed.

Lemma elem_of_used_args template name :
  name ∈ used_args template <-> Field name ∈ template.
Proof.
  induction template as [|p rest IH]; simpl.
  - rewrite elem_of_empty, elem_of_nil. reflexivity.
  - rewrite elem_of_cons. destruct p as [s | name'].
    + rewrite IH. split; [auto|]. intros [E | Hin]; [discriminate | exact Hin].
    + rewrite elem_of_union, elem_of_singleton, IH.
      split; (intros [E | Hin]; [left; congruence | right; exact Hin]).
Qed.

(** A template whose fields all have a value, and which has a field for
    every value, formats. *)
Lemma format_substitute template kwargs :
  (forall name, Field name ∈ template -> is_Some (kwargs !! name)) ->
  (forall name, is_Some (kwargs !! name) -> Field name ∈ template) ->
  format template kwargs = Returns (substitute template kwargs).
Proof.
  intros Hf Hu. unfold format. rewrite (vformat_substitute template kwargs Hf).
  cbv zeta. destruct (decide _) as [_ | Hne]; [reflexivity|].
  exfalso. apply Hne. apply set_eq. intros name.
  rewrite elem_of_difference, elem_of_dom, elem_of_used_args, elem_of_empty.
  split; [|contradiction]. intros [Hin Hout]. apply Hout, Hu, Hin.
Qed.

Lemma descriptions_is_Some task test name :
  is_Some (descriptions task test !! name) <->
  name = "task_description" \/ name = "test_description".
Proof.
  unfold descriptions. rewrite !lookup_insert_is_Some, lookup_empty, is_Some_alt.
  split.
  - intros [E | [_ [E | [_ []]]]]; auto.
  - intros [-> | ->]; [left; reflexivity|].
    right. split; [discriminate|]. left. reflexivity.
Qed.

Lemma substitute_occurs template kwargs name v :
  Field name ∈ template ->
  kwargs !! name = Some v ->
  occurs_in v (substitute template kwargs).
Proof.
  intros Hin Hv. induction template as [|p rest IH]; [inversion Hin|].
  apply elem_of_cons in Hin as [<- | Hin].
  - simpl. rewrite Hv. exists "", (substitute rest kwargs). reflexivity.
  - destruct p; simpl; apply occurs_in_append_l, IH, Hin.
Qed.

Lemma NoDup_example_names : NoDup example_names.
Proof. apply (bool_decide_unpack _). vm_compute. exact I. Qed.

Lemma selected_cases examples :
  selected examples
  = (if contains "executor" examples then ["executor"] else [])
    ++ (if contains "docarray" examples then ["docarray"] else [])
    ++ (if contains "client" examples then ["client"] else []).
Proof.
  unfold selected, example_names, contains.
  rewrite !filter_cons, filter_nil. unfold bool_decide, decide_rel, decide.
  repeat match goal with
         | |- context [if ?d is left _ then _ else _] => destruct d
         end; reflexivity.
Qed.

Lemma selected_ext examples examples' :
  (forall name, name ∈ example_names -> name ∈ examples <-> name ∈ examples') ->
  selected examples = selected examples'.
Proof.
  intros Hm. unfold selected.
  induction example_names as [|name names IH]; [reflexivity|].
  rewrite !filter_cons.
  rewrite IH by (intros n Hn; apply Hm; right; exact Hn).
  destruct (decide (name ∈ examples)) as [Hin | Hout];
    destruct (decide (name ∈ examples')) as [Hin' | Hout']; try reflexivity.
  - exfalso. apply Hout', (Hm name); [left | exact Hin].
  - exfalso. apply Hout, (Hm name); [left | exact Hin'].
Qed.

Section SystemMessage.

Context `{Assets}.

(** What [_create_system_message] computes: the formatted template, then
    the fragments of the selected names. *)
Lemma _create_system_message_eq task test examples w :
  _create_system_message task test examples w
  = (match format template_system_message_base (descriptions task test) with
     | Returns base => Returns (SystemMessage (base +:+ appended (selected examples)))
     | Raises e => Raises e
     end, w).
Proof.
  unfold _create_system_message, bind, lift.
  fold (descriptions task test).
  destruct (format template_system_message_base (descriptions task test))
    as [base | e]; [|reflexivity].
  rewrite selected_cases. unfold ret.
  destruct (contains "executor" examples), (contains "docarray" examples),
    (contains "client" examples); simpl;
    rewrite ?append_assoc, ?append_nil_r; reflexivity.
Qed.

Lemma _create_system_message_ext task test examples examples' w :
  (forall name, name ∈ example_names -> name ∈ examples <-> name ∈ examples') ->
  _create_system_message task test examples w
  = _create_system_message task test examples' w.
Proof.
  intros Hm. rewrite !_create_system_message_eq.
  rewrite (selected_ext examples examples' Hm). reflexivity.
Qed.

End SystemMessage.

(** C2: for every task and test description and every collection of example
    names, the system message is the template with the two descriptions put
    in as they are, followed by the fragments of exactly those of the names
    executor, docarray, client that were supplied, in this order, each on a
    new line; the order in which the names were supplied does not matter. The
    template is the one of the specification: its fields are the two
    descriptions. *)
Theorem _create_system_message_rendering `{Assets}
    (task test : string) (examples : list string) (w : world) :
  (forall name, Field name ∈ template_system_message_base ->
     name = "task_description" \/ name = "test_description") ->
  Field "task_description" ∈ template_system_message_base ->
  Field "test_description" ∈ template_system_message_base ->
  exists text,
    _create_system_message task test examples w = (Returns (SystemMessage text), w)
    /\ text = substitute template_system_message_base (descriptions task test)
              +:+ appended (selected examples)
    /\ occurs_in task text
    /\ occurs_in test text
    /\ (forall name,
          name ∈ selected examples <-> name ∈ examples /\ name ∈ example_names)
    /\ selected examples `sublist_of` example_names
    /\ (forall examples', examples' ≡ₚ examples ->
          _create_system_message task test examples' w
          = _create_system_message task test examples w).
Proof.
  intros Hfields Htask Htest.
  assert (Hformat :
    format template_system_message_base (descriptions task test)
    = Returns (substitute template_system_message_base (descriptions task test))).
  { apply format_substitute.
    - intros name Hin. apply descriptions_is_Some, Hfields, Hin.
    - intros name Hin. apply descriptions_is_Some in Hin as [-> | ->]; assumption. }
  eexists. split; [|split; [reflexivity|]].
  { rewrite _create_system_message_eq, Hformat. reflexivity. }
  split; [|split; [|split; [|split]]].
  - apply occurs_in_append_r, (substitute_occurs _ _ "task_description");
      [exact Htask | reflexivity].
  - apply occurs_in_append_r, (substitute_occurs _ _ "test_description");
      [exact Htest | reflexivity].
  - intros name. unfold selected. rewrite list_elem_of_filter. reflexivity.
  - apply sublist_filter.
  - intros examples' Hperm. apply _create_system_message_ext.
    intros name _. rewrite Hperm. reflexivity.
Qed.

(** C10: which fragments go into the system message depends only on which
    of the three names are members of the collection supplied: two
    collections with the same members among the three names give the same
    message, so a name supplied twice or a name that is not one of the three
    changes nothing; and each of the three fragments is appended at most
    once, since the selected names have no duplicate. *)
Theorem _create_system_message_membership `{Assets}
    (task test : string) (examples : list string) (w : world) :
  (forall examples',
     (forall name, name ∈ example_names -> name ∈ examples <-> name ∈ examples') ->
     _create_system_message task test examples' w
     = _create_system_message task test examples w)
  /\ (forall name, name ∈ examples ->
        _create_system_message task test (name :: examples) w
        = _create_system_message task test examples w)
  /\ (forall name, name ∉ example_names ->
        _create_system_message task test (name :: examples) w
        = _create_system_message task test examples w)
  /\ _create_system_message task test examples w
     = (match format template_system_message_base (descriptions task test) with
        | Returns base =>
            Returns (SystemMessage (base +:+ appended (selected examples)))
        | Raises e => Raises e
        end, w)
  /\ NoDup (selected examples)
  /\ selected examples `sublist_of` example_names.
Proof.
  split; [|split; [|split; [|split; [|split]]]].
  - intros examples' Hm. symmetry. apply _create_system_message_ext, Hm.
  - intros name Hin. apply _create_system_message_ext.
    intros n _. rewrite elem_of_cons. split; [|auto].
    intros [-> | Hn]; assumption.
  - intros name Hout. apply _create_system_message_ext.
    intros n Hn. rewrite elem_of_cons. split; [|auto].
    intros [-> | Hn']; [contradiction | assumption].
  - apply _create_system_message_eq.
  - unfold selected. apply NoDup_filter, NoDup_example_names.
  - apply sublist_filter.
Qed.

(** ** Cost accounting *)

Section Cost.

Context `{Assets}.

Lemma calculate_money_spent_money num_chars price w :
  calculate_money_spent num_chars price w = (money num_chars price, w).
Proof.
  unfold calculate_money_spent, money, bind, to_float, truediv.
  destruct (Float.is_infinity (Float.of_int num_chars)); [reflexivity|].
  unfold ret at 1.
  destruct (Float.is_zero CHARS_PER_TOKEN); reflexivity.
Qed.

Lemma cost_callback_eq self chars_prompt chars_generation w s :
  sessions w !! self = Some s ->
  cost_callback self chars_prompt chars_generation w
  = (match bill (charged chars_prompt chars_generation s) with
     | Returns _ => Returns tt
     | Raises e => Raises e
     end,
     record (cost_report (charged chars_prompt chars_generation s))
       (set_sessions
          (<[self := charged chars_prompt chars_generation s]> (sessions w)) w)).
Proof.
  intros Hs.
  assert (Hlt : self < length (sessions w)) by (eapply lookup_lt_Some; exact Hs).
  unfold cost_callback, bind at 1, get_session. rewrite Hs.
  unfold bind at 1, put_session.
  unfold bind at 1, get_session. cbn [sessions set_sessions].
  rewrite list_lookup_insert_eq by exact Hlt.
  unfold bind at 1. cbn [sessions set_sessions].
  rewrite list_insert_insert_eq.
  unfold bind at 1, print, emit.
  unfold bind at 1, get_session. cbn [sessions set_sessions record].
  rewrite list_lookup_insert_eq by exact Hlt.
  fold (charged chars_prompt chars_generation s).
  set (s' := charged chars_prompt chars_generation s).
  unfold bind at 1. rewrite calculate_money_spent_money.
  unfold cost_report, bill.
  destruct (money (chars_prompt_so_far s') (pricing_prompt s')) as [mp | e];
    [|reflexivity].
  unfold bind at 1. rewrite calculate_money_spent_money.
  destruct (money (chars_generation_so_far s') (pricing_generation s')) as [mg | e];
    [|reflexivity].
  unfold bind, print, emit, record. cbn. rewrite <- !app_assoc. reflexivity.
Qed.

End Cost.

(** ** One chat turn *)

Lemma record_record e1 e2 w : record e2 (record e1 w) = record (e1 ++ e2) w.
Proof. unfold record; simpl. rewrite app_assoc. reflexivity. Qed.

Lemma record_set_sessions_record e1 e2 l w :
  record e2 (set_sessions l (record e1 w)) = record (e1 ++ e2) (set_sessions l w).
Proof. unfold record, set_sessions; simpl. rewrite app_assoc. reflexivity. Qed.

Lemma record_nil w : record [] w = w.
Proof. destruct w; unfold record; simpl. rewrite app_nil_r. reflexivity. Qed.

Lemma verbose_eq w :
  verbose w
  = (match environ w !! "VERBOSE" with
     | Some v => Returns (is_verbose v)
     | None => Raises (KeyError "VERBOSE")
     end, w).
Proof.
  unfold verbose, bind, environ_get.
  destruct (environ w !! "VERBOSE"); reflexivity.
Qed.

Lemma for_each_handlers (hs : list handler) token w :
  for_each hs (fun h => on_llm_new_token h token) w
  = (Returns tt,
     record (map (fun _ => ev_print_colored [""; token; "green"] (Some "")) hs) w).
Proof.
  revert w. induction hs as [|h hs IH]; intros w.
  - simpl. rewrite record_nil. reflexivity.
  - simpl for_each. unfold bind. destruct h. unfold on_llm_new_token, print_colored, emit.
    rewrite IH, record_record. reflexivity.
Qed.

Lemma for_each_quiet (hs : list handler) token w :
  for_each hs (fun h => when false (on_llm_new_token h token)) w = (Returns tt, w).
Proof. induction hs as [|h hs IH]; [reflexivity | exact IH]. Qed.

Lemma for_each_tokens_quiet (hs : list handler) tokens w :
  for_each tokens (manager_on_llm_new_token hs false) w = (Returns tt, w).
Proof.
  induction tokens as [|t tokens IH]; [reflexivity|].
  simpl for_each. unfold bind, manager_on_llm_new_token at 1.
  rewrite for_each_quiet. exact IH.
Qed.

Lemma for_each_tokens llm tokens w :
  for_each tokens
    (manager_on_llm_new_token (kw_callback_manager llm) (kw_verbose llm)) w
  = (Returns tt, record (shown llm tokens) w).
Proof.
  unfold shown. destruct (kw_verbose llm).
  - revert w. induction tokens as [|t tokens IH]; intros w.
    + simpl. rewrite record_nil. reflexivity.
    + simpl for_each. unfold bind, manager_on_llm_new_token at 1.
      change (for_each (kw_callback_manager llm)
                (fun h => when true (on_llm_new_token h t)) w)
        with (for_each (kw_callback_manager llm)
                (fun h => on_llm_new_token h t) w).
      rewrite for_each_handlers, IH, record_record. reflexivity.
  - rewrite for_each_tokens_quiet, record_nil. reflexivity.
Qed.

(** The loop of the attempts, as a function of the answers of the
    provider. *)
Lemma completion_with_retry_eq n r : forall more attempt w,
  completion_with_retry n r attempt more w
  = (Returns (snd (retries (outcome w n r) r attempt more)),
     record (fst (retries (outcome w n r) r attempt more)) w).
Proof.
  induction more as [|more IH]; intros attempt w.
  - simpl. unfold bind, request_once.
    destruct (outcome w n r attempt) as [tokens response | [|t tokens] e];
      reflexivity.
  - simpl. unfold bind at 1, request_once.
    destruct (outcome w n r attempt) as [tokens response | [|t tokens] e];
      try reflexivity.
    destruct (retried e); [|reflexivity].
    unfold bind, sleep, emit. rewrite IH.
    change (outcome (record [ev_sleep (wait_exponential attempt)]
                       (record [ev_attempt r] w)) n r)
      with (outcome w n r).
    rewrite !record_record. reflexivity.
Qed.

Lemma call_eq llm msgs w :
  call llm msgs w
  = (answer_result (snd (settled w (ChatOpenAI_call llm msgs))),
     extend 1 (ev_request (ChatOpenAI_call llm msgs)
               :: fst (settled w (ChatOpenAI_call llm msgs))
               ++ shown llm (answer_tokens (snd (settled w (ChatOpenAI_call llm msgs)))))
       w).
Proof.
  unfold call, bind at 1, hand_over. unfold bind at 1.
  rewrite completion_with_retry_eq.
  change (outcome (next_request (record [ev_request (ChatOpenAI_call llm msgs)] w))
            (served w) (ChatOpenAI_call llm msgs))
    with (outcome w (served w) (ChatOpenAI_call llm msgs)).
  fold (settled w (ChatOpenAI_call llm msgs)).
  rewrite next_request_extend, !record_extend, !extend_extend.
  destruct (snd (settled w (ChatOpenAI_call llm msgs))) as [tokens response | tokens e];
    unfold bind; rewrite for_each_tokens, record_extend, extend_extend;
    cbn [answer_result answer_tokens]; simpl Nat.add;
    rewrite <- !app_assoc; reflexivity.
Qed.

(** An answer that the call ends on is an answer of the provider: the
    rejections hold exceptions only. *)
Lemma retries_answers o r tokens response : forall more attempt,
  snd (retries o r attempt more) = Answers tokens response ->
  exists j, o j = Answers tokens response.
Proof.
  induction more as [|more IH]; intros attempt; simpl.
  - destruct (o attempt) as [t a | [|t ts] e] eqn:E; simpl; intros Ha;
      try discriminate; exists attempt; congruence.
  - destruct (o attempt) as [t a | [|t ts] e] eqn:E; simpl;
      try (intros Ha; try discriminate; exists attempt; congruence).
    destruct (retried e); simpl; [apply IH | discriminate].
Qed.

Lemma settled_answers w r tokens response :
  snd (settled w r) = Answers tokens response ->
  upcoming w 0 r = Answers tokens response.
Proof.
  intros Ha. apply retries_answers in Ha as [j Hj].
  unfold outcome in Hj. unfold upcoming. rewrite Nat.add_0_r.
  destruct (rejections w (served w) r !! pred j); [discriminate | exact Hj].
Qed.

(** On a provider that turns no attempt down and then answers, the first
    attempt is the only one. *)
Lemma settled_first w r tokens response :
  rejections w (served w) r = [] ->
  upcoming w 0 r = Answers tokens response ->
  settled w r = ([ev_attempt r], Answers tokens response).
Proof.
  unfold upcoming, settled. rewrite Nat.add_0_r. intros Hr Ha.
  simpl. unfold outcome. rewrite Hr, Ha. reflexivity.
Qed.

Section Chat.

Context `{Assets}.

Lemma when_echo (b : bool) prompt w :
  when b (print_colored ["user"; prompt; "blue"] None ;;
          print_colored ["assistant"; ""; "green"] (Some "")) w
  = (Returns tt, record (echo b prompt) w).
Proof.
  destruct b; simpl.
  - unfold bind, print_colored, emit. rewrite record_record. reflexivity.
  - unfold ret. rewrite record_nil. reflexivity.
Qed.

Lemma when_print (b : bool) w :
  when b (print []) w = (Returns tt, record (if b then [ev_print []] else []) w).
Proof.
  destruct b; simpl; [reflexivity|].
  unfold ret. rewrite record_nil. reflexivity.
Qed.

Lemma cost_callback_no_session self chars_prompt chars_generation w :
  sessions w !! self = None ->
  cost_callback self chars_prompt chars_generation w = (Raises NoSuchObject, w).
Proof.
  intros Hs. unfold cost_callback, bind, get_session. rewrite Hs. reflexivity.
Qed.

(** One call of [chat], in full. *)
Lemma chat_eq self prompt w conv :
  conversations w !! self = Some conv ->
  chat self prompt w
  = let w1 := set_conversations
                (<[self := append_message (HumanMessage prompt) conv]>
                   (conversations w)) w in
    match environ w !! "VERBOSE" with
    | None => (Raises (KeyError "VERBOSE"), w1)
    | Some v =>
        match snd (settled w (chat_request conv prompt)) with
        | Fails tokens e => (Raises e, asked self conv v prompt w)
        | Answers tokens response =>
            let w2 := record (if is_verbose v then [ev_print []] else [])
                        (asked self conv v prompt w) in
            match sessions w !! self_cost_callback conv with
            | None => (Raises NoSuchObject, w2)
            | Some s =>
                let s' := charged (chars (chat_messages conv prompt))
                            (len (content response)) s in
                let w3 := record (cost_report s')
                            (set_sessions
                               (<[self_cost_callback conv := s']> (sessions w)) w2) in
                match bill s' with
                | Returns _ =>
                    (Returns (content response),
                     set_conversations
                       (<[self := append_message response
                                    (append_message (HumanMessage prompt) conv)]>
                          (conversations w)) w3)
                | Raises e => (Raises e, w3)
                end
            end
        end
    end.
Proof.
  intros Hconv.
  assert (Hlt : self < length (conversations w))
    by (eapply lookup_lt_Some; exact Hconv).
  unfold chat.
  unfold bind at 1, get_conversation_object. rewrite Hconv.
  unfold bind at 1, put_conversation.
  unfold bind at 1. rewrite verbose_eq. cbn [environ set_conversations].
  destruct (environ w !! "VERBOSE") as [v|] eqn:Hv; [|reflexivity].
  unfold bind at 1. rewrite when_echo.
  unfold bind at 1, get_conversation_object. cbn [conversations record set_conversations].
  rewrite list_lookup_insert_eq by exact Hlt.
  unfold bind at 1. rewrite call_eq.
  change (ChatOpenAI_call (_chat (append_message (HumanMessage prompt) conv))
            (system_message (append_message (HumanMessage prompt) conv)
             :: messages (append_message (HumanMessage prompt) conv)))
    with (chat_request conv prompt).
  change (sum (map (fun m => len (content m))
                 (system_message (append_message (HumanMessage prompt) conv)
                  :: messages (append_message (HumanMessage prompt) conv))))
    with (chars (chat_messages conv prompt)).
  change (self_cost_callback (append_message (HumanMessage prompt) conv))
    with (self_cost_callback conv).
  change (_chat (append_message (HumanMessage prompt) conv)) with (_chat conv).
  change (settled
            (record (echo (is_verbose v) prompt)
               (set_conversations
                  (<[self:=append_message (HumanMessage prompt) conv]>
                     (conversations w)) w)) (chat_request conv prompt))
    with (settled w (chat_request conv prompt)).
  rewrite record_extend, extend_extend. change (0 + 1) with 1.
  fold (asked self conv v prompt w).
  destruct (snd (settled w (chat_request conv prompt))) as [tokens response | tokens e];
    cbn [answer_result]; [|reflexivity].
  unfold bind at 1. rewrite verbose_eq.
  change (environ (asked self conv v prompt w)) with (environ w). rewrite Hv.
  unfold bind at 1. rewrite when_print.
  unfold bind at 1.
  change (sessions w !! self_cost_callback conv)
    with (sessions (record (if is_verbose v then [ev_print []] else [])
                      (asked self conv v prompt w))
          !! self_cost_callback conv).
  destruct (sessions (record (if is_verbose v then [ev_print []] else [])
                        (asked self conv v prompt w))
            !! self_cost_callback conv) as [s|] eqn:Hs.
  2:{ rewrite cost_callback_no_session by exact Hs. reflexivity. }
  rewrite (cost_callback_eq _ _ _ _ s) by exact Hs.
  change (sessions (record (if is_verbose v then [ev_print []] else [])
                      (asked self conv v prompt w)))
    with (sessions w).
  destruct (bill (charged (chars (chat_messages conv prompt))
                    (len (content response)) s)) as [amount | e]; [|reflexivity].
  unfold bind at 1, get_conversation_object.
  cbn [conversations record set_sessions asked extend set_conversations].
  rewrite list_lookup_insert_eq by exact Hlt.
  unfold bind, put_conversation, ret.
  cbn [conversations record set_sessions asked extend set_conversations].
  rewrite list_insert_insert_eq. reflexivity.
Qed.

End Chat.

(** The echo, the attempts, the tokens and the cost report are no requests:
    a turn hands one request to the backend object. *)
Lemma requests_of_echo b prompt : requests_of (echo b prompt) = [].
Proof. destruct b; reflexivity. Qed.

Lemma requests_of_green (hs : list handler) token :
  requests_of (map (fun _ => ev_print_colored [""; token; "green"] (Some "")) hs) = [].
Proof. induction hs as [|h hs IH]; [reflexivity | exact IH]. Qed.

Lemma requests_of_streamed llm tokens : requests_of (streamed llm tokens) = [].
Proof.
  unfold streamed. induction tokens as [|t tokens IH]; [reflexivity|].
  simpl. rewrite requests_of_app, IH, app_nil_r. apply requests_of_green.
Qed.

Lemma requests_of_cost_report `{Assets} s : requests_of (cost_report s) = [].
Proof. unfold cost_report. destruct (bill s); reflexivity. Qed.

Lemma requests_of_blank_line (b : bool) :
  requests_of (if b then [ev_print []] else []) = [].
Proof. destruct b; reflexivity. Qed.

Lemma requests_of_shown llm tokens : requests_of (shown llm tokens) = [].
Proof. unfold shown. destruct (kw_verbose llm); [apply requests_of_streamed | reflexivity]. Qed.

Lemma requests_of_retries o r : forall more attempt,
  requests_of (fst (retries o r attempt more)) = [].
Proof.
  induction more as [|more IH]; intros attempt; simpl.
  - destruct (o attempt) as [t a | [|t ts] e]; reflexivity.
  - destruct (o attempt) as [t a | [|t ts] e]; try reflexivity.
    destruct (retried e); [apply IH | reflexivity].
Qed.

Lemma requests_of_asked self conv v prompt w :
  requests_of (trace (asked self conv v prompt w))
  = requests_of (trace w) ++ [chat_request conv prompt].
Proof.
  cbn [asked extend trace set_conversations].
  rewrite !requests_of_app, requests_of_echo. simpl.
  rewrite requests_of_app, requests_of_shown, app_nil_r.
  unfold settled. rewrite requests_of_retries. reflexivity.
Qed.

(** Whatever comes of it, a call of [chat] on a conversation, with the
    verbosity flag set, calls the backend object once, with the system
    message, the transcript, the new user message. *)
Lemma chat_sends `{Assets} self prompt w conv v :
  conversations w !! self = Some conv ->
  environ w !! "VERBOSE" = Some v ->
  requests_of (trace (snd (chat self prompt w)))
  = requests_of (trace w) ++ [chat_request conv prompt].
Proof.
  intros Hconv Hv. rewrite (chat_eq self prompt w conv Hconv). cbv zeta.
  rewrite Hv.
  destruct (snd (settled w (chat_request conv prompt))) as [tokens response | tokens e];
    [|apply requests_of_asked].
  destruct (sessions w !! self_cost_callback conv) as [s|].
  - destruct (bill _) as [amount | e];
      cbn [snd trace set_conversations record set_sessions];
      rewrite !requests_of_app, requests_of_cost_report, requests_of_blank_line,
        !app_nil_r; apply requests_of_asked.
  - cbn [snd trace record].
    rewrite requests_of_app, requests_of_blank_line, app_nil_r.
    apply requests_of_asked.
Qed.

(** ** The claims on one chat turn *)

(** C3: a call [chat(prompt)] that returns has appended to the transcript the
    user message with the prompt and then the response of the backend, these
    two and in this order, so that the transcript is longer by 2, and the
    value returned is the content of that response, which is a message of the
    assistant, with the reply, as [ChatOpenAI] returns one. Nothing else of
    the conversation changes, and no other conversation does. *)
Theorem chat_appends_turn `{Assets}
    (self : nat) (prompt : string) (w : world) (conv : _GPTConversation)
    (reply : string) (w' : world) :
  conversations w !! self = Some conv ->
  chat self prompt w = (Returns reply, w') ->
  exists conv' response,
    conversations w' !! self = Some conv'
    /\ messages conv' = messages conv ++ [HumanMessage prompt; response]
    /\ length (messages conv') = length (messages conv) + 2
    /\ content response = reply
    /\ (exists tokens,
          upcoming w 0 (chat_request conv prompt) = Answers tokens response)
    /\ (replies_as_assistant w -> response = AIMessage reply)
    /\ system_message conv' = system_message conv
    /\ (forall other, other <> self ->
          conversations w' !! other = conversations w !! other).
Proof.
  intros Hconv Hchat.
  assert (Hlt : self < length (conversations w))
    by (eapply lookup_lt_Some; exact Hconv).
  rewrite (chat_eq self prompt w conv Hconv) in Hchat. cbv zeta in Hchat.
  destruct (environ w !! "VERBOSE") as [v|]; [|discriminate].
  destruct (snd (settled w (chat_request conv prompt)))
    as [tokens response | tokens e] eqn:Ha; [|discriminate].
  apply settled_answers in Ha.
  destruct (sessions w !! self_cost_callback conv) as [s|]; [|discriminate].
  destruct (bill _) as [amount | e]; [|discriminate].
  injection Hchat as Hr Hw.
  exists (append_message response (append_message (HumanMessage prompt) conv)),
    response.
  subst w'. cbn [conversations set_conversations].
  split; [apply list_lookup_insert_eq; exact Hlt|].
  split; [simpl; rewrite <- app_assoc; reflexivity|].
  split; [simpl; rewrite !length_app; simpl; lia|].
  split; [exact Hr|].
  split; [exists tokens; exact Ha|].
  split.
  { intros Hai. destruct (Hai _ _ _ _ _ Ha) as [text ->].
    simpl in Hr. rewrite Hr. reflexivity. }
  split; [reflexivity|].
  intros other Hne. apply list_lookup_insert_ne. congruence.
Qed.

(** Nothing before the cost callback writes with [print], but the blank
    line of a verbose turn that has its response. *)
Lemma prints_of_app e1 e2 : prints_of (e1 ++ e2) = prints_of e1 ++ prints_of e2.
Proof. apply omap_app. Qed.

Lemma prints_of_echo b prompt : prints_of (echo b prompt) = [].
Proof. destruct b; reflexivity. Qed.

Lemma prints_of_green (hs : list handler) token :
  prints_of (map (fun _ => ev_print_colored [""; token; "green"] (Some "")) hs) = [].
Proof. induction hs as [|h hs IH]; [reflexivity | exact IH]. Qed.

Lemma prints_of_streamed llm tokens : prints_of (streamed llm tokens) = [].
Proof.
  unfold streamed. induction tokens as [|t tokens IH]; [reflexivity|].
  simpl. rewrite prints_of_app, IH, app_nil_r. apply prints_of_green.
Qed.

Lemma prints_of_shown llm tokens : prints_of (shown llm tokens) = [].
Proof. unfold shown. destruct (kw_verbose llm); [apply prints_of_streamed | reflexivity]. Qed.

Lemma prints_of_retries o r : forall more attempt,
  prints_of (fst (retries o r attempt more)) = [].
Proof.
  induction more as [|more IH]; intros attempt; simpl.
  - destruct (o attempt) as [t a | [|t ts] e]; reflexivity.
  - destruct (o attempt) as [t a | [|t ts] e]; try reflexivity.
    destruct (retried e); [apply IH | reflexivity].
Qed.

Lemma prints_of_asked self conv v prompt w :
  prints_of (trace (asked self conv v prompt w)) = prints_of (trace w).
Proof.
  cbn [asked extend trace set_conversations].
  rewrite !prints_of_app, prints_of_echo. simpl.
  rewrite prints_of_app, prints_of_shown, app_nil_r.
  unfold settled. rewrite prints_of_retries, app_nil_r. reflexivity.
Qed.

(** C8: when the backend call inside [chat] raises, that is, when the call
    of the [ChatOpenAI] object with the request of the turn raises, after
    the attempts that the library makes on its own, the exception goes to
    the caller; the user message appended at the start of the call stays in
    the transcript and no assistant message follows it; the cost callback has
    not run: no counter changed, and after the echo nothing was written but
    what the backend call writes, so that [print] wrote nothing, neither the
    blank line nor the cost report; and the request of the next call carries
    the dangling user message. *)
Theorem chat_failure_keeps_prompt `{Assets}
    (self : nat) (prompt : string) (w : world) (conv : _GPTConversation)
    (v : string) (e : exn) :
  conversations w !! self = Some conv ->
  environ w !! "VERBOSE" = Some v ->
  fst (call (_chat conv) (chat_messages conv prompt) w) = Raises e ->
  exists w',
    chat self prompt w = (Raises e, w')
    /\ (exists conv',
          conversations w' !! self = Some conv'
          /\ messages conv' = messages conv ++ [HumanMessage prompt])
    /\ sessions w' = sessions w
    /\ (exists evs,
          trace (snd (call (_chat conv) (chat_messages conv prompt) w))
          = trace w ++ evs
          /\ trace w' = trace w ++ echo (is_verbose v) prompt ++ evs)
    /\ prints_of (trace w') = prints_of (trace w)
    /\ requests_of (trace w') = requests_of (trace w) ++ [chat_request conv prompt]
    /\ (forall prompt',
          requests_of (trace (snd (chat self prompt' w')))
          = requests_of (trace w')
            ++ [ChatOpenAI_call (_chat conv)
                  (system_message conv
                   :: messages conv ++ [HumanMessage prompt; HumanMessage prompt'])]).
Proof.
  intros Hconv Hv Hcall.
  assert (Hlt : self < length (conversations w))
    by (eapply lookup_lt_Some; exact Hconv).
  rewrite call_eq in Hcall |- *. cbn [fst snd] in Hcall |- *.
  fold (chat_request conv prompt) in Hcall |- *.
  rewrite (chat_eq self prompt w conv Hconv). cbv zeta. rewrite Hv.
  destruct (snd (settled w (chat_request conv prompt))) as [tokens response | tokens e']
    eqn:Ha; [discriminate|].
  injection Hcall as ->.
  eexists. split; [reflexivity|].
  set (conv1 := append_message (HumanMessage prompt) conv).
  assert (Hconv1 : conversations (asked self conv v prompt w) !! self
                   = Some conv1)
    by (apply list_lookup_insert_eq; exact Hlt).
  split; [exists conv1; split; [exact Hconv1 | reflexivity]|].
  split; [reflexivity|].
  split.
  { eexists. split; [reflexivity|].
    cbn [asked extend trace set_conversations]. rewrite Ha. reflexivity. }
  split; [apply prints_of_asked|].
  split; [apply requests_of_asked|].
  intros prompt'.
  rewrite (chat_sends self prompt' _ conv1 v Hconv1 Hv).
  unfold chat_request, chat_messages, conv1. simpl.
  rewrite <- app_assoc. reflexivity.
Qed.

(** ** The claim on the running cost *)

Lemma money_unrounded `{Assets} num_chars price m :
  money num_chars price = Returns m ->
  m = Float.round3 (unrounded num_chars price).
Proof.
  unfold money, unrounded.
  destruct (Float.is_infinity _); [discriminate|].
  destruct (Float.is_zero _); [discriminate|].
  intros E. injection E as <-. reflexivity.
Qed.

(** C5 (amended): after each completed turn the last thing printed is the
    running cost, between two blank lines. The amount is the sum of the
    prompt amount and the generation amount of the session, each of them
    [chars / CHARS_PER_TOKEN * price / 1000] over the counter and the price
    of its own and each rounded to 3 decimal places before the two are
    added; the sum is printed with 3 decimal places. The prices are those
    the session was constructed with, premium or standard. *)
Theorem chat_prints_cost `{Assets}
    (self : nat) (prompt : string) (w : world) (conv : _GPTConversation)
    (reply : string) (w' : world) :
  conversations w !! self = Some conv ->
  chat self prompt w = (Returns reply, w') ->
  exists s s' evs money_prompt money_generation,
    sessions w !! self_cost_callback conv = Some s
    /\ sessions w' !! self_cost_callback conv = Some s'
    /\ pricing_prompt s' = pricing_prompt s
    /\ pricing_generation s' = pricing_generation s
    /\ money_prompt
       = Float.round3 (unrounded (chars_prompt_so_far s') (pricing_prompt s'))
    /\ money_generation
       = Float.round3 (unrounded (chars_generation_so_far s') (pricing_generation s'))
    /\ trace w'
       = trace w ++ evs
         ++ [ev_print [LF];
             ev_print ["Total money spent so far on openai.com:";
                       "$" +:+ Float.format_3f (Float.add money_prompt money_generation)];
             ev_print [LF]].
Proof.
  intros Hconv Hchat.
  rewrite (chat_eq self prompt w conv Hconv) in Hchat. cbv zeta in Hchat.
  destruct (environ w !! "VERBOSE") as [v|]; [|discriminate].
  destruct (snd (settled w (chat_request conv prompt)))
    as [tokens response | tokens e] eqn:Ha; [|discriminate].
  destruct (sessions w !! self_cost_callback conv) as [s|] eqn:Hs; [|discriminate].
  set (s' := charged (chars (chat_messages conv prompt)) (len (content response)) s)
    in Hchat.
  destruct (bill s') as [amount | e] eqn:Hbill; [|discriminate].
  injection Hchat as _ <-.
  unfold bill in Hbill.
  destruct (money (chars_prompt_so_far s') (pricing_prompt s')) as [mp | e] eqn:Hmp;
    [|discriminate].
  destruct (money (chars_generation_so_far s') (pricing_generation s')) as [mg | e]
    eqn:Hmg; [|discriminate].
  injection Hbill as <-.
  exists s, s',
    (echo (is_verbose v) prompt
     ++ ev_request (chat_request conv prompt)
        :: fst (settled w (chat_request conv prompt))
     ++ shown (_chat conv) tokens
     ++ (if is_verbose v then [ev_print []] else [])), mp, mg.
  split; [reflexivity|].
  split.
  { cbn [sessions set_conversations record set_sessions].
    apply list_lookup_insert_eq. eapply lookup_lt_Some; exact Hs. }
  split; [reflexivity|]. split; [reflexivity|].
  split; [apply money_unrounded; exact Hmp|].
  split; [apply money_unrounded; exact Hmg|].
  cbn [trace set_conversations record set_sessions asked extend].
  unfold cost_report, bill. rewrite Hmp, Hmg, Ha. cbn [answer_tokens].
  repeat (rewrite <- app_assoc || rewrite <- app_comm_cons). reflexivity.
Qed.

(** ** Sequences of calls *)

Lemma fold_left_add_shift (l : list Z) (a : Z) :
  fold_left Z.add l a = (a + fold_left Z.add l 0)%Z.
Proof.
  revert a. induction l as [|x l IH]; intros a; [simpl; lia|].
  change (fold_left Z.add l (a + x) = a + fold_left Z.add l (0 + x))%Z.
  rewrite (IH (a + x)%Z), (IH (0 + x)%Z). lia.
Qed.

Lemma sum_cons (x : Z) (l : list Z) : sum (x :: l) = (x + sum l)%Z.
Proof. unfold sum. simpl. apply fold_left_add_shift. Qed.

Lemma sum_nonneg (l : list Z) : Forall (fun x => 0 <= x)%Z l -> (0 <= sum l)%Z.
Proof.
  induction 1 as [|x l Hx Hl IH]; [unfold sum; simpl; lia|].
  rewrite sum_cons. lia.
Qed.

Lemma len_nonneg (s : string) : (0 <= len s)%Z.
Proof. unfold len. lia. Qed.

Lemma chars_nonneg (msgs : list BaseMessage) : (0 <= chars msgs)%Z.
Proof.
  unfold chars. apply sum_nonneg, Forall_map, Forall_forall.
  intros m _. apply len_nonneg.
Qed.

Section Frame.

Context `{Assets}.

(** What a call of [chat] leaves behind, whatever its outcome. *)
Lemma chat_frame self prompt w conv r w1 :
  conversations w !! self = Some conv ->
  chat self prompt w = (r, w1) ->
  provider w1 = provider w
  /\ environ w1 = environ w
  /\ (exists conv1,
        conversations w1 = <[self := conv1]> (conversations w)
        /\ _chat conv1 = _chat conv
        /\ system_message conv1 = system_message conv
        /\ self_cost_callback conv1 = self_cost_callback conv
        /\ ((messages conv1 = messages conv ++ [HumanMessage prompt]
             /\ exists e, r = Raises e)
            \/ (exists tokens response,
                  upcoming w 0 (chat_request conv prompt) = Answers tokens response
                  /\ r = Returns (content response)
                  /\ messages conv1
                     = messages conv ++ [HumanMessage prompt; response])))
  /\ ((sessions w1 = sessions w /\ exists e, r = Raises e)
      \/ (exists s tokens response,
            sessions w !! self_cost_callback conv = Some s
            /\ upcoming w 0 (chat_request conv prompt) = Answers tokens response
            /\ sessions w1
               = <[self_cost_callback conv :=
                     charged (chars (chat_messages conv prompt))
                       (len (content response)) s]> (sessions w))).
Proof.
  intros Hconv Hchat.
  rewrite (chat_eq self prompt w conv Hconv) in Hchat. cbv zeta in Hchat.
  destruct (environ w !! "VERBOSE") as [v|].
  2:{ injection Hchat as <- <-. split; [reflexivity|]. split; [reflexivity|].
      split; [|left; eauto].
      eexists. split; [reflexivity|]. repeat (split; [reflexivity|]).
      left. eauto. }
  destruct (snd (settled w (chat_request conv prompt)))
    as [tokens response | tokens e] eqn:Ha.
  2:{ injection Hchat as <- <-. split; [reflexivity|]. split; [reflexivity|].
      split; [|left; eauto].
      eexists. split; [reflexivity|]. repeat (split; [reflexivity|]).
      left. eauto. }
  apply settled_answers in Ha.
  destruct (sessions w !! self_cost_callback conv) as [s|] eqn:Hs.
  2:{ injection Hchat as <- <-. split; [reflexivity|]. split; [reflexivity|].
      split; [|left; eauto].
      eexists. split; [reflexivity|]. repeat (split; [reflexivity|]).
      left. eauto. }
  destruct (bill _) as [amount | e]; injection Hchat as <- <-.
  - split; [reflexivity|]. split; [reflexivity|]. split.
    + eexists. split; [reflexivity|]. repeat (split; [reflexivity|]).
      right. exists tokens, response. split; [exact Ha|]. split; [reflexivity|].
      simpl. rewrite <- app_assoc. reflexivity.
    + right. exists s, tokens, response. split; [reflexivity|].
      split; [exact Ha | reflexivity].
  - split; [reflexivity|]. split; [reflexivity|]. split.
    + eexists. split; [reflexivity|]. repeat (split; [reflexivity|]).
      left. eauto.
    + right. exists s, tokens, response. split; [reflexivity|].
      split; [exact Ha | reflexivity].
Qed.

Lemma ChatOpenAI__init__eq model streaming callback_manager v temperature w :
  ChatOpenAI__init__ model streaming callback_manager v temperature w
  = (if String.eqb (credential w) ""
     then Raises (OtherError "ValidationError")
     else Returns {| kw_model_name := model;
                     kw_streaming := streaming;
                     kw_callback_manager := callback_manager;
                     kw_verbose := v;
                     kw_temperature := temperature |}, w).
Proof.
  unfold ChatOpenAI__init__, bind, environ_contains, environ_get, credential.
  destruct (environ w !! "OPENAI_API_KEY") as [key|] eqn:Hkey; simpl;
    [|reflexivity].
  rewrite Hkey. destruct (String.eqb key ""); reflexivity.
Qed.

(** One call of [get_conversation], in full. *)
Lemma get_conversation_eq h examples w :
  get_conversation h examples w
  = match sessions w !! h with
    | None => (Raises NoSuchObject, w)
    | Some s =>
        match environ w !! "VERBOSE" with
        | None => (Raises (KeyError "VERBOSE"), w)
        | Some v =>
            if String.eqb (credential w) ""
            then (Raises (OtherError "ValidationError"), w)
            else
              match format template_system_message_base
                      (descriptions (task_description s) (test_description s)) with
              | Raises e => (Raises e, w)
              | Returns base =>
                  let text := base +:+ appended (selected examples) in
                  (Returns (length (conversations w)),
                   set_conversations
                     (conversations w ++ [fresh_conversation h s v text])
                     (record (if is_verbose v
                              then [ev_print_colored ["system"; text; "magenta"] None]
                              else []) w))
              end
        end
    end.
Proof.
  unfold get_conversation, bind at 1, get_session.
  destruct (sessions w !! h) as [s|]; [|reflexivity].
  unfold _GPTConversation__init__, bind at 1. rewrite verbose_eq.
  destruct (environ w !! "VERBOSE") as [v|] eqn:Hv; [|reflexivity].
  unfold bind at 1. rewrite ChatOpenAI__init__eq.
  destruct (String.eqb (credential w) ""); [reflexivity|].
  unfold bind at 1. rewrite _create_system_message_eq.
  destruct (format _ _) as [base | e]; [|reflexivity].
  unfold bind at 1. rewrite verbose_eq, Hv.
  unfold bind, new_conversation, fresh_conversation.
  destruct (is_verbose v); simpl; [reflexivity|].
  unfold ret. rewrite record_nil. reflexivity.
Qed.

(** What [get_conversation] leaves behind: the sessions as they were, and at
    most one more conversation, with an empty transcript. *)
Lemma get_conversation_frame session examples w r w1 :
  get_conversation session examples w = (r, w1) ->
  provider w1 = provider w
  /\ environ w1 = environ w
  /\ sessions w1 = sessions w
  /\ (conversations w1 = conversations w
      \/ exists conv,
           conversations w1 = conversations w ++ [conv] /\ messages conv = []).
Proof.
  rewrite get_conversation_eq.
  destruct (sessions w !! session) as [s|].
  2:{ intros E; injection E as <- <-. repeat split. left. reflexivity. }
  destruct (environ w !! "VERBOSE") as [v|] eqn:Hv.
  2:{ intros E; injection E as <- <-. repeat split. left. reflexivity. }
  destruct (String.eqb (credential w) "").
  { intros E; injection E as <- <-. repeat split. left. reflexivity. }
  destruct (format _ _) as [base | e].
  2:{ intros E; injection E as <- <-. repeat split. left. reflexivity. }
  cbv zeta. intros E; injection E as <- <-.
  repeat split; right; eexists; split; reflexivity.
Qed.

(** What the constructor of a session leaves behind: the conversations as
    they were, and at most one more session, with both counters at 0. *)
Lemma GPTSession__init__frame task test model w r w1 :
  GPTSession__init__ task test model w = (r, w1) ->
  provider w1 = provider w
  /\ environ w1 = environ w
  /\ conversations w1 = conversations w
  /\ ((sessions w1 = sessions w /\ exists e, r = Raises e)
      \/ (exists s,
            sessions w1 = sessions w ++ [s]
            /\ r = Returns (length (sessions w))
            /\ chars_prompt_so_far s = 0%Z
            /\ chars_generation_so_far s = 0%Z)).
Proof.
  destruct (environ w !! "OPENAI_API_KEY") as [key|] eqn:Hk.
  2:{ destruct (GPTSession__init__absent task test model w Hk) as [message ->].
      intros E; injection E as <- <-. repeat split. left. eauto. }
  destruct (String.eqb_spec model "gpt-4") as [-> | Hm].
  - rewrite (GPTSession__init__premium task test w key Hk).
    destruct (is_gpt4_available_total (set_openai_api_key key w))
      as (v & n & evs & ->).
    destruct v as [[|] | e]; intros E; injection E as <- <-; repeat split.
    + right. eexists. repeat split.
    + right. eexists. repeat split.
    + left. eauto.
  - rewrite (GPTSession__init__other task test model w key Hk Hm).
    intros E; injection E as <- <-. repeat split. right. eexists. repeat split.
Qed.

(** Along a history the provider and the environment stay, the sessions
    stay in place, and the transcripts hold messages of the dialogue only. *)
Lemma history_provider w es w' : history w es w' -> provider w' = provider w.
Proof.
  induction 1 as [w | w self prompt conv reply w1 es w2 Hconv Hchat _ IH
                    | w self prompt conv e w1 es w2 Hconv Hchat _ IH
                    | w session examples r w1 es w2 Hget _ IH
                    | w task test model r w1 es w2 Hinit _ IH].
  - reflexivity.
  - rewrite IH. apply (chat_frame _ _ _ _ _ _ Hconv Hchat).
  - rewrite IH. apply (chat_frame _ _ _ _ _ _ Hconv Hchat).
  - rewrite IH. apply (get_conversation_frame _ _ _ _ _ Hget).
  - rewrite IH. apply (GPTSession__init__frame _ _ _ _ _ _ Hinit).
Qed.

Lemma replies_as_assistant_provider w w' :
  provider w' = provider w -> replies_as_assistant w -> replies_as_assistant w'.
Proof. unfold replies_as_assistant. intros ->. auto. Qed.

Lemma chat_dialogue self prompt w conv r w1 :
  conversations w !! self = Some conv ->
  chat self prompt w = (r, w1) ->
  replies_as_assistant w ->
  (forall c k, conversations w !! c = Some k -> Forall dialogue (messages k)) ->
  forall c k, conversations w1 !! c = Some k -> Forall dialogue (messages k).
Proof.
  intros Hconv Hchat Hai Hinv c k Hk.
  destruct (chat_frame _ _ _ _ _ _ Hconv Hchat)
    as (_ & _ & (conv1 & Hcs & _ & _ & _ & Hms) & _).
  rewrite Hcs in Hk.
  destruct (decide (c = self)) as [-> | Hne].
  - rewrite list_lookup_insert_eq in Hk by (eapply lookup_lt_Some; exact Hconv).
    injection Hk as <-.
    destruct Hms as [[-> _] | (tokens & response & Ha & _ & ->)].
    + apply Forall_app. split; [apply (Hinv self conv Hconv)|].
      repeat constructor. exists prompt. left. reflexivity.
    + apply Forall_app. split; [apply (Hinv self conv Hconv)|].
      destruct (Hai _ _ _ _ _ Ha) as [text ->].
      repeat constructor; [exists prompt; left | exists text; right]; reflexivity.
  - rewrite list_lookup_insert_ne in Hk by congruence. apply (Hinv c k Hk).
Qed.

Lemma get_conversation_dialogue session examples w r w1 :
  get_conversation session examples w = (r, w1) ->
  (forall c k, conversations w !! c = Some k -> Forall dialogue (messages k)) ->
  forall c k, conversations w1 !! c = Some k -> Forall dialogue (messages k).
Proof.
  intros Hget Hinv c k Hk.
  destruct (get_conversation_frame _ _ _ _ _ Hget)
    as (_ & _ & _ & [Hcs | (conv & Hcs & Hm)]); rewrite Hcs in Hk.
  - apply (Hinv c k Hk).
  - apply lookup_app_Some in Hk as [Hk | [_ Hk]]; [apply (Hinv c k Hk)|].
    apply list_lookup_singleton_Some in Hk as [_ <-]. rewrite Hm. constructor.
Qed.

Lemma history_dialogue w es w' :
  history w es w' ->
  replies_as_assistant w ->
  (forall c k, conversations w !! c = Some k -> Forall dialogue (messages k)) ->
  forall c k, conversations w' !! c = Some k -> Forall dialogue (messages k).
Proof.
  induction 1 as [w | w self prompt conv reply w1 es w2 Hconv Hchat _ IH
                    | w self prompt conv e w1 es w2 Hconv Hchat _ IH
                    | w session examples r w1 es w2 Hget _ IH
                    | w task test model r w1 es w2 Hinit _ IH];
    intros Hai Hinv.
  - exact Hinv.
  - apply IH.
    + apply (replies_as_assistant_provider w); [|exact Hai].
      apply (chat_frame _ _ _ _ _ _ Hconv Hchat).
    + apply (chat_dialogue _ _ _ _ _ _ Hconv Hchat Hai Hinv).
  - apply IH.
    + apply (replies_as_assistant_provider w); [|exact Hai].
      apply (chat_frame _ _ _ _ _ _ Hconv Hchat).
    + apply (chat_dialogue _ _ _ _ _ _ Hconv Hchat Hai Hinv).
  - apply IH.
    + apply (replies_as_assistant_provider w); [|exact Hai].
      apply (get_conversation_frame _ _ _ _ _ Hget).
    + apply (get_conversation_dialogue _ _ _ _ _ Hget Hinv).
  - destruct (GPTSession__init__frame _ _ _ _ _ _ Hinit) as (Hp & _ & Hcs & _).
    apply IH.
    + apply (replies_as_assistant_provider w); [exact Hp | exact Hai].
    + rewrite Hcs. exact Hinv.
Qed.

End Frame.

(** ** The claims on sequences of calls *)

Section Counters.

Context `{Assets}.

Lemma chat_counters self prompt w conv r w1 h s :
  conversations w !! self = Some conv ->
  chat self prompt w = (r, w1) ->
  sessions w !! h = Some s ->
  exists s1,
    sessions w1 !! h = Some s1
    /\ (chars_prompt_so_far s <= chars_prompt_so_far s1)%Z
    /\ (chars_generation_so_far s <= chars_generation_so_far s1)%Z
    /\ (forall reply, r = Returns reply ->
        chars_prompt_so_far s1
        = (chars_prompt_so_far s
           + sent_for h (turn (self_cost_callback conv)
                           (chat_messages conv prompt) reply))%Z
        /\ chars_generation_so_far s1
           = (chars_generation_so_far s
              + received_for h (turn (self_cost_callback conv)
                                  (chat_messages conv prompt) reply))%Z).
Proof.
  intros Hconv Hchat Hs.
  destruct (chat_frame _ _ _ _ _ _ Hconv Hchat)
    as (_ & _ & (conv1 & _ & _ & _ & _ & Hms) & Hss).
  destruct Hss as [[Hsame [e ->]] | (s0 & tokens & response & Hs0 & Ha & Hsess)].
  - exists s. rewrite Hsame. split; [exact Hs|]. split; [lia|]. split; [lia|].
    discriminate.
  - pose proof (chars_nonneg (chat_messages conv prompt)) as Hc.
    pose proof (len_nonneg (content response)) as Hl.
    rewrite Hsess. simpl sent_for. simpl received_for.
    destruct (Nat.eqb_spec (self_cost_callback conv) h) as [<- | Hne].
    + rewrite Hs0 in Hs. injection Hs as ->.
      eexists. split.
      { apply list_lookup_insert_eq. eapply lookup_lt_Some; exact Hs0. }
      simpl. split; [lia|]. split; [lia|].
      intros reply ->.
      destruct Hms as [[_ [e He]] | (tokens' & response' & Ha' & Hr & _)];
        [discriminate|].
      rewrite Ha in Ha'. injection Ha' as _ <-. injection Hr as ->.
      split; reflexivity.
    + exists s. split; [rewrite list_lookup_insert_ne by exact Hne; exact Hs|].
      split; [lia|]. split; [lia|]. intros reply _. lia.
Qed.

End Counters.

(** C4: every call of [chat], the verbosity flag being set as the
    constructor of the conversation already needs it, sends the system
    message, then the whole transcript so far, then the new user message;
    the system message is never in a transcript, which along any history
    holds only messages of the user and of the assistant; and after
    [chat("hello")] has returned [reply1] on a fresh conversation, the
    request of [chat("world")] is the system message, the user message
    hello, the response with the content [reply1], which is the assistant
    message that [ChatOpenAI] returns, and the user message world. *)
Theorem chat_resends_transcript `{Assets}
    (self : nat) (w : world) (conv : _GPTConversation) (v : string) :
  conversations w !! self = Some conv ->
  environ w !! "VERBOSE" = Some v ->
  (forall prompt,
     requests_of (trace (snd (chat self prompt w)))
     = requests_of (trace w)
       ++ [ChatOpenAI_call (_chat conv)
             (system_message conv :: messages conv ++ [HumanMessage prompt])])
  /\ (forall es w',
        history w es w' ->
        replies_as_assistant w ->
        (forall c k, conversations w !! c = Some k -> Forall dialogue (messages k)) ->
        forall c k, conversations w' !! c = Some k -> Forall dialogue (messages k))
  /\ (messages conv = [] ->
      forall reply1 w1,
        chat self "hello" w = (Returns reply1, w1) ->
        exists response1,
          content response1 = reply1
          /\ (replies_as_assistant w -> response1 = AIMessage reply1)
          /\ requests_of (trace (snd (chat self "world" w1)))
             = requests_of (trace w)
               ++ [ChatOpenAI_call (_chat conv)
                     [system_message conv; HumanMessage "hello"];
                   ChatOpenAI_call (_chat conv)
                     [system_message conv; HumanMessage "hello"; response1;
                      HumanMessage "world"]]).
Proof.
  intros Hconv Hv. split; [|split].
  - intros prompt. apply (chat_sends self prompt w conv v Hconv Hv).
  - intros es w' Hh Hai Hinv. apply (history_dialogue w es w' Hh Hai Hinv).
  - intros Hfresh reply1 w1 Hchat.
    pose proof (chat_sends self "hello" w conv v Hconv Hv) as Hfirst.
    rewrite Hchat in Hfirst. cbn [snd] in Hfirst.
    destruct (chat_frame _ _ _ _ _ _ Hconv Hchat)
      as (_ & Henv & (conv1 & Hcs & Hllm & Hsys & _ & Hms) & _).
    destruct Hms as [[_ [e He]] | (tokens & response & Ha & Hr & Hms)];
      [discriminate|].
    injection Hr as ->.
    exists response. split; [reflexivity|]. split.
    { intros Hai. destruct (Hai _ _ _ _ _ Ha) as [text ->]. reflexivity. }
    assert (Hconv1 : conversations w1 !! self = Some conv1).
    { rewrite Hcs. apply list_lookup_insert_eq. eapply lookup_lt_Some; exact Hconv. }
    rewrite (chat_sends self "world" w1 conv1 v Hconv1)
      by (rewrite Henv; exact Hv).
    rewrite Hfirst. unfold chat_request, chat_messages.
    rewrite Hllm, Hsys, Hms, Hfresh, <- app_assoc. reflexivity.
Qed.

(** C6: along any history of calls the two counters of a session never go
    down; and when no call of [chat] in the history raised, the prompt
    counter has grown by the characters of all the messages of all the
    requests sent for the session, system message and transcript and user
    message, and the generation counter by the characters of all the replies
    received for it. A session starts with both counters at 0, so that
    from its construction on the counters are these sums. *)
Theorem counters_accumulate `{Assets}
    (w : world) (es : list entry) (w' : world) (h : nat) (s : GPTSession) :
  history w es w' ->
  sessions w !! h = Some s ->
  (exists s',
     sessions w' !! h = Some s'
     /\ (chars_prompt_so_far s <= chars_prompt_so_far s')%Z
     /\ (chars_generation_so_far s <= chars_generation_so_far s')%Z
     /\ (forallb (fun e => negb (is_failed_call e)) es = true ->
         chars_prompt_so_far s'
         = (chars_prompt_so_far s + sum (map (sent_for h) es))%Z
         /\ chars_generation_so_far s'
            = (chars_generation_so_far s + sum (map (received_for h) es))%Z))
  /\ (forall task test model w0,
        GPTSession__init__ task test model w0 = (Returns h, w) ->
        chars_prompt_so_far s = 0%Z /\ chars_generation_so_far s = 0%Z).
Proof.
  intros Hh Hs0. split.
  2:{ intros task test model w0 Hinit.
      destruct (GPTSession__init__frame _ _ _ _ _ _ Hinit)
        as (_ & _ & _ & [[_ [e He]] | (s0 & Hss & Hr & Hp & Hg)]); [discriminate|].
      injection Hr as ->. rewrite Hss in Hs0.
      rewrite lookup_app_r, Nat.sub_diag in Hs0 by lia.
      injection Hs0 as <-. split; assumption. }
  revert s Hs0.
  induction Hh as [w | w self prompt conv reply w1 es w2 Hconv Hchat _ IH
                     | w self prompt conv e w1 es w2 Hconv Hchat _ IH
                     | w session examples r w1 es w2 Hget _ IH
                     | w task test model r w1 es w2 Hinit _ IH];
    intros s Hs.
  - exists s. split; [exact Hs|]. split; [lia|]. split; [lia|].
    intros _. unfold sum. simpl. lia.
  - destruct (chat_counters _ _ _ _ _ _ h s Hconv Hchat Hs)
      as (s1 & Hs1 & Hp1 & Hg1 & Hexact).
    destruct (IH s1 Hs1) as (s' & Hs' & Hp & Hg & Hsum).
    exists s'. split; [exact Hs'|]. split; [lia|]. split; [lia|].
    intros Hok. simpl in Hok.
    destruct (Hexact reply eq_refl) as [Ep Eg].
    destruct (Hsum Hok) as [Ep' Eg'].
    rewrite !map_cons, !sum_cons. lia.
  - destruct (chat_counters _ _ _ _ _ _ h s Hconv Hchat Hs)
      as (s1 & Hs1 & Hp1 & Hg1 & _).
    destruct (IH s1 Hs1) as (s' & Hs' & Hp & Hg & _).
    exists s'. split; [exact Hs'|]. split; [lia|]. split; [lia|].
    simpl. discriminate.
  - destruct (get_conversation_frame _ _ _ _ _ Hget) as (_ & _ & Hss & _).
    rewrite <- Hss in Hs.
    destruct (IH s Hs) as (s' & Hs' & Hp & Hg & Hsum).
    exists s'. split; [exact Hs'|]. split; [lia|]. split; [lia|].
    intros Hok. simpl in Hok. destruct (Hsum Hok) as [Ep' Eg'].
    rewrite !map_cons, !sum_cons. simpl sent_for. simpl received_for. lia.
  - assert (Hs1 : sessions w1 !! h = Some s).
    { destruct (GPTSession__init__frame _ _ _ _ _ _ Hinit)
        as (_ & _ & _ & [[-> _] | (s0 & -> & _)]); [exact Hs|].
      apply lookup_app_l_Some. exact Hs. }
    destruct (IH s Hs1) as (s' & Hs' & Hp & Hg & Hsum).
    exists s'. split; [exact Hs'|]. split; [lia|]. split; [lia|].
    intros Hok. simpl in Hok. destruct (Hsum Hok) as [Ep' Eg'].
    rewrite !map_cons, !sum_cons. simpl sent_for. simpl received_for. lia.
Qed.

(** *** Instances *)

Lemma ready_conversation a :
  conversations (ready a) !! 0 = Some sample_conversation.
Proof. vm_compute. reflexivity. Qed.

(** Five rate limits in a row: the probe says yes. An invalid request
    error after one rate limit: the session falls back. *)
Lemma is_gpt4_available_retries_witness :
  (forall j, j < 5 -> rate_limited (upcoming throttled j probe_request))
  /\ fst (is_gpt4_available (set_openai_api_key "sk-0" throttled)) = Returns true
  /\ sleeps_of (trace (snd (is_gpt4_available (set_openai_api_key "sk-0" throttled))))
     = [1; 1; 1; 1; 1]%Z
  /\ exists w',
       @GPTSession__init__ sample_assets "task" "test" "gpt-4"
         (boot sample_environ (limited_then 1 (Fails [] InvalidRequestError)))
       = (Returns 0, w')
       /\ sessions w' = [@standard_session sample_assets "task" "test" "gpt-3.5-turbo"]
       /\ trace w' = [ev_request probe_request; ev_sleep 1;
                      ev_request probe_request; downgrade_warning].
Proof.
  assert (Hrl : forall j, j < 5 -> rate_limited (upcoming throttled j probe_request))
    by (intros j _; exists []; reflexivity).
  split; [exact Hrl|].
  pose proof (@is_gpt4_available_retries sample_assets "task" "test" "sk-0"
                throttled 5 eq_refl (le_n 5) Hrl (or_introl eq_refl)) as T.
  cbv zeta in T. destruct T as (_ & Hs & _ & H5 & _).
  split; [exact (proj1 (H5 eq_refl))|]. split; [exact Hs|].
  set (w := boot sample_environ (limited_then 1 (Fails [] InvalidRequestError))).
  assert (Hrl1 : forall j, j < 1 -> rate_limited (upcoming w j probe_request)).
  { intros j Hj. exists []. destruct j as [|j]; [reflexivity | lia]. }
  assert (Hstop : 1 = 5 \/ ~ rate_limited (upcoming w 1 probe_request)).
  { right. intros [tokens Ht]. discriminate. }
  assert (Hle : 1 <= 5) by lia. assert (Hlt : 1 < 5) by lia.
  pose proof (@is_gpt4_available_retries sample_assets "task" "test" "sk-0"
                w 1 eq_refl Hle Hrl1 Hstop) as T.
  cbv zeta in T. destruct T as (_ & _ & _ & _ & _ & Hfall & _).
  eexists. split; [exact (Hfall Hlt [] eq_refl)|]. split; reflexivity.
Defined.

(** C1, as the specification has it, fails: every attempt of the probe is
    rate limited, and yet the probe says "available", the session is on the
    premium model at the premium prices, and no warning is printed: the
    trace holds the five requests and their pauses, nothing else. *)
Lemma is_gpt4_available_exhausted_counterexample :
  (forall j, j < 5 -> rate_limited (upcoming throttled j probe_request))
  /\ fst (is_gpt4_available throttled) = Returns true
  /\ exists w',
       @GPTSession__init__ sample_assets "task" "test" "gpt-4" throttled
       = (Returns 0, w')
       /\ sessions w' = [@premium_session sample_assets "task" "test"]
       /\ trace w' = rate_limited_attempts 5.
Proof.
  split; [intros j _; exists []; reflexivity|].
  split; [vm_compute; reflexivity|].
  eexists. split; [vm_compute; reflexivity|].
  split; vm_compute; reflexivity.
Qed.

Lemma GPTSession__init__credential_witness :
  environ (boot ∅ (always (Fails [] RateLimitError))) !! "OPENAI_API_KEY" = None
  /\ (exists message,
        @GPTSession__init__ sample_assets "task" "test" "gpt-4"
          (boot ∅ (always (Fails [] RateLimitError)))
        = (Raises (Exception message), boot ∅ (always (Fails [] RateLimitError))))
  /\ (exists r w' n evs,
        @GPTSession__init__ sample_assets "task" "test" "gpt-4" gated = (r, w')
        /\ openai_api_key w' = Some "sk-0"
        /\ served w' = served gated + S n
        /\ trace w' = trace gated ++ ev_request probe_request :: evs).
Proof.
  split; [reflexivity|]. split.
  - eexists.
    exact (proj1 (@GPTSession__init__credential sample_assets "task" "test" "gpt-4"
                    (boot ∅ (always (Fails [] RateLimitError)))) eq_refl).
  - exact (proj1 (proj2 (@GPTSession__init__credential sample_assets "task" "test"
                           "gpt-4" gated)) "sk-0" eq_refl eq_refl).
Defined.

(** C7, as the specification has it, fails in its last part: the credential
    is there, the standard model is requested, and construction ends without
    having sent anything: it never gets to the probe. *)
Lemma GPTSession__init__credential_counterexample :
  environ (friendly "ok") !! "OPENAI_API_KEY" = Some "sk-0"
  /\ exists w',
       @GPTSession__init__ sample_assets "task" "test" "gpt-3.5-turbo" (friendly "ok")
       = (Returns 0, w')
       /\ served w' = 0
       /\ trace w' = [].
Proof.
  split; [vm_compute; reflexivity|].
  eexists. split; [vm_compute; reflexivity|].
  split; vm_compute; reflexivity.
Qed.

(** A model name that is not the premium one, whatever it looks like, gets
    the standard prices. *)
Lemma GPTSession__init__standard_witness :
  "gpt-4-32k" <> "gpt-4"
  /\ exists w' s,
       @GPTSession__init__ sample_assets "task" "test" "gpt-4-32k" (friendly "ok")
       = (Returns 0, w')
       /\ trace w' = []
       /\ sessions w' = [s]
       /\ model_name s = "gpt-4-32k"
       /\ pricing_prompt s = Float.of_ratio 2 1000.
Proof.
  assert (Hm : "gpt-4-32k" <> "gpt-4") by discriminate.
  split; [exact Hm|].
  pose proof (@GPTSession__init__standard sample_assets "task" "test" "gpt-4-32k"
                "sk-0" (friendly "ok") Hm eq_refl) as T.
  destruct T as (w' & s & E & _ & Ht & Hs & Hn & Hp & _).
  exists w', s. repeat split; assumption.
Defined.

Lemma _create_system_message_rendering_witness :
  @_create_system_message sample_assets "T" "U" ["client"; "executor"] (friendly "ok")
  = (Returns (SystemMessage ("Task: T Test: U" +:+ LF +:+ "E" +:+ LF +:+ "C")),
     friendly "ok").
Proof.
  assert (Hfields : forall name,
            Field name ∈ @template_system_message_base sample_assets ->
            name = "task_description" \/ name = "test_description").
  { intros name Hin. simpl in Hin.
    repeat (apply elem_of_cons in Hin as [Hin | Hin]; [inversion Hin; auto|]).
    inversion Hin. }
  assert (Htask : Field "task_description" ∈ @template_system_message_base sample_assets)
    by (simpl; rewrite !elem_of_cons; auto 10).
  assert (Htest : Field "test_description" ∈ @template_system_message_base sample_assets)
    by (simpl; rewrite !elem_of_cons; auto 10).
  pose proof (@_create_system_message_rendering sample_assets "T" "U"
                ["client"; "executor"] (friendly "ok") Hfields Htask Htest) as T.
  destruct T as (text & E & Ht & _).
  rewrite E, Ht. vm_compute. reflexivity.
Defined.

Lemma _create_system_message_membership_witness :
  @_create_system_message sample_assets "T" "U" ["client"; "bogus"; "client"]
    (friendly "ok")
  = @_create_system_message sample_assets "T" "U" ["client"] (friendly "ok").
Proof.
  pose proof (@_create_system_message_membership sample_assets "T" "U" ["client"]
                (friendly "ok")) as T.
  destruct T as (Hsame & _).
  apply Hsame. intros name Hn. unfold example_names in Hn.
  repeat (apply elem_of_cons in Hn as [-> | Hn]);
    [| | | apply elem_of_nil in Hn; contradiction];
    (split; intros Hx;
     repeat (apply elem_of_cons in Hx as [Hx | Hx]; [try discriminate Hx|]);
     try (apply elem_of_nil in Hx; contradiction); set_solver).
Defined.

Lemma chat_appends_turn_witness :
  replies_as_assistant (ready (Answers ["h"; "i"] (AIMessage "hi")))
  /\ exists conv',
       conversations
         (snd (@chat sample_assets 0 "hello" (ready (Answers ["h"; "i"] (AIMessage "hi")))))
       !! 0 = Some conv'
       /\ messages conv' = [HumanMessage "hello"; AIMessage "hi"].
Proof.
  set (w := ready (Answers ["h"; "i"] (AIMessage "hi"))).
  assert (Hai : replies_as_assistant w).
  { intros n llm msgs tokens response Hp. exists "hi".
    vm_compute in Hp. congruence. }
  split; [exact Hai|].
  assert (Hchat : @chat sample_assets 0 "hello" w
                  = (Returns "hi", snd (@chat sample_assets 0 "hello" w)))
    by (vm_compute; reflexivity).
  pose proof (@chat_appends_turn sample_assets 0 "hello" w sample_conversation "hi" _
                (ready_conversation _) Hchat) as T.
  destruct T as (conv' & response & Hl & Hms & _ & _ & _ & Hr & _).
  exists conv'. split; [exact Hl|]. rewrite Hms, (Hr Hai). reflexivity.
Defined.

(** The provider rate limits every attempt of the turn: after the six
    attempts of the library the error reaches the caller of [chat]. *)
Lemma chat_failure_keeps_prompt_witness :
  exists w',
    @chat sample_assets 0 "hello" (ready (Fails [] RateLimitError))
    = (Raises RateLimitError, w')
    /\ sessions w' = sessions (ready (Fails [] RateLimitError))
    /\ prints_of (trace w') = []
    /\ exists conv',
         conversations w' !! 0 = Some conv'
         /\ messages conv' = [HumanMessage "hello"].
Proof.
  set (w := ready (Fails [] RateLimitError)).
  assert (Hv : environ w !! "VERBOSE" = Some "false") by (vm_compute; reflexivity).
  assert (Hcall : fst (call (_chat sample_conversation)
                         (chat_messages sample_conversation "hello") w)
                  = Raises RateLimitError) by (vm_compute; reflexivity).
  pose proof (@chat_failure_keeps_prompt sample_assets 0 "hello" w sample_conversation
                "false" RateLimitError (ready_conversation _) Hv Hcall) as T.
  destruct T as (w' & Hchat & (conv' & Hl & Hms) & Hs & _ & Hp & _).
  exists w'. split; [exact Hchat|]. split; [exact Hs|].
  split; [rewrite Hp; vm_compute; reflexivity|].
  exists conv'. split; [exact Hl|]. rewrite Hms. reflexivity.
Defined.

Lemma chat_prints_cost_witness :
  exists evs amount,
    trace (snd (@chat sample_assets 0 (letters 1159) (billed "gpt-4" 590)))
    = trace (billed "gpt-4" 590) ++ evs
      ++ [ev_print [LF];
          ev_print ["Total money spent so far on openai.com:"; amount];
          ev_print [LF]].
Proof.
  set (w := billed "gpt-4" 590).
  assert (Hconv : exists conv, conversations w !! 0 = Some conv)
    by (vm_compute; eexists; reflexivity).
  destruct Hconv as (conv & Hconv).
  assert (Hchat : @chat sample_assets 0 (letters 1159) w
                  = (Returns (letters 590),
                     snd (@chat sample_assets 0 (letters 1159) w)))
    by (vm_compute; reflexivity).
  pose proof (@chat_prints_cost sample_assets 0 (letters 1159) w conv _ _
                Hconv Hchat) as T.
  destruct T as (s & s' & evs & mp & mg & _ & _ & _ & _ & _ & _ & Ht).
  exists evs, ("$" +:+ Float.format_3f (Float.add mp mg)). exact Ht.
Defined.

(** C5, as the specification has it, fails. Premium prices (0.03 and 0.06
    for 1000 tokens, 3.4 characters for a token), one turn with 1180
    characters sent and 590 received: each amount is 0.0104..., rounded to
    0.010, and the line printed is $0.020, while the unrounded sum 0.0208...
    rounded to 3 decimal places is 0.021. Standard prices (0.002), 700
    characters sent and 700 received: printed $0.000, while the formula
    gives 0.001. *)
Lemma chat_prints_cost_counterexample :
  (exists w' s',
     @chat sample_assets 0 (letters 1159) (billed "gpt-4" 590)
     = (Returns (letters 590), w')
     /\ sessions w' !! 0 = Some s'
     /\ chars_prompt_so_far s' = 1180%Z
     /\ chars_generation_so_far s' = 590%Z
     /\ pricing_prompt s' = @PRICING_GPT4_PROMPT sample_assets
     /\ pricing_generation s' = @PRICING_GPT4_GENERATION sample_assets
     /\ printed_costs (trace w') = ["$0.020"]
     /\ @spec_cost sample_assets s' = "$0.021")
  /\ (exists w' s',
        @chat sample_assets 0 (letters 679) (billed "gpt-3.5-turbo" 700)
        = (Returns (letters 700), w')
        /\ sessions w' !! 0 = Some s'
        /\ chars_prompt_so_far s' = 700%Z
        /\ chars_generation_so_far s' = 700%Z
        /\ pricing_prompt s' = @PRICING_GPT3_5_TURBO_PROMPT sample_assets
        /\ pricing_generation s' = @PRICING_GPT3_5_TURBO_GENERATION sample_assets
        /\ printed_costs (trace w') = ["$0.000"]
        /\ @spec_cost sample_assets s' = "$0.001").
Proof.
  split; eexists _, _;
    (split; [vm_compute; reflexivity|]);
    (split; [vm_compute; reflexivity|]);
    repeat split; vm_compute; reflexivity.
Qed.

Lemma chat_resends_transcript_witness :
  requests_of
    (trace (snd (@chat sample_assets 0 "world"
                   (snd (@chat sample_assets 0 "hello"
                           (ready (Answers [] (AIMessage "hi"))))))))
  = [ChatOpenAI_call (_chat sample_conversation)
       [system_message sample_conversation; HumanMessage "hello"];
     ChatOpenAI_call (_chat sample_conversation)
       [system_message sample_conversation; HumanMessage "hello"; AIMessage "hi";
        HumanMessage "world"]].
Proof.
  set (w := ready (Answers [] (AIMessage "hi"))).
  assert (Hai : replies_as_assistant w).
  { intros n llm msgs tokens response Hp. exists "hi".
    vm_compute in Hp. congruence. }
  assert (Hv : environ w !! "VERBOSE" = Some "false") by (vm_compute; reflexivity).
  assert (Hchat : @chat sample_assets 0 "hello" w
                  = (Returns "hi", snd (@chat sample_assets 0 "hello" w)))
    by (vm_compute; reflexivity).
  pose proof (@chat_resends_transcript sample_assets 0 w sample_conversation "false"
                (ready_conversation _) Hv) as T.
  destruct T as (_ & _ & Hscenario).
  destruct (Hscenario eq_refl "hi" _ Hchat) as (response1 & _ & Hr & Hreq).
  rewrite Hreq, (Hr Hai). reflexivity.
Defined.

Lemma counters_accumulate_witness :
  exists w2 s',
    @history sample_assets (ready (Answers [] (AIMessage "hi")))
      [turn 0 (chat_messages sample_conversation "hello") "hi";
       turn 0 (chat_messages
                 (append_message (AIMessage "hi")
                    (append_message (HumanMessage "hello") sample_conversation))
                 "world") "hi"] w2
    /\ sessions w2 !! 0 = Some s'
    /\ chars_prompt_so_far s' = 71%Z
    /\ chars_generation_so_far s' = 4%Z.
Proof.
  set (w := ready (Answers [] (AIMessage "hi"))).
  set (conv1 := append_message (AIMessage "hi")
                  (append_message (HumanMessage "hello") sample_conversation)).
  set (w1 := snd (@chat sample_assets 0 "hello" w)).
  set (w2 := snd (@chat sample_assets 0 "world" w1)).
  assert (Hchat1 : @chat sample_assets 0 "hello" w = (Returns "hi", w1))
    by (vm_compute; reflexivity).
  assert (Hconv1 : conversations w1 !! 0 = Some conv1) by (vm_compute; reflexivity).
  assert (Hchat2 : @chat sample_assets 0 "world" w1 = (Returns "hi", w2))
    by (vm_compute; reflexivity).
  pose proof (@history_turn sample_assets w 0 "hello" sample_conversation "hi" w1 _ w2
                (ready_conversation _) Hchat1
                (@history_turn sample_assets w1 0 "world" conv1 "hi" w2 [] w2
                   Hconv1 Hchat2 (@history_nil sample_assets w2))) as Hh.
  assert (Hs : sessions w !! 0
               = Some (@standard_session sample_assets "task" "test" "gpt-3.5-turbo"))
    by (vm_compute; reflexivity).
  pose proof (@counters_accumulate sample_assets w _ w2 0 _ Hh Hs) as T.
  destruct T as ((s' & Hs' & _ & _ & Hsum) & _).
  destruct (Hsum eq_refl) as [Ep Eg].
  exists w2, s'. split; [exact Hh|]. split; [exact Hs'|].
  split; [rewrite Ep | rewrite Eg]; vm_compute; reflexivity.
Defined.

(** * Further properties *)

(** ** The constructor of a session *)

(** X1: the premium model is requested and the probe, after fewer than five
    rate limits, is rejected as an invalid request: the session is created on
    "gpt-3.5-turbo" at the standard prices, and the warning is printed once,
    after the last request of the probe. *)
Theorem GPTSession__init__falls_back `{Assets}
    (task test key : string) (w : world) (k : nat) (tokens : list string) :
  environ w !! "OPENAI_API_KEY" = Some key ->
  k < 5 ->
  (forall j, j < k -> rate_limited (upcoming w j probe_request)) ->
  upcoming w k probe_request = Fails tokens InvalidRequestError ->
  GPTSession__init__ task test "gpt-4" w
  = (Returns (length (sessions w)),
     set_sessions (sessions w ++ [standard_session task test "gpt-3.5-turbo"])
       (extend (k + 1)
          (rate_limited_attempts k ++ [ev_request probe_request; downgrade_warning])
          (set_openai_api_key key w))).
Proof.
  intros Hkey Hlt Hrl Ha.
  rewrite (GPTSession__init__premium task test w key Hkey).
  assert (Hnot : ~ rate_limited (upcoming (set_openai_api_key key w) k probe_request)).
  { change (~ rate_limited (upcoming w k probe_request)). rewrite Ha.
    intros [t Ht]. discriminate. }
  rewrite (is_gpt4_available_decided (set_openai_api_key key w) k Hlt Hrl Hnot).
  change (upcoming (set_openai_api_key key w) k probe_request)
    with (upcoming w k probe_request).
  rewrite Ha. cbn [probe_verdict].
  rewrite record_extend, extend_extend, Nat.add_0_r, <- app_assoc. reflexivity.
Qed.

(** X2: the premium model is requested and the probe, after fewer than five
    rate limits, is answered: the session is created on "gpt-4" at the
    premium prices, and nothing is printed. *)
Theorem GPTSession__init__premium_answered `{Assets}
    (task test key : string) (w : world) (k : nat)
    (tokens : list string) (response : BaseMessage) :
  environ w !! "OPENAI_API_KEY" = Some key ->
  k < 5 ->
  (forall j, j < k -> rate_limited (upcoming w j probe_request)) ->
  upcoming w k probe_request = Answers tokens response ->
  GPTSession__init__ task test "gpt-4" w
  = (Returns (length (sessions w)),
     set_sessions (sessions w ++ [premium_session task test])
       (extend (k + 1) (rate_limited_attempts k ++ [ev_request probe_request])
          (set_openai_api_key key w))).
Proof.
  intros Hkey Hlt Hrl Ha.
  rewrite (GPTSession__init__premium task test w key Hkey).
  assert (Hnot : ~ rate_limited (upcoming (set_openai_api_key key w) k probe_request)).
  { change (~ rate_limited (upcoming w k probe_request)). rewrite Ha.
    intros [t Ht]. discriminate. }
  rewrite (is_gpt4_available_decided (set_openai_api_key key w) k Hlt Hrl Hnot).
  change (upcoming (set_openai_api_key key w) k probe_request)
    with (upcoming w k probe_request).
  rewrite Ha. reflexivity.
Qed.

(** X3: the premium model is requested and the probe meets an exception that
    is neither a rate limit nor an invalid request: the exception leaves the
    constructor, no session is created and nothing is printed; the key
    stays configured. *)
Theorem GPTSession__init__probe_raises `{Assets}
    (task test key : string) (w : world) (k : nat)
    (tokens : list string) (e : exn) :
  environ w !! "OPENAI_API_KEY" = Some key ->
  k < 5 ->
  (forall j, j < k -> rate_limited (upcoming w j probe_request)) ->
  upcoming w k probe_request = Fails tokens e ->
  e <> RateLimitError ->
  e <> InvalidRequestError ->
  GPTSession__init__ task test "gpt-4" w
  = (Raises e,
     extend (k + 1) (rate_limited_attempts k ++ [ev_request probe_request])
       (set_openai_api_key key w)).
Proof.
  intros Hkey Hlt Hrl Ha Hrate Hinvalid.
  rewrite (GPTSession__init__premium task test w key Hkey).
  assert (Hnot : ~ rate_limited (upcoming (set_openai_api_key key w) k probe_request)).
  { change (~ rate_limited (upcoming w k probe_request)). rewrite Ha.
    intros [t Ht]. injection Ht as _ Ht. contradiction. }
  rewrite (is_gpt4_available_decided (set_openai_api_key key w) k Hlt Hrl Hnot).
  change (upcoming (set_openai_api_key key w) k probe_request)
    with (upcoming w k probe_request).
  rewrite Ha. destruct e; try reflexivity; contradiction.
Qed.

Lemma limited_then_rate_limited k a w :
  provider w = limited_then k a ->
  served w = 0 ->
  forall j, j < k -> rate_limited (upcoming w j probe_request).
Proof.
  intros Hp Hs j Hj. unfold upcoming, rate_limited. rewrite Hp, Hs.
  unfold limited_then. simpl. apply Nat.ltb_lt in Hj. rewrite Hj.
  exists []. reflexivity.
Qed.

Lemma GPTSession__init__falls_back_witness :
  exists w',
    @GPTSession__init__ sample_assets "task" "test" "gpt-4"
      (boot sample_environ (limited_then 4 (Fails [] InvalidRequestError)))
    = (Returns 0, w')
    /\ sessions w' = [@standard_session sample_assets "task" "test" "gpt-3.5-turbo"]
    /\ trace w' = rate_limited_attempts 4 ++ [ev_request probe_request; downgrade_warning].
Proof.
  set (w := boot sample_environ (limited_then 4 (Fails [] InvalidRequestError))).
  assert (Hkey : environ w !! "OPENAI_API_KEY" = Some "sk-0")
    by (vm_compute; reflexivity).
  assert (Hlt : 4 < 5) by lia.
  pose proof (@GPTSession__init__falls_back sample_assets "task" "test" "sk-0" w 4 []
                Hkey Hlt (limited_then_rate_limited 4 _ w eq_refl eq_refl) eq_refl) as T.
  eexists. split; [exact T|]. split; reflexivity.
Defined.

Lemma GPTSession__init__premium_answered_witness :
  exists w',
    @GPTSession__init__ sample_assets "task" "test" "gpt-4"
      (boot sample_environ (limited_then 2 (Answers [] (AIMessage ""))))
    = (Returns 0, w')
    /\ sessions w' = [@premium_session sample_assets "task" "test"]
    /\ trace w' = rate_limited_attempts 2 ++ [ev_request probe_request].
Proof.
  set (w := boot sample_environ (limited_then 2 (Answers [] (AIMessage "")))).
  assert (Hkey : environ w !! "OPENAI_API_KEY" = Some "sk-0")
    by (vm_compute; reflexivity).
  assert (Hlt : 2 < 5) by lia.
  pose proof (@GPTSession__init__premium_answered sample_assets "task" "test" "sk-0"
                w 2 [] (AIMessage "")
                Hkey Hlt (limited_then_rate_limited 2 _ w eq_refl eq_refl) eq_refl) as T.
  eexists. split; [exact T|]. split; reflexivity.
Defined.

Lemma GPTSession__init__probe_raises_witness :
  exists w',
    @GPTSession__init__ sample_assets "task" "test" "gpt-4"
      (boot sample_environ (limited_then 1 (Fails [] (OtherError "AuthenticationError"))))
    = (Raises (OtherError "AuthenticationError"), w')
    /\ sessions w' = []
    /\ openai_api_key w' = Some "sk-0".
Proof.
  set (w := boot sample_environ
              (limited_then 1 (Fails [] (OtherError "AuthenticationError")))).
  assert (Hkey : environ w !! "OPENAI_API_KEY" = Some "sk-0")
    by (vm_compute; reflexivity).
  assert (Hlt : 1 < 5) by lia.
  assert (H1 : OtherError "AuthenticationError" <> RateLimitError) by discriminate.
  assert (H2 : OtherError "AuthenticationError" <> InvalidRequestError) by discriminate.
  pose proof (@GPTSession__init__probe_raises sample_assets "task" "test" "sk-0"
                w 1 [] _
                Hkey Hlt (limited_then_rate_limited 1 _ w eq_refl eq_refl) eq_refl
                H1 H2) as T.
  eexists. split; [exact T|]. split; reflexivity.
Defined.

(** X4: whatever the provider does, the probe ends after at least one and
    at most five requests, each of them the same minimal request; it sleeps
    one second at most once per request; and it touches neither the
    environment nor the key nor any session or conversation. *)
Theorem is_gpt4_available_bounded (w : world) :
  served w < served (snd (is_gpt4_available w)) <= served w + 5
  /\ requests_of (trace (snd (is_gpt4_available w)))
     = requests_of (trace w)
       ++ repeat probe_request (served (snd (is_gpt4_available w)) - served w)
  /\ (exists k,
        k <= served (snd (is_gpt4_available w)) - served w
        /\ sleeps_of (trace (snd (is_gpt4_available w)))
           = sleeps_of (trace w) ++ repeat 1%Z k)
  /\ environ (snd (is_gpt4_available w)) = environ w
  /\ openai_api_key (snd (is_gpt4_available w)) = openai_api_key w
  /\ sessions (snd (is_gpt4_available w)) = sessions w
  /\ conversations (snd (is_gpt4_available w)) = conversations w.
Proof.
  set (k := rate_limits w 0 5).
  assert (Hle : k <= 5) by apply rate_limits_le.
  assert (Hrl : forall j, j < k -> rate_limited (upcoming w j probe_request)).
  { intros j Hj. apply (rate_limits_before w 5 0 j Hj). }
  assert (Hcases : k = 5 \/ (k < 5 /\ ~ rate_limited (upcoming w k probe_request))).
  { destruct (rate_limits_stop w 5 0) as [H5 | Hstop]; [left; exact H5|].
    destruct (Nat.eq_dec k 5) as [E | N]; [left; exact E|].
    right. split; [lia | exact Hstop]. }
  destruct Hcases as [E5 | [Hlt Hnot]].
  - rewrite is_gpt4_available_exhausted by (intros j Hj; apply Hrl; lia).
    cbn [snd extend served trace environ openai_api_key sessions conversations].
    replace (served w + 5 - served w) with 5 by lia.
    split; [lia|]. split.
    { rewrite requests_of_app, requests_of_rate_limited_attempts. reflexivity. }
    split.
    { exists 5. split; [lia|].
      rewrite sleeps_of_app, sleeps_of_rate_limited_attempts. reflexivity. }
    repeat split.
  - rewrite (is_gpt4_available_decided w k Hlt Hrl Hnot).
    cbn [snd extend served trace environ openai_api_key sessions conversations].
    replace (served w + (k + 1) - served w) with (k + 1) by lia.
    split; [lia|]. split.
    { rewrite !requests_of_app, requests_of_rate_limited_attempts, repeat_app.
      reflexivity. }
    split.
    { exists k. split; [lia|].
      rewrite !sleeps_of_app, sleeps_of_rate_limited_attempts. simpl.
      rewrite app_nil_r. reflexivity. }
    repeat split.
Qed.

(** X5: a session that the constructor returns is new in the store, at the
    position the constructor returns, with the two descriptions as given and
    both counters at 0. Its prices follow its model: a session on "gpt-4"
    was requested as such and has the premium prices; any other session has
    the standard prices, and either keeps the name requested or, when
    "gpt-4" was requested, is on "gpt-3.5-turbo" with the warning as the last
    thing printed. The key of the environment is configured and no
    conversation changes. *)
Theorem GPTSession__init__session `{Assets}
    (task test model : string) (w : world) (h : nat) (w' : world) :
  GPTSession__init__ task test model w = (Returns h, w') ->
  h = length (sessions w)
  /\ conversations w' = conversations w
  /\ openai_api_key w' = environ w !! "OPENAI_API_KEY"
  /\ exists s,
       sessions w' = sessions w ++ [s]
       /\ task_description s = task
       /\ test_description s = test
       /\ chars_prompt_so_far s = 0%Z
       /\ chars_generation_so_far s = 0%Z
       /\ (model_name s = "gpt-4" ->
           model = "gpt-4"
           /\ pricing_prompt s = PRICING_GPT4_PROMPT
           /\ pricing_generation s = PRICING_GPT4_GENERATION)
       /\ (model_name s <> "gpt-4" ->
           pricing_prompt s = PRICING_GPT3_5_TURBO_PROMPT
           /\ pricing_generation s = PRICING_GPT3_5_TURBO_GENERATION
           /\ (model <> "gpt-4" -> model_name s = model)
           /\ (model = "gpt-4" ->
               model_name s = "gpt-3.5-turbo"
               /\ exists evs, trace w' = evs ++ [downgrade_warning])).
Proof.
  destruct (environ w !! "OPENAI_API_KEY") as [key|] eqn:Hk.
  2:{ destruct (GPTSession__init__absent task test model w Hk) as [message ->].
      discriminate. }
  destruct (String.eqb_spec model "gpt-4") as [-> | Hm].
  - rewrite (GPTSession__init__premium task test w key Hk).
    destruct (is_gpt4_available_total (set_openai_api_key key w))
      as (v & n & evs & ->).
    destruct v as [[|] | e]; [| |discriminate]; intros E; injection E as <- <-.
    + split; [reflexivity|]. split; [reflexivity|]. split; [reflexivity|].
      exists (premium_session task test).
      repeat (split; [reflexivity|]). split; [intros _; repeat split|].
      intros Hn. exfalso. apply Hn. reflexivity.
    + split; [reflexivity|]. split; [reflexivity|]. split; [reflexivity|].
      exists (standard_session task test "gpt-3.5-turbo").
      repeat (split; [reflexivity|]). split; [discriminate|].
      intros _. split; [reflexivity|]. split; [reflexivity|].
      split; [intros Hn; exfalso; apply Hn; reflexivity|].
      intros _. split; [reflexivity|]. eexists. reflexivity.
  - rewrite (GPTSession__init__other task test model w key Hk Hm).
    intros E; injection E as <- <-.
    split; [reflexivity|]. split; [reflexivity|]. split; [reflexivity|].
    exists (standard_session task test model).
    repeat (split; [reflexivity|]). split; [intros Hn; contradiction|].
    intros _. split; [reflexivity|]. split; [reflexivity|].
    split; [reflexivity | contradiction].
Qed.

Lemma GPTSession__init__session_witness :
  exists s,
    sessions (snd (@GPTSession__init__ sample_assets "task" "test" "gpt-4" gated)) = [s]
    /\ model_name s = "gpt-3.5-turbo"
    /\ pricing_prompt s = @PRICING_GPT3_5_TURBO_PROMPT sample_assets.
Proof.
  assert (Hinit : @GPTSession__init__ sample_assets "task" "test" "gpt-4" gated
                  = (Returns 0,
                     snd (@GPTSession__init__ sample_assets "task" "test" "gpt-4" gated)))
    by (vm_compute; reflexivity).
  pose proof (@GPTSession__init__session sample_assets "task" "test" "gpt-4" gated 0 _
                Hinit) as T.
  destruct T as (_ & _ & _ & s & Hs & _ & _ & _ & _ & Hpremium & Hstandard).
  exists s. split; [exact Hs|].
  assert (Hname : model_name s <> "gpt-4").
  { intros Hn. vm_compute in Hs. injection Hs as <-. discriminate. }
  destruct (Hstandard Hname) as (Hp & _ & _ & Hfall).
  split; [exact (proj1 (Hfall eq_refl)) | exact Hp].
Defined.

(** ** The constructor of a conversation *)

(** X6: [get_conversation] sends nothing to the provider and leaves the
    sessions alone; when it raises, the world is as it was before the call:
    no conversation is left half built and nothing is printed. On a session
    of the store with no verbosity flag in the environment it raises
    [KeyError] for the flag. *)
Theorem get_conversation_raises_clean `{Assets}
    (h : nat) (examples : list string) (w : world) (r : result nat) (w' : world) :
  get_conversation h examples w = (r, w') ->
  served w' = served w
  /\ requests_of (trace w') = requests_of (trace w)
  /\ sessions w' = sessions w
  /\ (forall e, r = Raises e -> w' = w)
  /\ (environ w !! "VERBOSE" = None -> is_Some (sessions w !! h) ->
      r = Raises (KeyError "VERBOSE")).
Proof.
  rewrite get_conversation_eq.
  destruct (sessions w !! h) as [s|].
  2:{ intros E; injection E as <- <-. repeat split.
      intros _ [x Hx]. discriminate. }
  destruct (environ w !! "VERBOSE") as [v|].
  2:{ intros E; injection E as <- <-. repeat split. }
  destruct (String.eqb (credential w) "").
  { intros E; injection E as <- <-. repeat split. intros Hn. discriminate. }
  destruct (format _ _) as [base | e].
  2:{ intros E; injection E as <- <-. repeat split. intros Hn. discriminate. }
  cbv zeta. intros E; injection E as <- <-.
  split; [reflexivity|]. split.
  { cbn [trace set_conversations record]. rewrite requests_of_app.
    destruct (is_verbose v); simpl; rewrite app_nil_r; reflexivity. }
  split; [reflexivity|]. split; [discriminate|]. intros Hn. discriminate.
Qed.

Lemma get_conversation_raises_clean_witness :
  @get_conversation sample_assets 0 example_names
    (snd (@GPTSession__init__ sample_assets "task" "test" "gpt-3.5-turbo"
            (boot (<["OPENAI_API_KEY" := "sk-0"]> ∅) (always (Fails [] RateLimitError)))))
  = (Raises (KeyError "VERBOSE"),
     snd (@GPTSession__init__ sample_assets "task" "test" "gpt-3.5-turbo"
            (boot (<["OPENAI_API_KEY" := "sk-0"]> ∅) (always (Fails [] RateLimitError))))).
Proof.
  set (w := snd (@GPTSession__init__ sample_assets "task" "test" "gpt-3.5-turbo"
                   (boot (<["OPENAI_API_KEY" := "sk-0"]> ∅)
                      (always (Fails [] RateLimitError))))).
  destruct (@get_conversation sample_assets 0 example_names w) as [r w'] eqn:Hget.
  pose proof (@get_conversation_raises_clean sample_assets 0 example_names w r w' Hget)
    as T.
  destruct T as (_ & _ & _ & Hclean & Hkey).
  assert (Hr : r = Raises (KeyError "VERBOSE")).
  { apply Hkey; [vm_compute; reflexivity|]. vm_compute. eexists. reflexivity. }
  rewrite (Hclean _ Hr), Hr. reflexivity.
Defined.

(** X7: on a session of the store, with the verbosity flag and a credential
    that is not empty in the environment, and a template that formats,
    [get_conversation] returns the next free position and stores there a
    conversation bound to the session, on the model of the session,
    streaming, at temperature 0, verbose exactly when the flag is "true" in
    any case, with an empty transcript and the system message of
    [_create_system_message] for the descriptions of the session; it prints
    the system message, in magenta, exactly when the flag is "true" in any
    case; no earlier conversation changes. Without the credential, or with
    an empty one, the constructor of [ChatOpenAI] raises and no conversation
    is stored. *)
Theorem get_conversation_fresh `{Assets}
    (h : nat) (examples : list string) (w : world) (s : GPTSession)
    (v base : string) :
  sessions w !! h = Some s ->
  environ w !! "VERBOSE" = Some v ->
  format template_system_message_base
    (descriptions (task_description s) (test_description s)) = Returns base ->
  (credential w <> "" ->
   get_conversation h examples w
   = (Returns (length (conversations w)),
      set_conversations
        (conversations w
         ++ [fresh_conversation h s v (base +:+ appended (selected examples))])
        (record (if is_verbose v
                 then [ev_print_colored
                         ["system"; base +:+ appended (selected examples); "magenta"]
                         None]
                 else []) w)))
  /\ (credential w = "" ->
      get_conversation h examples w = (Raises (OtherError "ValidationError"), w))
  /\ _create_system_message (task_description s) (test_description s) examples w
     = (Returns (SystemMessage (base +:+ appended (selected examples))), w).
Proof.
  intros Hs Hv Hf. split; [|split].
  - intros Hkey. apply String.eqb_neq in Hkey.
    rewrite get_conversation_eq, Hs, Hv, Hkey, Hf. reflexivity.
  - intros Hkey. rewrite get_conversation_eq, Hs, Hv, Hkey. reflexivity.
  - rewrite _create_system_message_eq, Hf. reflexivity.
Qed.

Lemma get_conversation_fresh_witness :
  conversations (ready (Answers [] (AIMessage "hi"))) = [sample_conversation]
  /\ trace (ready (Answers [] (AIMessage "hi"))) = [].
Proof.
  set (w1 := snd (@GPTSession__init__ sample_assets "task" "test" "gpt-3.5-turbo"
                    (boot sample_environ (always (Answers [] (AIMessage "hi")))))).
  assert (Hs : sessions w1 !! 0
               = Some (@standard_session sample_assets "task" "test" "gpt-3.5-turbo"))
    by (vm_compute; reflexivity).
  assert (Hv : environ w1 !! "VERBOSE" = Some "false") by (vm_compute; reflexivity).
  assert (Hf : format (@template_system_message_base sample_assets)
                 (descriptions "task" "test") = Returns "Task: task Test: test")
    by (vm_compute; reflexivity).
  assert (Hkey : credential w1 <> "") by (vm_compute; discriminate).
  pose proof (@get_conversation_fresh sample_assets 0 example_names w1 _ "false" _
                Hs Hv Hf) as T.
  destruct T as (Hget & _ & _).
  unfold ready. fold w1. rewrite (Hget Hkey). split; vm_compute; reflexivity.
Defined.

(** ** The verbosity flag *)






(** ** Edges of a chat turn *)

Lemma chat_no_conversation `{Assets} self prompt w :
  conversations w !! self = None ->
  chat self prompt w = (Raises NoSuchObject, w).
Proof.
  intros Hc. unfold chat, bind, get_conversation_object. rewrite Hc. reflexivity.
Qed.

(** X9: without the verbosity flag in the environment, [chat] raises
    [KeyError] for the flag after it has appended the user message: the
    message stays in the transcript, and nothing is sent, printed or
    counted. *)
Theorem chat_without_flag `{Assets}
    (self : nat) (prompt : string) (w : world) (conv : _GPTConversation) :
  conversations w !! self = Some conv ->
  environ w !! "VERBOSE" = None ->
  exists w',
    chat self prompt w = (Raises (KeyError "VERBOSE"), w')
    /\ (exists conv',
          conversations w' !! self = Some conv'
          /\ messages conv' = messages conv ++ [HumanMessage prompt])
    /\ trace w' = trace w
    /\ served w' = served w
    /\ sessions w' = sessions w.
Proof.
  intros Hconv Hv.
  rewrite (chat_eq self prompt w conv Hconv). cbv zeta. rewrite Hv.
  eexists. split; [reflexivity|]. split; [|repeat split].
  exists (append_message (HumanMessage prompt) conv). split; [|reflexivity].
  apply list_lookup_insert_eq. eapply lookup_lt_Some; exact Hconv.
Qed.

Lemma chat_without_flag_witness :
  exists w' conv',
    @chat sample_assets 0 "hello" (without_flag (ready (Answers [] (AIMessage "hi"))))
    = (Raises (KeyError "VERBOSE"), w')
    /\ conversations w' !! 0 = Some conv'
    /\ messages conv' = [HumanMessage "hello"]
    /\ trace w' = [].
Proof.
  set (w := without_flag (ready (Answers [] (AIMessage "hi")))).
  assert (Hconv : conversations w !! 0 = Some sample_conversation)
    by (vm_compute; reflexivity).
  assert (Hv : environ w !! "VERBOSE" = None) by (vm_compute; reflexivity).
  pose proof (@chat_without_flag sample_assets 0 "hello" w sample_conversation
                Hconv Hv) as T.
  destruct T as (w' & Hchat & (conv' & Hl & Hm) & Ht & _).
  exists w', conv'. split; [exact Hchat|]. split; [exact Hl|].
  split; [rewrite Hm; reflexivity|]. rewrite Ht. vm_compute. reflexivity.
Defined.

(** No cost line is printed before the cost callback. *)
Lemma printed_costs_app e1 e2 :
  printed_costs (e1 ++ e2) = printed_costs e1 ++ printed_costs e2.
Proof. apply omap_app. Qed.

Lemma printed_costs_echo b prompt : printed_costs (echo b prompt) = [].
Proof. destruct b; reflexivity. Qed.

Lemma printed_costs_green (hs : list handler) token :
  printed_costs (map (fun _ => ev_print_colored [""; token; "green"] (Some "")) hs) = [].
Proof. induction hs as [|h hs IH]; [reflexivity | exact IH]. Qed.

Lemma printed_costs_streamed llm tokens : printed_costs (streamed llm tokens) = [].
Proof.
  unfold streamed. induction tokens as [|t tokens IH]; [reflexivity|].
  simpl. rewrite printed_costs_app, IH, app_nil_r. apply printed_costs_green.
Qed.

Lemma printed_costs_shown llm tokens : printed_costs (shown llm tokens) = [].
Proof.
  unfold shown. destruct (kw_verbose llm); [apply printed_costs_streamed | reflexivity].
Qed.

Lemma printed_costs_retries o r : forall more attempt,
  printed_costs (fst (retries o r attempt more)) = [].
Proof.
  induction more as [|more IH]; intros attempt; simpl.
  - destruct (o attempt) as [t a | [|t ts] e]; reflexivity.
  - destruct (o attempt) as [t a | [|t ts] e]; try reflexivity.
    destruct (retried e); [apply IH | reflexivity].
Qed.

Lemma printed_costs_blank_line (b : bool) :
  printed_costs (if b then [ev_print []] else []) = [].
Proof. destruct b; reflexivity. Qed.

Lemma printed_costs_asked self conv v prompt w :
  printed_costs (trace (asked self conv v prompt w)) = printed_costs (trace w).
Proof.
  cbn [asked extend trace set_conversations].
  rewrite !printed_costs_app, printed_costs_echo. simpl.
  rewrite printed_costs_app, printed_costs_shown, app_nil_r.
  unfold settled. rewrite printed_costs_retries, app_nil_r. reflexivity.
Qed.

(** X10: when [CHARS_PER_TOKEN] is zero, a turn whose backend call returns
    a response still ends in [ZeroDivisionError], raised by
    [calculate_money_spent] inside the cost callback. By then the counters
    of the session have been increased and, after what the backend call
    wrote, the blank line of a verbose turn and the first blank line of the
    cost report have been printed; the cost line is not printed, and the
    response never reaches the transcript, which ends with the user
    message. *)
Theorem chat_cost_failure `{Assets}
    (self : nat) (prompt : string) (w : world) (conv : _GPTConversation)
    (v : string) (s : GPTSession) (response : BaseMessage) :
  conversations w !! self = Some conv ->
  environ w !! "VERBOSE" = Some v ->
  sessions w !! self_cost_callback conv = Some s ->
  fst (call (_chat conv) (chat_messages conv prompt) w) = Returns response ->
  Float.is_zero CHARS_PER_TOKEN = true ->
  Float.is_infinity
    (Float.of_int (chars_prompt_so_far s + chars (chat_messages conv prompt))) = false ->
  exists w',
    chat self prompt w = (Raises ZeroDivisionError, w')
    /\ (exists s',
          sessions w' !! self_cost_callback conv = Some s'
          /\ chars_prompt_so_far s'
             = (chars_prompt_so_far s + chars (chat_messages conv prompt))%Z
          /\ chars_generation_so_far s'
             = (chars_generation_so_far s + len (content response))%Z)
    /\ (exists conv',
          conversations w' !! self = Some conv'
          /\ messages conv' = messages conv ++ [HumanMessage prompt])
    /\ (exists evs,
          trace (snd (call (_chat conv) (chat_messages conv prompt) w))
          = trace w ++ evs
          /\ trace w'
             = trace w ++ echo (is_verbose v) prompt ++ evs
               ++ (if is_verbose v then [ev_print []] else [])
               ++ [ev_print [LF]])
    /\ printed_costs (trace w') = printed_costs (trace w).
Proof.
  intros Hconv Hv Hs Hcall Hzero Hfin.
  rewrite call_eq in Hcall |- *. cbn [fst snd] in Hcall |- *.
  fold (chat_request conv prompt) in Hcall |- *.
  rewrite (chat_eq self prompt w conv Hconv). cbv zeta. rewrite Hv.
  destruct (snd (settled w (chat_request conv prompt))) as [tokens response' | tokens e]
    eqn:Ha; [|discriminate].
  injection Hcall as ->. rewrite Hs.
  set (s' := charged (chars (chat_messages conv prompt)) (len (content response)) s).
  assert (Hbill : bill s' = Raises ZeroDivisionError).
  { unfold bill, money. cbn [s' charged add_chars_generation add_chars_prompt
                             chars_prompt_so_far pricing_prompt].
    rewrite Hfin, Hzero. reflexivity. }
  rewrite Hbill. eexists. split; [reflexivity|].
  split.
  { exists s'. split; [|split; reflexivity].
    cbn [sessions record set_sessions].
    apply list_lookup_insert_eq. eapply lookup_lt_Some; exact Hs. }
  split.
  { exists (append_message (HumanMessage prompt) conv). split; [|reflexivity].
    cbn [conversations record set_sessions asked extend set_conversations].
    apply list_lookup_insert_eq. eapply lookup_lt_Some; exact Hconv. }
  split.
  { eexists. split; [reflexivity|].
    cbn [trace record set_sessions asked extend set_conversations].
    unfold cost_report. rewrite Hbill, Ha.
    repeat (rewrite <- app_assoc || rewrite <- app_comm_cons). reflexivity. }
  cbn [trace record set_sessions].
  rewrite !printed_costs_app, printed_costs_blank_line.
  unfold cost_report. rewrite Hbill.
  change (printed_costs [ev_print [LF]]) with (@nil string).
  rewrite !app_nil_r. apply printed_costs_asked.
Qed.

Lemma chat_cost_failure_witness :
  exists w' s' conv',
    @chat zero_assets 0 "hello" (ready_zero (Answers [] (AIMessage "hi")))
    = (Raises ZeroDivisionError, w')
    /\ sessions w' !! 0 = Some s'
    /\ chars_generation_so_far s' = 2%Z
    /\ conversations w' !! 0 = Some conv'
    /\ messages conv' = [HumanMessage "hello"]
    /\ printed_costs (trace w') = [].
Proof.
  set (w := ready_zero (Answers [] (AIMessage "hi"))).
  eassert (Hconv : conversations w !! 0 = Some _) by (vm_compute; reflexivity).
  eassert (Hs : sessions w !! 0 = Some _) by (vm_compute; reflexivity).
  assert (Hv : environ w !! "VERBOSE" = Some "false") by (vm_compute; reflexivity).
  pose proof (@chat_cost_failure zero_assets 0 "hello" w _ "false" _ (AIMessage "hi")
                Hconv Hv Hs eq_refl eq_refl eq_refl) as T.
  destruct T as (w' & Hchat & (s' & Hs' & _ & Hg) & (conv' & Hl & Hm) & _ & Hp).
  exists w', s', conv'. split; [exact Hchat|]. split; [exact Hs'|].
  split; [rewrite Hg; reflexivity|]. split; [exact Hl|].
  split; [rewrite Hm; reflexivity|]. rewrite Hp. vm_compute. reflexivity.
Defined.

(** The sleeps and the attempts of a chat turn are those of the backend
    call. *)
Lemma sleeps_of_echo b prompt : sleeps_of (echo b prompt) = [].
Proof. destruct b; reflexivity. Qed.

Lemma sleeps_of_green (hs : list handler) token :
  sleeps_of (map (fun _ => ev_print_colored [""; token; "green"] (Some "")) hs) = [].
Proof. induction hs as [|h hs IH]; [reflexivity | exact IH]. Qed.

Lemma sleeps_of_streamed llm tokens : sleeps_of (streamed llm tokens) = [].
Proof.
  unfold streamed. induction tokens as [|t tokens IH]; [reflexivity|].
  simpl. rewrite sleeps_of_app, IH, app_nil_r. apply sleeps_of_green.
Qed.

Lemma sleeps_of_shown llm tokens : sleeps_of (shown llm tokens) = [].
Proof. unfold shown. destruct (kw_verbose llm); [apply sleeps_of_streamed | reflexivity]. Qed.

Lemma sleeps_of_cost_report `{Assets} s : sleeps_of (cost_report s) = [].
Proof. unfold cost_report. destruct (bill s); reflexivity. Qed.

Lemma sleeps_of_blank_line (b : bool) :
  sleeps_of (if b then [ev_print []] else []) = [].
Proof. destruct b; reflexivity. Qed.

Lemma sleeps_of_asked self conv v prompt w :
  sleeps_of (trace (asked self conv v prompt w))
  = sleeps_of (trace w) ++ sleeps_of (fst (settled w (chat_request conv prompt))).
Proof.
  cbn [asked extend trace set_conversations].
  rewrite !sleeps_of_app, sleeps_of_echo. simpl.
  rewrite sleeps_of_app, sleeps_of_shown, app_nil_r. reflexivity.
Qed.

Lemma attempts_of_app e1 e2 : attempts_of (e1 ++ e2) = attempts_of e1 ++ attempts_of e2.
Proof. apply omap_app. Qed.

Lemma attempts_of_echo b prompt : attempts_of (echo b prompt) = [].
Proof. destruct b; reflexivity. Qed.

Lemma attempts_of_green (hs : list handler) token :
  attempts_of (map (fun _ => ev_print_colored [""; token; "green"] (Some "")) hs) = [].
Proof. induction hs as [|h hs IH]; [reflexivity | exact IH]. Qed.

Lemma attempts_of_streamed llm tokens : attempts_of (streamed llm tokens) = [].
Proof.
  unfold streamed. induction tokens as [|t tokens IH]; [reflexivity|].
  simpl. rewrite attempts_of_app, IH, app_nil_r. apply attempts_of_green.
Qed.

Lemma attempts_of_shown llm tokens : attempts_of (shown llm tokens) = [].
Proof. unfold shown. destruct (kw_verbose llm); [apply attempts_of_streamed | reflexivity]. Qed.

Lemma attempts_of_cost_report `{Assets} s : attempts_of (cost_report s) = [].
Proof. unfold cost_report. destruct (bill s); reflexivity. Qed.

Lemma attempts_of_blank_line (b : bool) :
  attempts_of (if b then [ev_print []] else []) = [].
Proof. destruct b; reflexivity. Qed.

Lemma attempts_of_asked self conv v prompt w :
  attempts_of (trace (asked self conv v prompt w))
  = attempts_of (trace w) ++ attempts_of (fst (settled w (chat_request conv prompt))).
Proof.
  cbn [asked extend trace set_conversations].
  rewrite !attempts_of_app, attempts_of_echo. simpl.
  rewrite attempts_of_app, attempts_of_shown, app_nil_r. reflexivity.
Qed.

Lemma attempts_of_retry r seconds evs :
  attempts_of (ev_attempt r :: ev_sleep seconds :: evs) = r :: attempts_of evs.
Proof. reflexivity. Qed.

Lemma sleeps_of_retry r seconds evs :
  sleeps_of (ev_attempt r :: ev_sleep seconds :: evs) = seconds :: sleeps_of evs.
Proof. reflexivity. Qed.

(** Whatever the provider answers, a call makes at least one attempt and at
    most [more] further ones, each after a pause that doubles. *)
Lemma retries_bounded o r : forall more attempt,
  exists k,
    k <= more
    /\ attempts_of (fst (retries o r attempt more)) = repeat r (S k)
    /\ sleeps_of (fst (retries o r attempt more))
       = map wait_exponential (seq attempt k).
Proof.
  induction more as [|more IH]; intros attempt; simpl.
  - exists 0. split; [lia|].
    destruct (o attempt) as [t a | [|t ts] e]; split; reflexivity.
  - destruct (o attempt) as [t a | [|t ts] e];
      try (exists 0; split; [lia|]; split; reflexivity).
    destruct (retried e); [|exists 0; split; [lia|]; split; reflexivity].
    destruct (IH (S attempt)) as (k & Hk & Ha & Hs).
    exists (S k). split; [lia|]. cbn [fst].
    rewrite attempts_of_retry, sleeps_of_retry, Ha, Hs. split; reflexivity.
Qed.

(** A retried exception at every attempt: all the attempts are made, and the
    exception is the answer of the call. *)
Lemma retries_persistent o r e :
  retried e = true ->
  forall more attempt,
    (forall j, j <= more -> o (attempt + j) = Fails [] e) ->
    attempts_of (fst (retries o r attempt more)) = repeat r (S more)
    /\ sleeps_of (fst (retries o r attempt more))
       = map wait_exponential (seq attempt more)
    /\ snd (retries o r attempt more) = Fails [] e.
Proof.
  intros He. induction more as [|more IH]; intros attempt Ho.
  - pose proof (Ho 0 (le_n 0)) as H0. rewrite Nat.add_0_r in H0.
    simpl. rewrite H0. repeat split.
  - pose proof (Ho 0 (Nat.le_0_l _)) as H0. rewrite Nat.add_0_r in H0.
    simpl. rewrite H0, He.
    destruct (IH (S attempt)) as (Ha & Hs & Hr).
    { intros j Hj. replace (S attempt + j) with (attempt + S j) by lia.
      apply Ho. lia. }
    cbn [fst snd].
    rewrite attempts_of_retry, sleeps_of_retry, Ha, Hs. repeat split. exact Hr.
Qed.

(** What a chat turn does on the network is what its backend call does. *)
Lemma chat_network `{Assets} self prompt w conv v :
  conversations w !! self = Some conv ->
  environ w !! "VERBOSE" = Some v ->
  attempts_of (trace (snd (chat self prompt w)))
  = attempts_of (trace w) ++ attempts_of (fst (settled w (chat_request conv prompt)))
  /\ sleeps_of (trace (snd (chat self prompt w)))
     = sleeps_of (trace w) ++ sleeps_of (fst (settled w (chat_request conv prompt)))
  /\ served (snd (chat self prompt w)) = served w + 1.
Proof.
  intros Hconv Hv. rewrite (chat_eq self prompt w conv Hconv). cbv zeta.
  rewrite Hv.
  destruct (snd (settled w (chat_request conv prompt))) as [tokens response | tokens e].
  2:{ cbn [snd]. split; [apply attempts_of_asked|].
      split; [apply sleeps_of_asked | reflexivity]. }
  destruct (sessions w !! self_cost_callback conv) as [s|].
  - destruct (bill _) as [amount | e];
      cbn [snd trace served set_conversations record set_sessions];
      rewrite !attempts_of_app, !sleeps_of_app, attempts_of_cost_report,
        sleeps_of_cost_report, attempts_of_blank_line, sleeps_of_blank_line,
        !app_nil_r;
      (split; [apply attempts_of_asked|]);
      (split; [apply sleeps_of_asked | reflexivity]).
  - cbn [snd trace served record].
    rewrite attempts_of_app, sleeps_of_app, attempts_of_blank_line,
      sleeps_of_blank_line, !app_nil_r.
    split; [apply attempts_of_asked|].
    split; [apply sleeps_of_asked | reflexivity].
Qed.

(** X11: a call of [chat] hands its request to the backend object at most
    once, and the object makes at most 6 attempts for it, with a pause after
    each attempt but the last: 1 second, then 2, 4, 8 and 16 seconds. In
    particular, when the provider rate limits every one of the 6 attempts of
    a turn, [chat] raises the rate limit error to its caller after 6
    attempts and pauses of 1, 2, 4, 8 and 16 seconds. *)
Theorem chat_attempts_bounded `{Assets} (self : nat) (prompt : string) (w : world) :
  (exists n,
     n <= 6
     /\ length (attempts_of (trace (snd (chat self prompt w))))
        = length (attempts_of (trace w)) + n
     /\ sleeps_of (trace (snd (chat self prompt w)))
        = sleeps_of (trace w) ++ map wait_exponential (seq 1 (n - 1)))
  /\ served w <= served (snd (chat self prompt w)) <= served w + 1
  /\ (forall conv,
        conversations w !! self = Some conv ->
        is_Some (environ w !! "VERBOSE") ->
        (forall attempt, 1 <= attempt <= 6 ->
           outcome w (served w) (chat_request conv prompt) attempt
           = Fails [] RateLimitError) ->
        fst (chat self prompt w) = Raises RateLimitError
        /\ attempts_of (trace (snd (chat self prompt w)))
           = attempts_of (trace w) ++ repeat (chat_request conv prompt) 6
        /\ sleeps_of (trace (snd (chat self prompt w)))
           = sleeps_of (trace w) ++ [1; 2; 4; 8; 16]%Z
        /\ requests_of (trace (snd (chat self prompt w)))
           = requests_of (trace w) ++ [chat_request conv prompt]).
Proof.
  destruct (conversations w !! self) as [conv|] eqn:Hconv.
  2:{ rewrite (chat_no_conversation self prompt w Hconv). cbn [fst snd].
      split; [exists 0; split; [lia|]; rewrite !app_nil_r, Nat.add_0_r; split; reflexivity|].
      split; [lia|]. intros conv Hc. discriminate. }
  destruct (environ w !! "VERBOSE") as [v|] eqn:Hv.
  2:{ rewrite (chat_eq self prompt w conv Hconv). cbv zeta. rewrite Hv.
      cbn [fst snd trace served set_conversations].
      split; [exists 0; split; [lia|]; rewrite !app_nil_r, Nat.add_0_r; split; reflexivity|].
      split; [lia|]. intros conv0 _ [x Hx]. discriminate. }
  destruct (chat_network self prompt w conv v Hconv Hv) as (Ha & Hs & Hn).
  split; [|split; [lia|]].
  - destruct (retries_bounded (outcome w (served w) (chat_request conv prompt))
                (chat_request conv prompt) 5 1) as (k & Hk & Hak & Hsk).
    exists (S k). split; [lia|]. rewrite Ha, Hs. unfold settled.
    rewrite Hak, Hsk, length_app, repeat_length.
    replace (S k - 1) with k by lia. split; reflexivity.
  - intros conv0 E _ Hrate. injection E as <-.
    destruct (retries_persistent (outcome w (served w) (chat_request conv prompt))
                (chat_request conv prompt) RateLimitError eq_refl 5 1)
      as (Hap & Hsp & Hrp).
    { intros j Hj. apply Hrate. lia. }
    split.
    { rewrite (chat_eq self prompt w conv Hconv). cbv zeta. rewrite Hv.
      unfold settled. rewrite Hrp. reflexivity. }
    split; [rewrite Ha; unfold settled; rewrite Hap; reflexivity|].
    split; [rewrite Hs; unfold settled; rewrite Hsp; reflexivity|].
    apply (chat_sends self prompt w conv v Hconv Hv).
Qed.

Lemma chat_attempts_bounded_witness :
  fst (@chat sample_assets 0 "hello" (ready (Fails [] RateLimitError)))
  = Raises RateLimitError
  /\ sleeps_of (trace (snd (@chat sample_assets 0 "hello" (ready (Fails [] RateLimitError)))))
     = [1; 2; 4; 8; 16]%Z
  /\ length (attempts_of
               (trace (snd (@chat sample_assets 0 "hello"
                              (ready (Fails [] RateLimitError)))))) = 6.
Proof.
  set (w := ready (Fails [] RateLimitError)).
  pose proof (@chat_attempts_bounded sample_assets 0 "hello" w) as T.
  destruct T as (_ & _ & Hrate).
  assert (Hv : is_Some (environ w !! "VERBOSE"))
    by (vm_compute; eexists; reflexivity).
  assert (Hall : forall attempt, 1 <= attempt <= 6 ->
            outcome w (served w) (chat_request sample_conversation "hello") attempt
            = Fails [] RateLimitError).
  { intros attempt _. unfold outcome.
    replace (rejections w (served w) (chat_request sample_conversation "hello"))
      with (@nil exn) by reflexivity.
    rewrite lookup_nil. reflexivity. }
  destruct (Hrate sample_conversation (ready_conversation _) Hv Hall)
    as (Hr & Ha & Hs & _).
  split; [exact Hr|]. split; [rewrite Hs; reflexivity|].
  rewrite Ha. reflexivity.
Defined.

(** ** What a turn costs and prints *)

Lemma sum_app (l1 l2 : list Z) : sum (l1 ++ l2) = (sum l1 + sum l2)%Z.
Proof.
  induction l1 as [|x l1 IH]; [unfold sum; simpl; lia|].
  change ((x :: l1) ++ l2) with (x :: (l1 ++ l2)).
  rewrite !sum_cons, IH. lia.
Qed.

Lemma chars_cons m msgs : chars (m :: msgs) = (len (content m) + chars msgs)%Z.
Proof. unfold chars. rewrite map_cons, sum_cons. reflexivity. Qed.

Lemma chars_app l1 l2 : chars (l1 ++ l2) = (chars l1 + chars l2)%Z.
Proof. unfold chars. rewrite map_app, sum_app. reflexivity. Qed.

Lemma chars_nil : chars [] = 0%Z.
Proof. reflexivity. Qed.

(** X12: the whole transcript is sent again and counted again on every
    turn: after a turn that returned, the request of the next turn has the
    characters of the request of this turn, plus those of the reply, plus
    those of the next prompt. *)
Theorem chat_resend_grows `{Assets}
    (self : nat) (prompt : string) (w : world) (conv : _GPTConversation)
    (reply : string) (w1 : world) :
  conversations w !! self = Some conv ->
  chat self prompt w = (Returns reply, w1) ->
  exists conv1,
    conversations w1 !! self = Some conv1
    /\ forall prompt',
         chars (chat_messages conv1 prompt')
         = (chars (chat_messages conv prompt) + len reply + len prompt')%Z.
Proof.
  intros Hconv Hchat.
  destruct (chat_frame _ _ _ _ _ _ Hconv Hchat)
    as (_ & _ & (conv1 & Hcs & _ & Hsys & _ & Hms) & _).
  destruct Hms as [[_ [e He]] | (tokens & response & _ & Hr & Hms)]; [discriminate|].
  injection Hr as ->.
  exists conv1. split.
  { rewrite Hcs. apply list_lookup_insert_eq. eapply lookup_lt_Some; exact Hconv. }
  intros prompt'. unfold chat_messages. rewrite Hsys, Hms.
  rewrite !chars_cons, !chars_app, !chars_cons, !chars_nil. simpl content. lia.
Qed.

Lemma chat_resend_grows_witness :
  exists conv1,
    conversations
      (snd (@chat sample_assets 0 "hello" (ready (Answers [] (AIMessage "hi")))))
    !! 0 = Some conv1
    /\ chars (chat_messages conv1 "world") = (32 + 2 + 5)%Z.
Proof.
  set (w := ready (Answers [] (AIMessage "hi"))).
  assert (Hchat : @chat sample_assets 0 "hello" w
                  = (Returns "hi", snd (@chat sample_assets 0 "hello" w)))
    by (vm_compute; reflexivity).
  pose proof (@chat_resend_grows sample_assets 0 "hello" w sample_conversation "hi" _
                (ready_conversation _) Hchat) as T.
  destruct T as (conv1 & Hl & Hgrow).
  exists conv1. split; [exact Hl|]. rewrite (Hgrow "world"). reflexivity.
Defined.

Lemma streamed_single llm tokens :
  kw_callback_manager llm = [AssistantStreamingStdOutCallbackHandler] ->
  streamed llm tokens = map green tokens.
Proof.
  intros Hh. unfold streamed. rewrite Hh.
  induction tokens as [|t tokens IH]; [reflexivity|].
  simpl. rewrite <- IH. reflexivity.
Qed.

(** X13: what a turn that returns writes, in order, for a conversation with
    the handler of this module, when the provider answers the first attempt:
    the echo of the prompt and the header of the assistant when the
    verbosity flag is on, the call of the backend and its one attempt,
    every token of the answer once and in the order received, without a line
    end, when the conversation was constructed verbose and none of them
    otherwise, a blank line when the flag is on, and the cost report, which
    is printed whether verbose or not: a blank line, the running cost, a
    blank line. *)
Theorem chat_turn_trace `{Assets}
    (self : nat) (prompt : string) (w : world) (conv : _GPTConversation)
    (v : string) (tokens : list string) (response : BaseMessage)
    (reply : string) (w' : world) :
  conversations w !! self = Some conv ->
  environ w !! "VERBOSE" = Some v ->
  kw_callback_manager (_chat conv) = [AssistantStreamingStdOutCallbackHandler] ->
  rejections w (served w) (chat_request conv prompt) = [] ->
  upcoming w 0 (chat_request conv prompt) = Answers tokens response ->
  chat self prompt w = (Returns reply, w') ->
  exists amount,
    trace w'
    = trace w
      ++ (if is_verbose v
          then [ev_print_colored ["user"; prompt; "blue"] None;
                ev_print_colored ["assistant"; ""; "green"] (Some "")]
          else [])
      ++ [ev_request (chat_request conv prompt);
          ev_attempt (chat_request conv prompt)]
      ++ (if kw_verbose (_chat conv) then map green tokens else [])
      ++ (if is_verbose v then [ev_print []] else [])
      ++ [ev_print [LF];
          ev_print ["Total money spent so far on openai.com:"; amount];
          ev_print [LF]].
Proof.
  intros Hconv Hv Hh Hrej Ha Hchat.
  rewrite (chat_eq self prompt w conv Hconv) in Hchat. cbv zeta in Hchat.
  pose proof (settled_first w _ tokens response Hrej Ha) as Hset.
  rewrite Hv, Hset in Hchat. cbn [snd] in Hchat.
  destruct (sessions w !! self_cost_callback conv) as [s|]; [|discriminate].
  set (s' := charged (chars (chat_messages conv prompt)) (len (content response)) s)
    in Hchat.
  destruct (bill s') as [amount | e] eqn:Hbill; [|discriminate].
  injection Hchat as _ <-. exists amount.
  cbn [trace set_conversations record set_sessions asked extend].
  unfold cost_report. rewrite Hbill, Hset. cbn [fst snd answer_tokens].
  unfold shown. rewrite (streamed_single _ tokens Hh).
  fold (echo (is_verbose v) prompt).
  repeat (rewrite <- app_assoc || rewrite <- app_comm_cons). reflexivity.
Qed.

(** A verbose conversation prints the tokens, between the header of the
    assistant and the blank line; a quiet one prints none of them. *)
Lemma chat_turn_trace_witness :
  (exists conv amount,
     conversations (ready_verbose (Answers ["h"; "i"] (AIMessage "hi"))) !! 0 = Some conv
     /\ trace (snd (@chat sample_assets 0 "hello"
                      (ready_verbose (Answers ["h"; "i"] (AIMessage "hi")))))
        = trace (ready_verbose (Answers ["h"; "i"] (AIMessage "hi")))
          ++ [ev_print_colored ["user"; "hello"; "blue"] None;
              ev_print_colored ["assistant"; ""; "green"] (Some "");
              ev_request (chat_request conv "hello");
              ev_attempt (chat_request conv "hello");
              green "h"; green "i";
              ev_print [];
              ev_print [LF];
              ev_print ["Total money spent so far on openai.com:"; amount];
              ev_print [LF]])
  /\ (exists amount,
        trace (snd (@chat sample_assets 0 "hello"
                      (ready (Answers ["h"; "i"] (AIMessage "hi")))))
        = [ev_request (chat_request sample_conversation "hello");
           ev_attempt (chat_request sample_conversation "hello");
           ev_print [LF];
           ev_print ["Total money spent so far on openai.com:"; amount];
           ev_print [LF]]).
Proof.
  split.
  - set (w := ready_verbose (Answers ["h"; "i"] (AIMessage "hi"))).
    eassert (Hconv : conversations w !! 0 = Some _) by (vm_compute; reflexivity).
    assert (Hv : environ w !! "VERBOSE" = Some "True") by (vm_compute; reflexivity).
    assert (Hchat : @chat sample_assets 0 "hello" w
                    = (Returns "hi", snd (@chat sample_assets 0 "hello" w)))
      by (vm_compute; reflexivity).
    pose proof (@chat_turn_trace sample_assets 0 "hello" w _ "True"
                  ["h"; "i"] (AIMessage "hi") "hi" _
                  Hconv Hv eq_refl eq_refl eq_refl Hchat) as T.
    destruct T as (amount & Ht).
    eexists _, amount. split; [exact Hconv|]. rewrite Ht. reflexivity.
  - set (w := ready (Answers ["h"; "i"] (AIMessage "hi"))).
    assert (Hv : environ w !! "VERBOSE" = Some "false") by (vm_compute; reflexivity).
    assert (Hchat : @chat sample_assets 0 "hello" w
                    = (Returns "hi", snd (@chat sample_assets 0 "hello" w)))
      by (vm_compute; reflexivity).
    pose proof (@chat_turn_trace sample_assets 0 "hello" w sample_conversation "false"
                  ["h"; "i"] (AIMessage "hi") "hi" _
                  (ready_conversation _) Hv eq_refl eq_refl eq_refl Hchat) as T.
    destruct T as (amount & Ht).
    exists amount. rewrite Ht. reflexivity.
Defined.

(** ** What stays along a history *)

Section Stays.

Context `{Assets}.

Lemma chat_session_fixed self prompt w conv r w1 h s :
  conversations w !! self = Some conv ->
  chat self prompt w = (r, w1) ->
  sessions w !! h = Some s ->
  exists s1,
    sessions w1 !! h = Some s1
    /\ model_name s1 = model_name s
    /\ pricing_prompt s1 = pricing_prompt s
    /\ pricing_generation s1 = pricing_generation s
    /\ task_description s1 = task_description s
    /\ test_description s1 = test_description s.
Proof.
  intros Hconv Hchat Hs.
  destruct (chat_frame _ _ _ _ _ _ Hconv Hchat) as (_ & _ & _ & Hss).
  destruct Hss as [[Hsame _] | (s0 & tokens & response & Hs0 & _ & Hsess)].
  - exists s. rewrite Hsame. split; [exact Hs|]. repeat split.
  - rewrite Hsess.
    destruct (decide (self_cost_callback conv = h)) as [<- | Hne].
    + rewrite Hs0 in Hs. injection Hs as ->.
      eexists. split.
      { apply list_lookup_insert_eq. eapply lookup_lt_Some; exact Hs0. }
      repeat split.
    + exists s. split; [rewrite list_lookup_insert_ne by exact Hne; exact Hs|].
      repeat split.
Qed.

Lemma chat_conversation_grows self prompt w conv0 r w1 c conv :
  conversations w !! self = Some conv0 ->
  chat self prompt w = (r, w1) ->
  conversations w !! c = Some conv ->
  exists conv',
    conversations w1 !! c = Some conv'
    /\ messages conv `prefix_of` messages conv'
    /\ system_message conv' = system_message conv
    /\ _chat conv' = _chat conv
    /\ self_cost_callback conv' = self_cost_callback conv.
Proof.
  intros Hconv0 Hchat Hconv.
  destruct (chat_frame _ _ _ _ _ _ Hconv0 Hchat)
    as (_ & _ & (conv1 & Hcs & Hllm & Hsys & Hself & Hms) & _).
  rewrite Hcs.
  destruct (decide (self = c)) as [<- | Hne].
  - rewrite Hconv0 in Hconv. injection Hconv as ->.
    exists conv1. split.
    { apply list_lookup_insert_eq. eapply lookup_lt_Some; exact Hconv0. }
    split; [|repeat split; assumption].
    destruct Hms as [[-> _] | (tokens & response & _ & _ & ->)];
      eexists; reflexivity.
  - exists conv. split; [rewrite list_lookup_insert_ne by exact Hne; exact Hconv|].
    repeat split. reflexivity.
Qed.

End Stays.

(** X14: what the constructor chose for a session stays for good: along any
    history the session is still in the store, at its position, with the
    same model name, the same two prices and the same two descriptions. *)
Theorem history_session_fixed `{Assets}
    (w : world) (es : list entry) (w' : world) (h : nat) (s : GPTSession) :
  history w es w' ->
  sessions w !! h = Some s ->
  exists s',
    sessions w' !! h = Some s'
    /\ model_name s' = model_name s
    /\ pricing_prompt s' = pricing_prompt s
    /\ pricing_generation s' = pricing_generation s
    /\ task_description s' = task_description s
    /\ test_description s' = test_description s.
Proof.
  intros Hh. revert s.
  induction Hh as [w | w self prompt conv reply w1 es w2 Hconv Hchat _ IH
                     | w self prompt conv e w1 es w2 Hconv Hchat _ IH
                     | w session examples r w1 es w2 Hget _ IH
                     | w task test model r w1 es w2 Hinit _ IH];
    intros s Hs.
  - exists s. split; [exact Hs|]. repeat split.
  - destruct (chat_session_fixed _ _ _ _ _ _ h s Hconv Hchat Hs)
      as (s1 & Hs1 & E1 & E2 & E3 & E4 & E5).
    destruct (IH s1 Hs1) as (s' & Hs' & F1 & F2 & F3 & F4 & F5).
    exists s'. split; [exact Hs'|]. repeat split; congruence.
  - destruct (chat_session_fixed _ _ _ _ _ _ h s Hconv Hchat Hs)
      as (s1 & Hs1 & E1 & E2 & E3 & E4 & E5).
    destruct (IH s1 Hs1) as (s' & Hs' & F1 & F2 & F3 & F4 & F5).
    exists s'. split; [exact Hs'|]. repeat split; congruence.
  - destruct (get_conversation_frame _ _ _ _ _ Hget) as (_ & _ & Hss & _).
    rewrite <- Hss in Hs. apply (IH s Hs).
  - apply (IH s).
    destruct (GPTSession__init__frame _ _ _ _ _ _ Hinit)
      as (_ & _ & _ & [[-> _] | (s0 & -> & _)]); [exact Hs|].
    apply lookup_app_l_Some. exact Hs.
Qed.

(** X15: a transcript only grows, at its end: along any history a
    conversation is still in the store, at its position, bound to the same
    session, with the same system message and the same backend settings, and
    its earlier transcript is a prefix of its later one. *)
Theorem history_transcript_grows `{Assets}
    (w : world) (es : list entry) (w' : world) (c : nat) (conv : _GPTConversation) :
  history w es w' ->
  conversations w !! c = Some conv ->
  exists conv',
    conversations w' !! c = Some conv'
    /\ messages conv `prefix_of` messages conv'
    /\ system_message conv' = system_message conv
    /\ _chat conv' = _chat conv
    /\ self_cost_callback conv' = self_cost_callback conv.
Proof.
  intros Hh. revert conv.
  induction Hh as [w | w self prompt conv0 reply w1 es w2 Hconv0 Hchat _ IH
                     | w self prompt conv0 e w1 es w2 Hconv0 Hchat _ IH
                     | w session examples r w1 es w2 Hget _ IH
                     | w task test model r w1 es w2 Hinit _ IH];
    intros conv Hconv.
  - exists conv. split; [exact Hconv|]. repeat split. reflexivity.
  - destruct (chat_conversation_grows _ _ _ _ _ _ c conv Hconv0 Hchat Hconv)
      as (conv1 & Hc1 & P1 & E1 & E2 & E3).
    destruct (IH conv1 Hc1) as (conv' & Hc' & P2 & F1 & F2 & F3).
    exists conv'. split; [exact Hc'|].
    split; [etransitivity; eassumption|]. repeat split; congruence.
  - destruct (chat_conversation_grows _ _ _ _ _ _ c conv Hconv0 Hchat Hconv)
      as (conv1 & Hc1 & P1 & E1 & E2 & E3).
    destruct (IH conv1 Hc1) as (conv' & Hc' & P2 & F1 & F2 & F3).
    exists conv'. split; [exact Hc'|].
    split; [etransitivity; eassumption|]. repeat split; congruence.
  - apply (IH conv).
    destruct (get_conversation_frame _ _ _ _ _ Hget)
      as (_ & _ & _ & [-> | (conv1 & -> & _)]); [exact Hconv|].
    apply lookup_app_l_Some. exact Hconv.
  - apply (IH conv).
    destruct (GPTSession__init__frame _ _ _ _ _ _ Hinit) as (_ & _ & -> & _).
    exact Hconv.
Qed.

Section Consistency.

Context `{Assets}.

Lemma chat_consistent self prompt w conv0 r w1 :
  conversations w !! self = Some conv0 ->
  chat self prompt w = (r, w1) ->
  consistent w -> consistent w1.
Proof.
  intros Hconv0 Hchat Hcons c conv Hc.
  assert (Hold : exists old,
            conversations w !! c = Some old
            /\ _chat conv = _chat old
            /\ system_message conv = system_message old
            /\ self_cost_callback conv = self_cost_callback old).
  { destruct (chat_frame _ _ _ _ _ _ Hconv0 Hchat)
      as (_ & _ & (conv1 & Hcs & Hllm & Hsys & Hself & _) & _).
    rewrite Hcs in Hc.
    destruct (decide (self = c)) as [<- | Hne].
    - rewrite list_lookup_insert_eq in Hc by (eapply lookup_lt_Some; exact Hconv0).
      injection Hc as <-. exists conv0. repeat split; assumption.
    - rewrite list_lookup_insert_ne in Hc by exact Hne.
      exists conv. repeat split. exact Hc. }
  destruct Hold as (old & Hold & Ellm & Esys & Eself).
  destruct (Hcons c old Hold) as (s & text & Hs & Hm & Hst & Hcb & Ht & Hsys).
  destruct (chat_session_fixed _ _ _ _ _ _ _ s Hconv0 Hchat Hs)
    as (s1 & Hs1 & Hname & _).
  exists s1, text. rewrite Ellm, Esys, Eself, Hname.
  repeat split; assumption.
Qed.

Lemma get_conversation_consistent session examples w r w1 :
  get_conversation session examples w = (r, w1) ->
  consistent w -> consistent w1.
Proof.
  rewrite get_conversation_eq. intros Hget Hcons.
  destruct (sessions w !! session) as [s|] eqn:Hs;
    [|injection Hget as _ <-; exact Hcons].
  destruct (environ w !! "VERBOSE") as [v|]; [|injection Hget as _ <-; exact Hcons].
  destruct (String.eqb (credential w) ""); [injection Hget as _ <-; exact Hcons|].
  destruct (format _ _) as [base | e]; [|injection Hget as _ <-; exact Hcons].
  cbv zeta in Hget. injection Hget as _ <-.
  intros c conv Hc. cbn [conversations sessions set_conversations record] in *.
  apply lookup_app_Some in Hc as [Hc | [_ Hc]]; [apply (Hcons c conv Hc)|].
  apply list_lookup_singleton_Some in Hc as [_ <-].
  exists s. eexists. repeat split. exact Hs.
Qed.

Lemma GPTSession__init__consistent task test model w r w1 :
  GPTSession__init__ task test model w = (r, w1) ->
  consistent w -> consistent w1.
Proof.
  intros Hinit Hcons c conv Hc.
  destruct (GPTSession__init__frame _ _ _ _ _ _ Hinit) as (_ & _ & Hcs & Hss).
  rewrite Hcs in Hc.
  destruct (Hcons c conv Hc) as (s & text & Hs & Hrest).
  exists s, text. split; [|exact Hrest].
  destruct Hss as [[-> _] | (s0 & -> & _)]; [exact Hs|].
  apply lookup_app_l_Some. exact Hs.
Qed.

End Consistency.

(** X16: the store stays consistent along any history: every conversation
    is bound to a session of the store and carries the model name of that
    session, streaming, the handler of this module, temperature 0 and a
    system message of the system role. So, with the verbosity flag set, the
    request of every turn is for the model of the session of its
    conversation, streamed, at temperature 0, and its first message has the
    system role. *)
Theorem history_consistent `{Assets} (w : world) (es : list entry) (w' : world) :
  history w es w' ->
  consistent w ->
  consistent w'
  /\ (forall c conv v prompt,
        conversations w' !! c = Some conv ->
        environ w' !! "VERBOSE" = Some v ->
        exists s llm text,
          sessions w' !! self_cost_callback conv = Some s
          /\ requests_of (trace (snd (chat c prompt w')))
             = requests_of (trace w')
               ++ [ChatOpenAI_call llm
                     (SystemMessage text :: messages conv ++ [HumanMessage prompt])]
          /\ kw_model_name llm = model_name s
          /\ kw_streaming llm = true
          /\ kw_temperature llm = 0%Z).
Proof.
  intros Hh Hcons.
  assert (Hcons' : consistent w').
  { induction Hh as [w | w self prompt conv reply w1 es w2 Hconv Hchat _ IH
                       | w self prompt conv e w1 es w2 Hconv Hchat _ IH
                       | w session examples r w1 es w2 Hget _ IH
                       | w task test model r w1 es w2 Hinit _ IH].
    - exact Hcons.
    - apply IH, (chat_consistent _ _ _ _ _ _ Hconv Hchat Hcons).
    - apply IH, (chat_consistent _ _ _ _ _ _ Hconv Hchat Hcons).
    - apply IH, (get_conversation_consistent _ _ _ _ _ Hget Hcons).
    - apply IH, (GPTSession__init__consistent _ _ _ _ _ _ Hinit Hcons). }
  split; [exact Hcons'|].
  intros c conv v prompt Hc Hv.
  destruct (Hcons' c conv Hc) as (s & text & Hs & Hm & Hst & _ & Ht & Hsys).
  exists s, (_chat conv), text. split; [exact Hs|]. split; [|auto].
  rewrite (chat_sends c prompt w' conv v Hc Hv).
  unfold chat_request, chat_messages. rewrite Hsys. reflexivity.
Qed.

(** *** Instances *)

Lemma boot_consistent env p : consistent (boot env p).
Proof. intros c conv Hc. discriminate. Qed.

(** The sample program from the start of the process: a session, a
    conversation, two turns. *)
Lemma sample_history :
  exists w2 w3 w4,
    w2 = ready (Answers [] (AIMessage "hi"))
    /\ w3 = snd (@chat sample_assets 0 "hello" w2)
    /\ w4 = snd (@chat sample_assets 0 "world" w3)
    /\ @history sample_assets (boot sample_environ (always (Answers [] (AIMessage "hi"))))
         [constructed (Returns 0); minted (Returns 0)] w2
    /\ @history sample_assets w2
         [turn 0 (chat_messages sample_conversation "hello") "hi"] w3
    /\ @history sample_assets w3
         [turn 0 (chat_messages
                    (append_message (AIMessage "hi")
                       (append_message (HumanMessage "hello") sample_conversation))
                    "world") "hi"] w4.
Proof.
  set (w0 := boot sample_environ (always (Answers [] (AIMessage "hi")))).
  set (w1 := snd (@GPTSession__init__ sample_assets "task" "test" "gpt-3.5-turbo" w0)).
  set (w2 := ready (Answers [] (AIMessage "hi"))).
  set (w3 := snd (@chat sample_assets 0 "hello" w2)).
  set (w4 := snd (@chat sample_assets 0 "world" w3)).
  set (conv1 := append_message (AIMessage "hi")
                  (append_message (HumanMessage "hello") sample_conversation)).
  exists w2, w3, w4. repeat (split; [reflexivity|]).
  assert (Hinit : @GPTSession__init__ sample_assets "task" "test" "gpt-3.5-turbo" w0
                  = (Returns 0, w1)) by (vm_compute; reflexivity).
  assert (Hget : @get_conversation sample_assets 0 example_names w1 = (Returns 0, w2))
    by (vm_compute; reflexivity).
  assert (Hchat1 : @chat sample_assets 0 "hello" w2 = (Returns "hi", w3))
    by (vm_compute; reflexivity).
  assert (Hconv1 : conversations w3 !! 0 = Some conv1) by (vm_compute; reflexivity).
  assert (Hchat2 : @chat sample_assets 0 "world" w3 = (Returns "hi", w4))
    by (vm_compute; reflexivity).
  split; [|split].
  - eapply history_constructed; [exact Hinit|].
    eapply history_minted; [exact Hget|]. apply history_nil.
  - exact (@history_turn sample_assets w2 0 "hello" sample_conversation "hi" w3 [] w3
             (ready_conversation _) Hchat1 (@history_nil sample_assets w3)).
  - exact (@history_turn sample_assets w3 0 "world" conv1 "hi" w4 [] w4
             Hconv1 Hchat2 (@history_nil sample_assets w4)).
Qed.

Lemma history_session_fixed_witness :
  exists s',
    sessions (snd (@chat sample_assets 0 "hello" (ready (Answers [] (AIMessage "hi")))))
    !! 0 = Some s'
    /\ model_name s' = "gpt-3.5-turbo"
    /\ pricing_prompt s' = @PRICING_GPT3_5_TURBO_PROMPT sample_assets.
Proof.
  destruct sample_history as (w2 & w3 & w4 & -> & -> & _ & _ & Hh & _).
  assert (Hs : sessions (ready (Answers [] (AIMessage "hi"))) !! 0
               = Some (@standard_session sample_assets "task" "test" "gpt-3.5-turbo"))
    by (vm_compute; reflexivity).
  pose proof (@history_session_fixed sample_assets _ _ _ 0 _ Hh Hs) as T.
  destruct T as (s' & Hs' & Hn & Hp & _).
  exists s'. split; [exact Hs'|]. split; [rewrite Hn | rewrite Hp]; reflexivity.
Defined.

Lemma history_transcript_grows_witness :
  exists conv',
    conversations
      (snd (@chat sample_assets 0 "world"
              (snd (@chat sample_assets 0 "hello" (ready (Answers [] (AIMessage "hi")))))))
    !! 0 = Some conv'
    /\ [HumanMessage "hello"; AIMessage "hi"] `prefix_of` messages conv'
    /\ system_message conv' = system_message sample_conversation.
Proof.
  destruct sample_history as (w2 & w3 & w4 & -> & -> & -> & _ & _ & Hh).
  eassert (Hconv : conversations
                     (snd (@chat sample_assets 0 "hello"
                             (ready (Answers [] (AIMessage "hi"))))) !! 0 = Some _)
    by (vm_compute; reflexivity).
  pose proof (@history_transcript_grows sample_assets _ _ _ 0 _ Hh Hconv) as T.
  destruct T as (conv' & Hc' & Hp & Hsys & _).
  exists conv'. split; [exact Hc'|]. split; [exact Hp | exact Hsys].
Defined.

Lemma history_consistent_witness :
  consistent (ready (Answers [] (AIMessage "hi"))).
Proof.
  destruct sample_history as (w2 & w3 & w4 & -> & _ & _ & Hh & _).
  exact (proj1 (@history_consistent sample_assets _ _ _ Hh (boot_consistent _ _))).
Defined.
